(** * talks2web: the batch processor of [generate_talks.py]

    A shallow embedding of the [TalkProcessor] class: metadata loading,
    the per-talk lifecycle, the batch loop and the landing-page renderer,
    over an explicit file system and batch state.

    Python values are an inductive type, exceptions are data, and every
    method of the class is a computation in a small state-and-exception
    monad.  The libraries the script calls ([yaml], [markdown], [re],
    the clock) and the external [script.sh] are variables of the section
    that holds the class. *)

From Stdlib Require Import ZArith String Ascii.
From stdpp Require Import base option list gmap strings sorting pretty.

#[local] Set Warnings "-register-all".
#[local] Open Scope Z_scope.

(** ** Python values *)

(** What [yaml.safe_load] can return for the documents of this program:
    scalars, dates, sequences and mappings with string keys. *)
Inductive pyval :=
| PNone
| PBool (b : bool)
| PInt (n : Z)
| PStr (s : string)
| PDate (year month day : Z)
| PList (l : list pyval)
| PDict (d : gmap string pyval).

(** Exceptions, all of them subclasses of Python's [Exception]. *)
Inductive exn :=
| ValueError (msg : string)
| TypeError (msg : string)
| AttributeError (msg : string)
| KeyError (key : string)
| OSError (msg : string)
| YAMLError (msg : string)
| CalledProcessError (stderr : string)
| ReError (msg : string).

Inductive result (A : Type) :=
| Ok (a : A)
| Raise (e : exn).
Arguments Ok {A} a.
Arguments Raise {A} e.

Definition result_bind {A B} (r : result A) (k : A → result B) : result B :=
  match r with
  | Ok a => k a
  | Raise e => Raise e
  end.

Notation "'try' x := r 'in' k" := (result_bind r (λ x, k))
  (at level 100, x name, r at next level, right associativity).

(** ** Strings *)

Definition dq : string := String (ascii_of_nat 34) EmptyString.
Definition nl : string := String (ascii_of_nat 10) EmptyString.

(** [s.startswith(p)], [s.endswith(p)], [p in s] and [s[i:-j]]. *)
Definition startswith (s p : string) : bool := String.prefix p s.
Definition endswith (s p : string) : bool :=
  String.prefix (String.rev p) (String.rev s).
Definition is_substring (p s : string) : bool :=
  match String.index 0 p s with Some _ => true | None => false end.
Definition slice (i j : nat) (s : string) : string :=
  String.substring i (String.length s - i - j) s.

(** [s.split(sep)] for a separator of one character. *)
Fixpoint str_split (sep : ascii) (s : string) : list string :=
  match s with
  | EmptyString => [EmptyString]
  | String c s' =>
      if bool_decide (c = sep) then EmptyString :: str_split sep s'
      else match str_split sep s' with
           | [] => [String c EmptyString]
           | w :: ws => String c w :: ws
           end
  end.

(** [str(e)] for an exception; a [KeyError] prints the repr of its key. *)
Definition exn_str (e : exn) : string :=
  match e with
  | ValueError m | TypeError m | AttributeError m | OSError m
  | YAMLError m | ReError m => m
  | KeyError k => "'" +:+ k +:+ "'"
  | CalledProcessError _ => "Command returned non-zero exit status"
  end.

(** ** Operations on Python values *)

Definition type_name (v : pyval) : string :=
  match v with
  | PNone => "NoneType"
  | PBool _ => "bool"
  | PInt _ => "int"
  | PStr _ => "str"
  | PDate _ _ _ => "datetime.date"
  | PList _ => "list"
  | PDict _ => "dict"
  end.

(** Truth value: [None], [False], zero and empty containers are false. *)
Definition truthy (v : pyval) : bool :=
  match v with
  | PNone => false
  | PBool b => b
  | PInt n => negb (n =? 0)
  | PStr s => negb (String.eqb s EmptyString)
  | PDate _ _ _ => true
  | PList l => match l with [] => false | _ => true end
  | PDict d => negb (bool_decide (d = ∅))
  end.

Definition is_str (k : string) (v : pyval) : bool :=
  match v with PStr s => String.eqb s k | _ => false end.

(** [k in v] for a string [k]: key membership in a mapping, element
    membership in a sequence, substring test in a string, [TypeError]
    otherwise. *)
Definition py_contains (k : string) (v : pyval) : result bool :=
  match v with
  | PDict d => Ok (bool_decide (is_Some (d !! k)))
  | PList l => Ok (existsb (is_str k) l)
  | PStr s => Ok (is_substring k s)
  | _ => Raise (TypeError ("argument of type '" +:+ type_name v +:+ "' is not iterable"))
  end.

(** [v[k]] for a string [k]. *)
Definition py_getitem (v : pyval) (k : string) : result pyval :=
  match v with
  | PDict d => match d !! k with Some x => Ok x | None => Raise (KeyError k) end
  | PList _ => Raise (TypeError "list indices must be integers or slices, not str")
  | PStr _ => Raise (TypeError "string indices must be integers, not 'str'")
  | _ => Raise (TypeError ("'" +:+ type_name v +:+ "' object is not subscriptable"))
  end.

(** [v[k] = x] for a string [k]; the result is the updated object. *)
Definition py_setitem (v : pyval) (k : string) (x : pyval) : result pyval :=
  match v with
  | PDict d => Ok (PDict (<[k := x]> d))
  | PList _ => Raise (TypeError "list indices must be integers or slices, not str")
  | _ => Raise (TypeError ("'" +:+ type_name v +:+ "' object does not support item assignment"))
  end.

(** [v.get(k)]: only mappings have the method. *)
Definition py_get (v : pyval) (k : string) : result pyval :=
  match v with
  | PDict d => Ok (default PNone (d !! k))
  | _ => Raise (AttributeError ("'" +:+ type_name v +:+ "' object has no attribute 'get'"))
  end.

(** Zero-padded decimal rendering, the format spec [0{width}d]: the sign
    counts towards the width and the zeros go between sign and digits. *)
Fixpoint zeros (n : nat) : string :=
  match n with O => EmptyString | S n => String "0" (zeros n) end.

Definition format_0d (width : nat) (n : Z) : string :=
  let digits := pretty (Z.abs_N n) in
  let sign := if n <? 0 then "-" else EmptyString in
  sign +:+ zeros (width - String.length sign - String.length digits) +:+ digits.

Definition two_digits (n : Z) : string := format_0d 2 n.
Definition four_digits (n : Z) : string := format_0d 4 n.

(** ** Paths and the file system *)

(** A path is the list of its parts, as pathlib keeps it: the root, for
    an absolute path, and the names; [p / c] appends one name.  [str(p)]
    joins the names with slashes behind the root, and is a dot for the
    path without parts. *)
Abbreviation path := (list string).

Definition path_join (p : path) (c : string) : path := p ++ [c].
Infix "//" := path_join (at level 40, left associativity).

Definition is_root (c : string) : bool := String.eqb c "/" || String.eqb c "//".

Definition path_str (p : path) : string :=
  match p with
  | [] => "."
  | r :: names => if is_root r then r +:+ String.concat "/" names else String.concat "/" p
  end.
Definition path_name (p : path) : string := List.last p EmptyString.
Definition path_parent (p : path) : path := removelast p.

Inductive node :=
| File (content : string)
| Dir.

Abbreviation filesystem := (gmap (list string) node).

Definition path_exists (fs : filesystem) (p : path) : bool :=
  match fs !! p with Some _ => true | None => false end.

(** The empty path is the working directory, which always exists. *)
Definition is_dir (fs : filesystem) (p : path) : bool :=
  match p with
  | [] => true
  | _ => match fs !! p with Some Dir => true | _ => false end
  end.

(** [open(p, 'r').read()] *)
Definition read_text (fs : filesystem) (p : path) : result string :=
  match fs !! p with
  | Some (File c) => Ok c
  | Some Dir => Raise (OSError ("[Errno 21] Is a directory: '" +:+ path_str p +:+ "'"))
  | None => Raise (OSError ("[Errno 2] No such file or directory: '" +:+ path_str p +:+ "'"))
  end.

(** [open(p, 'w').write(c)]: the parent must be a directory and [p]
    itself must not be one. *)
Definition write_text (fs : filesystem) (p : path) (c : string) : result filesystem :=
  if negb (is_dir fs (path_parent p)) then
    Raise (OSError ("[Errno 2] No such file or directory: '" +:+ path_str p +:+ "'"))
  else
    match fs !! p with
    | Some Dir => Raise (OSError ("[Errno 21] Is a directory: '" +:+ path_str p +:+ "'"))
    | _ => Ok (<[p := File c]> fs)
    end.

(** [p.mkdir(parents=True, exist_ok=True)]: walk down from the working
    directory, creating what is missing; a file in the way is an error.
    (On a consistent file system nothing is created before the error,
    since everything below a missing directory is missing too.) *)
Fixpoint mkdir_from (fs : filesystem) (done : path) (todo : list string) : result filesystem :=
  match todo with
  | [] => Ok fs
  | c :: rest =>
      let p := done // c in
      match fs !! p with
      | Some Dir => mkdir_from fs p rest
      | Some (File _) => Raise (OSError ("[Errno 17] File exists: '" +:+ path_str p +:+ "'"))
      | None => mkdir_from (<[p := Dir]> fs) p rest
      end
  end.

Definition mkdir (fs : filesystem) (p : path) : result filesystem := mkdir_from fs [] p.

(** [shutil.copy2(src, dst)]: a directory as destination receives the
    file under its own name; copying a file onto itself is an error. *)
Definition copy2_target (fs : filesystem) (src dst : path) : path :=
  if is_dir fs dst then dst // path_name src else dst.

Definition copy2 (fs : filesystem) (src dst : path) : result filesystem :=
  let dst := copy2_target fs src dst in
  match read_text fs src with
  | Raise e => Raise e
  | Ok c =>
      if bool_decide (src = dst) then
        Raise (OSError ("'" +:+ path_str src +:+ "' and '" +:+ path_str dst +:+ "' are the same file"))
      else write_text fs dst c
  end.

(** *** Paths made from a string

    The directories the program is given, and the paths it makes from
    them with the fixed names and the directory names it appends, name
    their entries by their parts, and the operations above look them up
    as they are.  A path made with a string from a descriptor is another
    matter: pathlib cuts the string at the slashes, drops the empty
    parts and the dots, keeps [..], and lets an absolute string replace
    the path it is joined to; and the operating system walks the steps,
    [..] leading from a directory to the one above it. *)

(** The steps of a path string. *)
Definition str_parts (s : string) : list string :=
  filter (λ c, c ≠ EmptyString ∧ c ≠ ".") (str_split "/" s).

(** The root of an absolute path string: two slashes in front are kept,
    one, or three and more, are the root [/]. *)
Definition str_root (s : string) : option string :=
  if startswith s "//" && negb (startswith s "///") then Some "//"
  else if startswith s "/" then Some "/"
  else None.

(** [p / s]: where the steps start, and the steps. *)
Record joined := {
  anchor : path;
  steps : list string
}.

Definition path_join_str (p : path) (s : string) : joined :=
  match str_root s with
  | Some r => {| anchor := [r]; steps := str_parts s |}
  | None => {| anchor := p; steps := str_parts s |}
  end.

(** The parts of the joined path, which is what [str] shows. *)
Definition joined_path (j : joined) : path := anchor j ++ steps j.

(** A string that is one name: no slash, not empty, no dot or two. *)
Definition plain_name (s : string) : Prop :=
  str_root s = None ∧ str_parts s = [s] ∧ s ≠ "..".

(** At or above the working directory. *)
Definition above (cur : path) : bool := forallb (String.eqb "..") cur.

(** One step up: above the working directory the step is kept, the root
    is above itself, and elsewhere the step leaves a directory that has
    to be there. *)
Definition step_up (fs : filesystem) (cur : path) : option path :=
  if above cur then Some (cur // "..")
  else match cur with
       | [r] => if is_root r then Some cur
                else if is_dir fs cur then Some (path_parent cur) else None
       | _ => if is_dir fs cur then Some (path_parent cur) else None
       end.

(** The entry the steps lead to, if all the steps can be taken. *)
Fixpoint walk (fs : filesystem) (cur : path) (todo : list string) : option path :=
  match todo with
  | [] => Some cur
  | c :: rest =>
      if String.eqb c ".." then
        match step_up fs cur with
        | Some up => walk fs up rest
        | None => None
        end
      else walk fs (cur // c) rest
  end.

Definition locate (fs : filesystem) (j : joined) : option path :=
  walk fs (anchor j) (steps j).

(** [j.exists()] *)
Definition exists_walked (fs : filesystem) (j : joined) : bool :=
  match locate fs j with
  | Some k => path_exists fs k
  | None => false
  end.

(** [shutil.copy2(src, dst)] *)
Definition copy2_walked (fs : filesystem) (src dst : joined) : result filesystem :=
  match locate fs src with
  | None =>
      Raise (OSError ("[Errno 2] No such file or directory: '"
                      +:+ path_str (joined_path src) +:+ "'"))
  | Some ks =>
      match locate fs dst with
      | None =>
          Raise (OSError ("[Errno 2] No such file or directory: '"
                          +:+ path_str (joined_path dst) +:+ "'"))
      | Some kd => copy2 fs ks kd
      end
  end.

(** A file has been written: [k] was no directory and now holds [c]. *)
Definition file_written (k : path) (c : string) (fs fs' : filesystem) : Prop :=
  fs !! k ≠ Some Dir ∧ fs' = <[k := File c]> fs.

(** The children of a directory, as [iterdir] and [glob] see them. *)
Definition is_child (d p : path) : bool :=
  bool_decide (p ≠ [] ∧ path_parent p = d).

Definition children (fs : filesystem) (d : path) : list path :=
  filter (λ p, is_child d p = true) (map fst (map_to_list fs)).

(** [fnmatch(name, 'slide-*.png')] *)
Definition is_slide_png (name : string) : bool :=
  startswith name "slide-" && endswith name ".png"
  && bool_decide (10 ≤ String.length name)%nat.

(** [list(d.glob('slide-*.png'))] *)
Definition glob_slides (fs : filesystem) (d : path) : list path :=
  filter (λ p, is_slide_png (path_name p) = true) (children fs d).

(** The same for a path made from a string: a directory that cannot be
    reached has no slides. *)
Definition glob_slides_walked (fs : filesystem) (j : joined) : list path :=
  match locate fs j with
  | Some d => glob_slides fs d
  | None => []
  end.

(** ** Batch state and the outside world *)

(** The fields of a [TalkProcessor] object (the lock aside: the model
    runs the critical sections one after another). *)
Record TalkProcessor := {
  talks_dir : path;
  output_dir : path;
  force : bool;
  processed_talks : list pyval;
  skipped_talks : list string;
  errors : list string
}.

(** The file system and the commands run through [subprocess.run]. *)
Record world := {
  files : filesystem;
  calls : list (list string)
}.

(** [TalkProcessor(talks_dir, output_dir, force)] *)
Definition init (talks output : path) (f : bool) : TalkProcessor :=
  {| talks_dir := talks; output_dir := output; force := f;
     processed_talks := []; skipped_talks := []; errors := [] |}.

Definition add_error (msg : string) (self : TalkProcessor) : TalkProcessor :=
  {| talks_dir := talks_dir self; output_dir := output_dir self; force := force self;
     processed_talks := processed_talks self; skipped_talks := skipped_talks self;
     errors := errors self ++ [msg] |}.

Definition add_skipped (h : string) (self : TalkProcessor) : TalkProcessor :=
  {| talks_dir := talks_dir self; output_dir := output_dir self; force := force self;
     processed_talks := processed_talks self; skipped_talks := skipped_talks self ++ [h];
     errors := errors self |}.

Definition add_processed (t : pyval) (self : TalkProcessor) : TalkProcessor :=
  {| talks_dir := talks_dir self; output_dir := output_dir self; force := force self;
     processed_talks := processed_talks self ++ [t]; skipped_talks := skipped_talks self;
     errors := errors self |}.

Definition set_files (fs : filesystem) (w : world) : world :=
  {| files := fs; calls := calls w |}.

Definition add_call (cmd : list string) (w : world) : world :=
  {| files := files w; calls := calls w ++ [cmd] |}.

(** ** The monad: state that survives an exception *)

Definition state : Type := TalkProcessor * world.
Definition M (A : Type) : Type := state → state * result A.

Definition ret {A} (a : A) : M A := λ s, (s, Ok a).
Definition raise {A} (e : exn) : M A := λ s, (s, Raise e).
Definition bind {A B} (m : M A) (k : A → M B) : M B :=
  λ s, match m s with
       | (s', Ok a) => k a s'
       | (s', Raise e) => (s', Raise e)
       end.

Notation "x <- m ;; k" := (bind m (λ x, k))
  (at level 100, m at next level, right associativity).
Notation "m ;; k" := (bind m (λ _, k))
  (at level 100, right associativity).

(** [try: m except ...: h]; the handler says which exceptions it takes. *)
Definition try_except {A} (m : M A) (h : exn → option (M A)) : M A :=
  λ s, match m s with
       | (s', Ok a) => (s', Ok a)
       | (s', Raise e) =>
           match h e with
           | Some k => k s'
           | None => (s', Raise e)
           end
       end.

Definition lift {A} (r : result A) : M A := λ s, (s, r).
Definition get_self : M TalkProcessor := λ s, (s, Ok (fst s)).
Definition get_files : M filesystem := λ s, (s, Ok (files (snd s))).
Definition modify_self (f : TalkProcessor → TalkProcessor) : M unit :=
  λ s, ((f (fst s), snd s), Ok tt).
Definition put_files (fs : filesystem) : M unit :=
  λ s, ((fst s, set_files fs (snd s)), Ok tt).

(** A file-system operation that may fail. *)
Definition fs_op (f : filesystem → result filesystem) : M unit :=
  fs <- get_files ;; fs' <- lift (f fs) ;; put_files fs'.

Fixpoint for_each {A} (l : list A) (body : A → M unit) : M unit :=
  match l with
  | [] => ret tt
  | x :: l => body x ;; for_each l body
  end.

Fixpoint map_M {A B} (f : A → M B) (l : list A) : M (list B) :=
  match l with
  | [] => ret []
  | x :: l => y <- f x ;; ys <- map_M f l ;; ret (y :: ys)
  end.

(** ** [sorted] *)

(** [sorted(l, key=key, reverse=reverse)]: a stable sort by insertion.
    Each element goes in front of the first one that is not strictly
    before it, so equal keys keep the order they came in, under
    [reverse] too. *)
Section Sorted.
Context {A K : Type} (ltb : K → K → bool) (key : A → K).

Definition before (reverse : bool) (x y : A) : bool :=
  if reverse then ltb (key y) (key x) else ltb (key x) (key y).

Fixpoint insert_sorted (reverse : bool) (x : A) (l : list A) : list A :=
  match l with
  | [] => [x]
  | y :: l' => if before reverse y x then y :: insert_sorted reverse x l' else x :: l
  end.

Definition sorted (reverse : bool) (l : list A) : list A :=
  foldr (insert_sorted reverse) [] l.

(** [x] may stand in front of [y]: [y] is not strictly before [x]. *)
Definition in_order (reverse : bool) (x y : A) : Prop := before reverse y x = false.
End Sorted.

(** Order on paths, component by component. *)
Fixpoint path_ltb (p q : path) : bool :=
  match p, q with
  | [], [] => false
  | [], _ :: _ => true
  | _ :: _, [] => false
  | a :: p, b :: q =>
      match String.compare a b with
      | Lt => true
      | Gt => false
      | Eq => path_ltb p q
      end
  end.

(** Calendar dates, as [datetime.date] compares them. *)
Definition date : Type := Z * Z * Z.
Definition date_year (d : date) : Z := d.1.1.
Definition date_ltb (a b : date) : bool :=
  let '(y1, m1, d1) := a in
  let '(y2, m2, d2) := b in
  (y1 <? y2) || ((y1 =? y2) && ((m1 <? m2) || ((m1 =? m2) && (d1 <? d2)))).

(** ** The class *)

Section TalkProcessor.

(** [yaml.safe_load] on the text of a file. *)
Variable safe_load : string → result pyval.
(** [markdown.markdown] on a string. *)
Variable markdown_markdown : string → string.
(** [re.sub(pattern, repl, string, flags=re.DOTALL)] *)
Variable re_sub : string → string → string → result string.
(** [./script.sh] run on an argument vector: what it does to the file
    system, and its standard output or the exception that
    [subprocess.run(..., check=True)] raises. *)
Variable script_sh : list string → filesystem → filesystem * result string.
(** [str] of a sequence or a mapping. *)
Variable repr_container : pyval → string.
(** [datetime.now().strftime('%a %b %d %Y')] *)
Variable now : string.
(** The order in which the worker pool completes the talks it is given:
    every talk appends to the batch state in one critical section, so a
    run of the pool is a run of the talks one after another in some
    order. *)
Variable completion_order : list path → list path.

Definition append_error (msg : string) : M unit := modify_self (add_error msg).

Definition required_fields : list string :=
  ["title"; "pdf"; "description"; "highlight"; "date"].

(** The body of the [try] in [parse_metadata]. *)
Definition load_talk (metadata_file : path) : M pyval :=
  fs <- get_files ;;
  text <- lift (read_text fs metadata_file) ;;
  data <- lift (safe_load text) ;;
  has_talk <- (if truthy data then lift (py_contains "talk" data) else ret false) ;;
  if negb has_talk then raise (ValueError "Missing 'talk' section in metadata") else
  talk <- lift (py_getitem data "talk") ;;
  for_each required_fields (λ field,
    present <- lift (py_contains field talk) ;;
    if negb present then raise (ValueError ("Missing required field: " +:+ field))
    else ret tt) ;;
  ret talk.

Definition parse_metadata (metadata_file : path) : M (option pyval) :=
  try_except
    (talk <- load_talk metadata_file ;; ret (Some talk))
    (λ e, Some (append_error ("Error parsing " +:+ path_str metadata_file +:+ ": " +:+ exn_str e) ;;
                ret None)).

Definition talk_processed (fs : filesystem) (output : path) (talk_handle : string) : bool :=
  let talk_output_dir := output // talk_handle in
  let index_file := talk_output_dir // "index.html" in
  path_exists fs index_file && is_dir fs talk_output_dir.

Definition is_talk_processed (talk_handle : string) : M bool :=
  self <- get_self ;;
  fs <- get_files ;;
  ret (talk_processed fs (output_dir self) talk_handle).

(** [talk_dir / metadata['pdf']] *)
Definition path_join_val (p : path) (v : pyval) : result joined :=
  match v with
  | PStr s => Ok (path_join_str p s)
  | _ => Raise (TypeError ("unsupported operand type(s) for /: 'PosixPath' and '" +:+ type_name v +:+ "'"))
  end.

(** The argument vector of the conversion; [subprocess.run] refuses an
    argument that is not a string. *)
Definition script_cmd (pdf_file : joined) (talk_output_dir : path) (title : pyval) (f : bool)
  : result (list string) :=
  match title with
  | PStr t =>
      Ok (["./script.sh"; "-p"; path_str (joined_path pdf_file);
           "-o"; path_str talk_output_dir; "-t"; t]
          ++ (if f then ["-f"] else []))
  | _ => Raise (TypeError ("expected str, bytes or os.PathLike object, not " +:+ type_name title))
  end.

(** [subprocess.run(cmd, check=True, capture_output=True, text=True)] *)
Definition subprocess_run (cmd : list string) : M string :=
  λ s, let '(fs', r) := script_sh cmd (files (snd s)) in
       ((fst s, set_files fs' (add_call cmd (snd s))), r).

Definition process_talk (talk_dir : path) : M bool :=
  let talk_handle := path_name talk_dir in
  let metadata_file := talk_dir // "metadata.yml" in
  fs <- get_files ;;
  if negb (path_exists fs metadata_file) then
    append_error ("No metadata.yml found in " +:+ path_str talk_dir) ;;
    ret false
  else
  parsed <- parse_metadata metadata_file ;;
  match parsed with
  | None => ret false
  | Some metadata =>
  if negb (truthy metadata) then ret false else
  self <- get_self ;;
  done <- (if force self then ret false else is_talk_processed talk_handle) ;;
  if done then
    modify_self (add_skipped talk_handle) ;;
    metadata <- lift (py_setitem metadata "handle" (PStr talk_handle)) ;;
    modify_self (add_processed metadata) ;;
    ret true
  else
  pdf <- lift (py_getitem metadata "pdf") ;;
  pdf_file <- lift (path_join_val talk_dir pdf) ;;
  fs <- get_files ;;
  if negb (exists_walked fs pdf_file) then
    append_error ("PDF file not found: " +:+ path_str (joined_path pdf_file)) ;;
    ret false
  else
  let talk_output_dir := output_dir self // talk_handle in
  fs_op (λ fs, mkdir fs talk_output_dir) ;;
  converted <-
    try_except
      (title <- lift (py_getitem metadata "title") ;;
       cmd <- lift (script_cmd pdf_file talk_output_dir title (force self)) ;;
       subprocess_run cmd ;;
       ret true)
      (λ e, match e with
            | CalledProcessError stderr =>
                Some (append_error ("Error processing " +:+ talk_handle +:+ ": " +:+ stderr) ;;
                      ret false)
            | _ => None
            end) ;;
  if negb converted then ret false else
  pdf <- lift (py_getitem metadata "pdf") ;;
  output_pdf <- lift (path_join_val talk_output_dir pdf) ;;
  fs_op (λ fs, copy2_walked fs pdf_file output_pdf) ;;
  metadata <- lift (py_setitem metadata "handle" (PStr talk_handle)) ;;
  modify_self (add_processed metadata) ;;
  ret true
  end.

(** [html[3:-4]] when [html] starts with [<p>] and ends with [</p>]. *)
Definition strip_wrapping_p (html : string) : string :=
  if startswith html "<p>" && endswith html "</p>" then slice 3 4 html else html.

Definition markdown_to_html (text : string) : string :=
  strip_wrapping_p (markdown_markdown text).

(** [markdown.markdown] calls [strip] on its argument first. *)
Definition markdown_of_val (v : pyval) : result string :=
  match v with
  | PStr text => Ok (markdown_to_html text)
  | _ => Raise (AttributeError ("'" +:+ type_name v +:+ "' object has no attribute 'strip'"))
  end.

(** [str(v)], as an f-string field renders it. *)
Definition py_str (v : pyval) : string :=
  match v with
  | PNone => "None"
  | PBool true => "True"
  | PBool false => "False"
  | PInt n => pretty n
  | PStr s => s
  | PDate y m d => four_digits y +:+ "-" +:+ two_digits m +:+ "-" +:+ two_digits d
  | PList _ | PDict _ => repr_container v
  end.

(** [f"{v:0{padding}d}"]: integers (and booleans, which are integers) are
    zero-padded; a date takes the spec for a [strftime] pattern and
    returns it as it is; everything else refuses the format code. *)
Definition format_padded (padding : nat) (v : pyval) : result string :=
  match v with
  | PInt n => Ok (format_0d padding n)
  | PBool b => Ok (format_0d padding (if b then 1 else 0))
  | PDate _ _ _ => Ok ("0" +:+ pretty padding +:+ "d")
  | PStr _ => Raise (ValueError "Unknown format code 'd' for object of type 'str'")
  | _ => Raise (TypeError ("unsupported format string passed to " +:+ type_name v +:+ ".__format__"))
  end.

(** Number of digits of the slide numbers, from the number of slides. *)
Definition slide_padding (fs : filesystem) (talk_dir : path) : nat :=
  let png_files := glob_slides fs talk_dir in
  let num_slides := length png_files in
  if bool_decide (100 ≤ num_slides)%nat then 3%nat else 2%nat.

Definition highlight_img (fs : filesystem) (talk_dir : path) (highlight : pyval)
  : result string :=
  try digits := format_padded (slide_padding fs talk_dir) highlight in
  Ok ("slide-" +:+ digits +:+ ".png").

(** The same for the directory of a talk as the renderer makes it, from
    the handle. *)
Definition highlight_img_walked (fs : filesystem) (talk_dir : joined) (highlight : pyval)
  : result string :=
  let png_files := glob_slides_walked fs talk_dir in
  let num_slides := length png_files in
  let padding := if bool_decide (100 ≤ num_slides)%nat then 3%nat else 2%nat in
  try digits := format_padded padding highlight in
  Ok ("slide-" +:+ digits +:+ ".png").

(** The sort key of a talk. A date that is not a calendar date breaks
    the listing: Python raises [TypeError] when the sort compares it, or
    [AttributeError] at [.year]; the two are one exception here. *)
Definition talk_date (talk : pyval) : result date :=
  try v := py_getitem talk "date" in
  match v with
  | PDate y m d => Ok (y, m, d)
  | _ => Raise (TypeError ("'" +:+ type_name v +:+ "' is not a datetime.date"))
  end.

Definition year_heading (year : Z) : string :=
  "            <li class=" +:+ dq +:+ "year-heading" +:+ dq +:+ ">" +:+ pretty year +:+ "</li>".

Definition talk_entry (fs : filesystem) (output : path) (talk : pyval) : result string :=
  try handle := py_getitem talk "handle" in
  try title := py_getitem talk "title" in
  try pdf := py_getitem talk "pdf" in
  try description := py_getitem talk "description" in
  try highlight := py_getitem talk "highlight" in
  try video := py_get talk "video" in
  try description_html := markdown_of_val description in
  try talk_dir := path_join_val output handle in
  try img := highlight_img_walked fs talk_dir highlight in
  let links := "<a href=" +:+ dq +:+ py_str handle +:+ "/" +:+ py_str pdf +:+ dq +:+ ">PDF</a>" in
  let links :=
    if truthy video
    then links +:+ ", <a href=" +:+ dq +:+ py_str video +:+ dq +:+ ">Video</a>"
    else links in
  Ok ("            <li class=" +:+ dq +:+ "talk-entry" +:+ dq +:+ ">" +:+ nl +:+
      "                <a href=" +:+ dq +:+ py_str handle +:+ "/index.html" +:+ dq +:+ ">"
        +:+ py_str title +:+ "</a>  (" +:+ links +:+ ")" +:+ nl +:+
      "                <p class=" +:+ dq +:+ "talk-desc" +:+ dq +:+ ">" +:+ nl +:+
      "                    " +:+ description_html +:+ nl +:+
      "                </p>" +:+ nl +:+
      "                <figure>" +:+ nl +:+
      "                    <a href=" +:+ dq +:+ py_str handle +:+ "/index.html" +:+ dq
        +:+ " class=" +:+ dq +:+ "img-link" +:+ dq +:+ "><img src=" +:+ dq
        +:+ py_str handle +:+ "/" +:+ img +:+ dq +:+ "></img></a>" +:+ nl +:+
      "                </figure>" +:+ nl +:+
      "            </li>").

(** The listing before it is rendered: year headings and talks, in the
    order the page shows them. *)
Inductive item :=
| Heading (year : Z)
| Entry (talk : pyval).

(** [talks_by_year]: each talk is appended to the list of its year. *)
Definition group_by_year (sorted_talks : list (date * pyval)) : gmap Z (list pyval) :=
  foldl (λ by_year t, <[date_year t.1 := default [] (by_year !! date_year t.1) ++ [t.2]]> by_year)
        ∅ sorted_talks.

(** The years of the listing. *)
Definition listing_years (talks : list (date * pyval)) : list Z :=
  sorted Z.ltb id true
    (map fst (map_to_list (group_by_year (sorted date_ltb fst true talks)))).

Definition listing (talks : list (date * pyval)) : list item :=
  let sorted_talks := sorted date_ltb fst true talks in
  let talks_by_year := group_by_year sorted_talks in
  let years := sorted Z.ltb id true (map fst (map_to_list talks_by_year)) in
  flat_map (λ year, Heading year :: map Entry (default [] (talks_by_year !! year))) years.

Definition render_item (fs : filesystem) (output : path) (i : item) : result string :=
  match i with
  | Heading year => Ok (year_heading year)
  | Entry talk => talk_entry fs output talk
  end.

Fixpoint map_result {A B} (f : A → result B) (l : list A) : result (list B) :=
  match l with
  | [] => Ok []
  | x :: l => try y := f x in try ys := map_result f l in Ok (y :: ys)
  end.

Definition template_file : path := ["templates"; "landing.html"].

Definition section_pattern : string :=
  "(<section id=" +:+ dq +:+ "talks-by-year" +:+ dq +:+ " class=" +:+ dq +:+ "level1" +:+ dq
  +:+ ">)(.*?)(</section>)".

(** The text the page is rebuilt from: the template with the listing in
    its section and the date in its footer. *)
Definition landing_html (fs : filesystem) (output : path) (talks : list pyval)
    (template : string) : result string :=
  try dated := map_result (λ t, try d := talk_date t in Ok (d, t)) talks in
  try all_entries := map_result (render_item fs output) (listing dated) in
  let talks_html := String.concat nl all_entries in
  let talks_html :=
    "        <ol type=" +:+ dq +:+ "1" +:+ dq +:+ ">" +:+ nl +:+ talks_html +:+ nl +:+ "        </ol>" in
  let replacement := "\1" +:+ nl +:+ talks_html +:+ nl +:+ "    \3" in
  try updated_html := re_sub section_pattern replacement template in
  re_sub "Last updated:.*?</div>" ("Last updated: " +:+ now +:+ nl +:+ "</div>") updated_html.

Definition generate_landing_page : M bool :=
  fs <- get_files ;;
  if negb (path_exists fs template_file) then
    append_error ("Template file not found: " +:+ path_str template_file) ;;
    ret false
  else
  template <- lift (read_text fs template_file) ;;
  self <- get_self ;;
  updated_html <- lift (landing_html fs (output_dir self) (processed_talks self) template) ;;
  let output_file := output_dir self // "index.html" in
  fs_op (λ fs, write_text fs output_file updated_html) ;;
  ret true.

Definition copy_asset (name : string) : M unit :=
  self <- get_self ;;
  fs <- get_files ;;
  let asset := ["templates"; name] in
  if path_exists fs asset then fs_op (λ fs, copy2 fs asset (output_dir self // name))
  else ret tt.

Definition copy_assets : M unit :=
  copy_asset "style.css" ;;
  copy_asset "zurich_goes_networking.jpg".

(** [talks_dir.iterdir()] *)
Definition iterdir (fs : filesystem) (d : path) : result (list path) :=
  if is_dir fs d then Ok (children fs d)
  else Raise (OSError ("[Errno 20] Not a directory: '" +:+ path_str d +:+ "'")).

(** [d.is_dir() and not d.name.startswith('.')] *)
Definition is_talk_dir (fs : filesystem) (d : path) : Prop :=
  is_dir fs d && negb (startswith (path_name d) ".") = true.

#[local] Instance is_talk_dir_dec fs d : Decision (is_talk_dir fs d).
Proof. unfold is_talk_dir. apply _. Defined.

(** The talk directories of a run. *)
Definition talk_dirs (fs : filesystem) (talks : path) : list path :=
  filter (is_talk_dir fs) (children fs talks).

(** The loop over the futures: whatever a talk raises is recorded. *)
Definition run_talk (talk_dir : path) : M unit :=
  try_except
    (process_talk talk_dir ;; ret tt)
    (λ e, Some (append_error ("Unexpected error processing " +:+ path_str talk_dir
                              +:+ ": " +:+ exn_str e))).

Definition process_all : M unit :=
  self <- get_self ;;
  fs_op (λ fs, mkdir fs (output_dir self)) ;;
  fs <- get_files ;;
  entries <- lift (iterdir fs (talks_dir self)) ;;
  let talk_dirs := filter (is_talk_dir fs) entries in
  match talk_dirs with
  | [] => ret tt
  | _ =>
      for_each (completion_order (sorted path_ltb id false talk_dirs)) run_talk ;;
      self <- get_self ;;
      match processed_talks self with
      | [] => ret tt
      | _ => generate_landing_page ;; copy_assets
      end
  end.

(** *** The talk lifecycle, phase by phase

    The two ways [process_talk] ends once the metadata is loaded, written
    out on the state; [process_talk_unfold] below shows that they are
    what the method does. *)

(** The check of the required fields, on its own. *)
Definition check_fields (talk : pyval) (fields : list string) : M unit :=
  for_each fields (λ field,
    present <- lift (py_contains field talk) ;;
    if negb present then raise (ValueError ("Missing required field: " +:+ field))
    else ret tt).

Definition parse_error (metadata_file : path) (e : exn) : string :=
  "Error parsing " +:+ path_str metadata_file +:+ ": " +:+ exn_str e.

(** The talk is complete and force-mode is off. *)
Definition skip_talk (talk_handle : string) (metadata : pyval) (s : state)
  : state * result bool :=
  match py_setitem metadata "handle" (PStr talk_handle) with
  | Ok m => ((add_processed m (add_skipped talk_handle s.1), s.2), Ok true)
  | Raise e => ((add_skipped talk_handle s.1, s.2), Raise e)
  end.

Definition unexpected_error (talk_dir : path) (e : exn) : string :=
  "Unexpected error processing " +:+ path_str talk_dir +:+ ": " +:+ exn_str e.

(** The talk returned [True]. *)
Definition succeeded (r : result bool) : bool :=
  match r with Ok true => true | _ => false end.

(** Strictly below the output root. *)
Definition below (output q : path) : Prop := output `prefix_of` q ∧ q ≠ output.

(** A file named [n] may have been written below the output root,
    where no directory was. *)
Definition top_write (output : path) (n : string) (fs fs' : filesystem) : Prop :=
  fs' = fs ∨ ∃ k c, file_written k c fs fs' ∧ below output k ∧ path_name k = n.

(** The output root and the directories above it exist. *)
Definition output_ready (fs : filesystem) (output : path) : Prop :=
  ∀ k, (k < length output)%nat → fs !! take (S k) output = Some Dir.

(** What the script expects of the converter, for the talk in
    [talk_dir]: run with that talk's output directory as its [-o]
    argument, it changes nothing outside that directory ... *)
Definition converter_confined (output talk_dir : path) : Prop :=
  ∀ cmd fs q,
    cmd !! 4%nat = Some (path_str (output // path_name talk_dir)) →
    ¬ (output // path_name talk_dir) `prefix_of` q →
    (script_sh cmd fs).1 !! q = fs !! q.

(** ... and when it succeeds on a directory that exists, the directory
    is still there and holds [index.html]. *)
Definition converter_marks (output talk_dir : path) : Prop :=
  ∀ cmd fs stdout,
    cmd !! 4%nat = Some (path_str (output // path_name talk_dir)) →
    is_dir fs (output // path_name talk_dir) = true →
    (script_sh cmd fs).2 = Ok stdout →
    talk_processed (script_sh cmd fs).1 output (path_name talk_dir) = true.

(** Every descriptor names its presentation with one plain name. *)
Definition plain_pdfs : Prop :=
  ∀ text d t pdf,
    safe_load text = Ok (PDict d) → d !! "talk" = Some (PDict t) →
    t !! "pdf" = Some (PStr pdf) → plain_name pdf.

(** The [except] clause around the conversion. *)
Definition conversion_failed (talk_handle : string) (self : TalkProcessor) (w : world)
    (e : exn) : state * result bool :=
  match e with
  | CalledProcessError stderr =>
      ((add_error ("Error processing " +:+ talk_handle +:+ ": " +:+ stderr) self, w), Ok false)
  | _ => ((self, w), Raise e)
  end.

(** The talk is converted. *)
Definition convert_talk (talk_dir : path) (metadata : pyval) (s : state)
  : state * result bool :=
  let talk_handle := path_name talk_dir in
  let talk_output_dir := output_dir s.1 // talk_handle in
  match py_getitem metadata "pdf" with
  | Raise e => (s, Raise e)
  | Ok pdf =>
  match path_join_val talk_dir pdf with
  | Raise e => (s, Raise e)
  | Ok pdf_file =>
  if negb (exists_walked (files s.2) pdf_file) then
    ((add_error ("PDF file not found: " +:+ path_str (joined_path pdf_file)) s.1, s.2), Ok false)
  else
  match mkdir (files s.2) talk_output_dir with
  | Raise e => (s, Raise e)
  | Ok fs1 =>
  let w1 := set_files fs1 s.2 in
  match py_getitem metadata "title" with
  | Raise e => conversion_failed talk_handle s.1 w1 e
  | Ok title =>
  match script_cmd pdf_file talk_output_dir title (force s.1) with
  | Raise e => conversion_failed talk_handle s.1 w1 e
  | Ok cmd =>
  let w2 := set_files (script_sh cmd fs1).1 (add_call cmd w1) in
  match (script_sh cmd fs1).2 with
  | Raise e => conversion_failed talk_handle s.1 w2 e
  | Ok _ =>
  match path_join_val talk_output_dir pdf with
  | Raise e => ((s.1, w2), Raise e)
  | Ok output_pdf =>
  match copy2_walked (files w2) pdf_file output_pdf with
  | Raise e => ((s.1, w2), Raise e)
  | Ok fs3 =>
  match py_setitem metadata "handle" (PStr talk_handle) with
  | Raise e => ((s.1, set_files fs3 w2), Raise e)
  | Ok m => ((add_processed m s.1, set_files fs3 w2), Ok true)
  end end end end end end end end end.

(** *** The summary *)

(** [s * n] *)
Fixpoint str_mul (s : string) (n : nat) : string :=
  match n with O => EmptyString | S n => s +:+ str_mul s n end.

(** [h in skipped] for a value and a list of strings. *)
Definition py_in (h : pyval) (skipped : list string) : bool :=
  existsb (λ k, is_str k h) skipped.

(** [[t['handle'] for t in talks if t['handle'] not in skipped]] *)
Fixpoint handles_not_in (skipped : list string) (talks : list pyval) : result (list pyval) :=
  match talks with
  | [] => Ok []
  | t :: talks =>
      try h := py_getitem t "handle" in
      if py_in h skipped then handles_not_in skipped talks
      else
        try h := py_getitem t "handle" in
        try rest := handles_not_in skipped talks in
        Ok (h :: rest)
  end.

Definition newly_processed (self : TalkProcessor) : result (list pyval) :=
  handles_not_in (skipped_talks self) (processed_talks self).

Definition rule : string := str_mul "=" 60.

(** [print_summary]: the lines printed, one per call of [print], and
    whether the method returns. *)
Definition print_summary (self : TalkProcessor) : list string * result unit :=
  let head := [nl +:+ rule; "PROCESSING SUMMARY"; rule] in
  match newly_processed self with
  | Raise e => (head, Raise e)
  | Ok newly =>
      (head
       ++ (match newly with
           | [] => []
           | _ => (nl +:+ "✓ Newly processed talks (" +:+ pretty (length newly) +:+ "):")
                  :: map (λ handle, "  - " +:+ py_str handle) newly
           end)
       ++ (match skipped_talks self with
           | [] => []
           | _ => (nl +:+ "⊘ Skipped talks (already processed) ("
                     +:+ pretty (length (skipped_talks self)) +:+ "):")
                  :: map (λ handle, "  - " +:+ handle) (skipped_talks self)
           end)
       ++ (match newly, skipped_talks self with
           | [], [] => [nl +:+ "No talks found to process."]
           | _, _ => []
           end)
       ++ (match errors self with
           | [] => []
           | _ => (nl +:+ "✗ Errors (" +:+ pretty (length (errors self)) +:+ "):")
                  :: map (λ error, "  - " +:+ error) (errors self)
           end)
       ++ [nl +:+ rule],
       Ok tt)
  end.

End TalkProcessor.

(** ** A small site to run the model on *)

Module Site.

(** Splitting at a separator, for the toy versions of [re.sub] and of
    [script.sh]. *)
Fixpoint split_at (sep : ascii) (s : string) : list string :=
  match s with
  | EmptyString => [EmptyString]
  | String c s' =>
      if bool_decide (c = sep) then EmptyString :: split_at sep s'
      else match split_at sep s' with
           | [] => [String c EmptyString]
           | w :: ws => String c w :: ws
           end
  end.

Definition lines (l : list string) : string := String.concat nl l +:+ nl.

(** Descriptor files and what [yaml.safe_load] makes of them. *)
Definition descriptor (title pdf description highlight date : string) : string :=
  lines ["talk:"; "  title: " +:+ title; "  pdf: " +:+ pdf;
         "  description: " +:+ description; "  highlight: " +:+ highlight;
         "  date: " +:+ date].

Definition fields (title pdf description : string) (highlight : Z) (y m d : Z)
  : gmap string pyval :=
  <["title" := PStr title]> (<["pdf" := PStr pdf]>
    (<["description" := PStr description]> (<["highlight" := PInt highlight]>
    {[ "date" := PDate y m d ]}))).

Definition talk_of (title pdf description : string) (highlight : Z) (y m d : Z) : pyval :=
  PDict {[ "talk" := PDict (fields title pdf description highlight y m d) ]}.

Definition talk_a : gmap string pyval := fields "Talk A" "a.pdf" "First talk" 3 2023 1 1.
Definition talk_b : gmap string pyval := fields "Talk B" "b.pdf" "Second talk" 3 2024 6 1.
Definition talk_x : gmap string pyval := fields "Talk X" "broken.pdf" "Does not convert" 1 2021 3 4.
Definition talk_d : gmap string pyval :=
  <["title" := PStr "Talk D"]> (<["pdf" := PStr "d.pdf"]>
    (<["description" := PStr "No date"]> {[ "highlight" := PInt 1 ]})).
Definition talk_e : gmap string pyval :=
  <["title" := PStr "Talk E"]> (<["pdf" := PStr "e.pdf"]>
    (<["highlight" := PInt 1]> {[ "date" := PDate 2022 2 2 ]})).

Definition yaml_a := descriptor "Talk A" "a.pdf" "First talk" "3" "2023-01-01".
Definition yaml_b := descriptor "Talk B" "b.pdf" "Second talk" "3" "2024-06-01".
Definition yaml_c := descriptor "Talk C" "c.pdf" "Third talk" "3" "2023-12-31".
Definition yaml_no_date : string :=
  lines ["talk:"; "  title: Talk D"; "  pdf: d.pdf"; "  description: No date"; "  highlight: 1"].
Definition yaml_no_description : string :=
  lines ["talk:"; "  title: Talk E"; "  pdf: e.pdf"; "  highlight: 1"; "  date: 2022-02-02"].
Definition yaml_no_section : string := lines ["speaker: nobody"].
Definition yaml_broken : string := lines ["talk: [unclosed"].

Definition yaml_x := descriptor "Talk X" "broken.pdf" "Does not convert" "1" "2021-03-04".

(** A descriptor whose highlight is written as a string, and one whose
    talk section is empty. *)
Definition talk_q : gmap string pyval :=
  <["highlight" := PStr "3"]> (fields "Talk Q" "q.pdf" "Quoted highlight" 3 2022 5 5).
Definition yaml_q :=
  descriptor "Talk Q" "q.pdf" "Quoted highlight" (dq +:+ "3" +:+ dq) "2022-05-05".
Definition yaml_null : string := lines ["talk:"].

Definition documents : list (string * result pyval) :=
  [ (yaml_a, Ok (PDict {[ "talk" := PDict talk_a ]}));
    (yaml_b, Ok (PDict {[ "talk" := PDict talk_b ]}));
    (yaml_c, Ok (talk_of "Talk C" "c.pdf" "Third talk" 3 2023 12 31));
    (yaml_x, Ok (PDict {[ "talk" := PDict talk_x ]}));
    (yaml_no_date, Ok (PDict {[ "talk" := PDict talk_d ]}));
    (yaml_no_description, Ok (PDict {[ "talk" := PDict talk_e ]}));
    (yaml_no_section, Ok (PDict {[ "speaker" := PStr "nobody" ]}));
    (yaml_q, Ok (PDict {[ "talk" := PDict talk_q ]}));
    (yaml_null, Ok (PDict {[ "talk" := PNone ]})) ].

Definition safe_load (text : string) : result pyval :=
  match List.find (λ d, String.eqb d.1 text) documents with
  | Some d => d.2
  | None => Raise (YAMLError "while parsing a flow sequence")
  end.

(** [markdown.markdown] on plain text: paragraphs are separated by an
    empty line and wrapped one by one. *)
Definition two_paragraphs : string := "a" +:+ nl +:+ nl +:+ "b".
Definition markdown_markdown (text : string) : string :=
  if String.eqb text two_paragraphs then "<p>a</p>" +:+ nl +:+ "<p>b</p>"
  else "<p>" +:+ text +:+ "</p>".

(** [re.sub] for the two patterns of the script, [start.*?stop] with
    literal ends, and a replacement whose only escapes are the group
    references [\1] and [\3]. *)
Fixpoint sub_between (fuel : nat) (start stop repl s : string) : string :=
  match fuel with
  | O => s
  | S fuel =>
      match String.index 0 start s with
      | None => s
      | Some i =>
          let after := (i + String.length start)%nat in
          match String.index after stop s with
          | None => s
          | Some j =>
              let rest := (j + String.length stop)%nat in
              String.substring 0 i s +:+ repl
                +:+ sub_between fuel start stop repl
                      (String.substring rest (String.length s - rest) s)
          end
      end
  end.

Definition section_open : string :=
  "<section id=" +:+ dq +:+ "talks-by-year" +:+ dq +:+ " class=" +:+ dq +:+ "level1" +:+ dq +:+ ">".

Definition expand_groups (repl : string) : string :=
  match String.index 0 "\1" repl, String.index 0 "\3" repl with
  | Some 0%nat, Some j =>
      section_open +:+ String.substring 2 (j - 2) repl +:+ "</section>"
  | _, _ => repl
  end.

Definition re_sub (pattern repl s : string) : result string :=
  if String.eqb pattern section_pattern then
    Ok (sub_between (String.length s) section_open "</section>" (expand_groups repl) s)
  else if String.eqb pattern "Last updated:.*?</div>" then
    Ok (sub_between (String.length s) "Last updated:" "</div>" repl s)
  else Raise (ReError "unsupported pattern").

(** A converter that writes the viewer page and three slides, and fails
    on a presentation named [broken.pdf]. *)
Definition script_sh (cmd : list string) (fs : filesystem) : filesystem * result string :=
  match cmd with
  | _ :: _ :: pdf :: _ :: out :: _ =>
      let out := split_at "/" out in
      if endswith pdf "broken.pdf" then (fs, Raise (CalledProcessError "cannot read presentation"))
      else (<[out // "index.html" := File "<html>slides</html>"]>
            (<[out // "slide-01.png" := File "png"]>
            (<[out // "slide-02.png" := File "png"]>
            (<[out // "slide-03.png" := File "png"]> fs))), Ok "done")
  | _ => (fs, Raise (OSError "usage"))
  end.

Definition repr_container (v : pyval) : string := "{...}".
Definition today : string := "Wed Nov 04 2026".
Definition tomorrow : string := "Thu Nov 05 2026".
Definition as_submitted (l : list path) : list path := l.

Definition landing_template : string :=
  lines ["<html><body>";
         section_open;
         "old listing";
         "</section>";
         "<div>Last updated: never";
         "</div>";
         "</body></html>"].

(** Three talks, none converted yet. *)
Definition unit_files (name yaml pdf : string) (fs : filesystem) : filesystem :=
  <[["talks"; name] := Dir]>
  (<[["talks"; name; "metadata.yml"] := File yaml]>
  (<[["talks"; name; pdf] := File "%PDF"]> fs)).

Definition base_files : filesystem :=
  <[["talks"] := Dir]> (<[["templates"] := Dir]>
  (<[["templates"; "landing.html"] := File landing_template]> ∅)).

Definition three_talks : filesystem :=
  unit_files "a" yaml_a "a.pdf" (unit_files "b" yaml_b "b.pdf"
  (unit_files "c" yaml_c "c.pdf" base_files)).

(** Talk [a] converted by an earlier run. *)
Definition a_converted (fs : filesystem) : filesystem :=
  <[["out"] := Dir]> (<[["out"; "a"] := Dir]>
  (<[["out"; "a"; "index.html"] := File "<html>slides</html>"]> fs)).

(** A talk whose presentation does not convert, with the output
    directory that a failed run has left, one without a date, which
    bears the marker of an earlier run, and one without a description. *)
Definition with_failures : filesystem :=
  <[["out"] := Dir]> (<[["out"; "x"] := Dir]>
  (<[["out"; "d"] := Dir]> (<[["out"; "d"; "index.html"] := File "<html>slides</html>"]>
  (unit_files "a" yaml_a "a.pdf" (unit_files "b" yaml_b "b.pdf"
  (unit_files "d" yaml_no_date "d.pdf" (unit_files "e" yaml_no_description "e.pdf"
  (unit_files "x" yaml_x "broken.pdf" base_files)))))))).

(** The three talks, the templates gone. *)
Definition no_template : filesystem := delete ["templates"; "landing.html"] three_talks.

Definition start (fs : filesystem) (f : bool) : state :=
  (init ["talks"] ["out"] f, {| files := fs; calls := [] |}).

Definition run (day : string) (order : list path → list path) (s : state) : state * result unit :=
  process_all safe_load markdown_markdown re_sub script_sh repr_container day order s.

(** The three talks with the output directory of talk [a] in place. *)
Definition a_started : filesystem :=
  <[["out"] := Dir]> (<[["out"; "a"] := Dir]> three_talks).

(** The three talks, the presentation of talk [a] gone. *)
Definition pdf_missing : filesystem := delete ["talks"; "a"; "a.pdf"] three_talks.

(** Talk [a] as recorded by a batch, its highlight written as a string. *)
Definition talk_quoted : gmap string pyval :=
  <["highlight" := PStr "3"]> (<["handle" := PStr "a"]> talk_a).

(** A descriptor whose talk section is a sequence of the field names,
    and a loader that knows it. *)
Definition yaml_sequence : string :=
  lines ["talk: [title, pdf, description, highlight, date]"].

Definition field_names : pyval :=
  PList [PStr "title"; PStr "pdf"; PStr "description"; PStr "highlight"; PStr "date"].

Definition load_sequence (text : string) : result pyval :=
  if String.eqb text yaml_sequence then Ok (PDict {[ "talk" := field_names ]})
  else safe_load text.

Definition sequence_talk : filesystem := unit_files "s" yaml_sequence "s.pdf" base_files.

(** The templates with a stylesheet, the output root in place. *)
Definition with_style : filesystem :=
  <[["templates"; "style.css"] := File "body {}"]> (<[["out"] := Dir]> base_files).

(** A batch that has recorded talk [a]. *)
Definition a_listed : state :=
  (add_processed (PDict (<["handle" := PStr "a"]> talk_a)) (init ["talks"] ["out"] false),
   {| files := a_started; calls := [] |}).

(** The state a first run over the three talks leaves. *)
Definition first_run : state :=
  (run today as_submitted (start three_talks false)).1.

(** Two talks that cannot be listed, one that does not convert and one
    without a date, beside the page of an earlier run; and the state a
    run over them leaves. *)
Definition only_failures : filesystem :=
  <[["out"] := Dir]> (<[["out"; "index.html"] := File "old page"]>
  (unit_files "d" yaml_no_date "d.pdf" (unit_files "x" yaml_x "broken.pdf" base_files))).

Definition failed_run : state :=
  (run today as_submitted (start only_failures false)).1.

(** The state the loop over the talks of [with_failures] leaves. *)
Definition mixed_run : state :=
  (for_each (as_submitted (sorted path_ltb id false (talk_dirs with_failures ["talks"])))
     (run_talk safe_load script_sh)
     (init ["talks"] ["out"] false, {| files := with_failures; calls := [] |})).1.

(** A talk that converts, one that does not, and one that converts and
    whose highlight is a string; and the state the loop over them
    leaves. *)
Definition quoted_batch : filesystem :=
  <[["out"] := Dir]>
  (unit_files "a" yaml_a "a.pdf" (unit_files "q" yaml_q "q.pdf"
  (unit_files "x" yaml_x "broken.pdf" base_files))).

Definition quoted_run : state :=
  (for_each (as_submitted (sorted path_ltb id false (talk_dirs quoted_batch ["talks"])))
     (run_talk safe_load script_sh)
     (init ["talks"] ["out"] false, {| files := quoted_batch; calls := [] |})).1.

(** A talk whose section is empty. *)
Definition null_talk : filesystem := unit_files "n" yaml_null "n.pdf" base_files.

(** An output directory with [n] slides, numbered as the converter
    numbers them. *)
Definition slide_name (width : nat) (i : nat) : string :=
  "slide-" +:+ format_0d width (Z.of_nat i) +:+ ".png".

Definition converted (n : nat) : filesystem :=
  let width := if bool_decide (n < 100)%nat then 2%nat else 3%nat in
  foldr (λ i fs, <[["out"; "t"; slide_name width i] := File "png"]> fs)
    (<[["out"; "t"; "index.html"] := File "<html>slides</html>"]>
     (<[["out"; "t"; "t.pdf"] := File "%PDF"]>
     (<[["out"; "t"] := Dir]> (<[["out"] := Dir]> ∅))))
    (seq 1 n).

End Site.

(** * Properties *)

(** ** Python values and the monad *)

Lemma py_contains_truthy k v :
  k ≠ EmptyString → py_contains k v = Ok true → truthy v = true.
Proof.
  intros Hk H. destruct v as [| | |s| |l|d]; simpl in *; try discriminate.
  - destruct s; [|done]. destruct k; [done|]. discriminate.
  - destruct l; [discriminate|done].
  - injection H as H. apply bool_decide_eq_true in H as [x Hx].
    rewrite bool_decide_eq_false_2; [done|]. intros ->. by rewrite lookup_empty in Hx.
Qed.

(** ** Strings *)

Lemma str_app_cons a s t : String a s +:+ t = String a (s +:+ t).
Proof. reflexivity. Qed.

Lemma str_app_nil_r s : s +:+ EmptyString = s.
Proof. induction s as [|a s IH]; [done|]. by rewrite str_app_cons, IH. Qed.

Lemma str_app_assoc s t u : (s +:+ t) +:+ u = s +:+ t +:+ u.
Proof. induction s as [|a s IH]; [done|]. by rewrite !str_app_cons, IH. Qed.

Lemma str_length_app s t :
  String.length (s +:+ t) = (String.length s + String.length t)%nat.
Proof. induction s as [|a s IH]; [done|]. rewrite str_app_cons. simpl. by rewrite IH. Qed.

Lemma str_rev_app_spec s t : String.rev_app s t = String.rev s +:+ t.
Proof.
  unfold String.rev. revert t. induction s as [|a s IH]; intros t; [done|].
  simpl. rewrite IH, (IH (String a EmptyString)). by rewrite str_app_assoc.
Qed.

Lemma str_rev_cons a s : String.rev (String a s) = String.rev s +:+ String a EmptyString.
Proof. unfold String.rev at 1. simpl. apply str_rev_app_spec. Qed.

Lemma str_rev_app s t : String.rev (s +:+ t) = String.rev t +:+ String.rev s.
Proof.
  induction s as [|a s IH]; [by rewrite str_app_nil_r|].
  by rewrite str_app_cons, !str_rev_cons, IH, str_app_assoc.
Qed.

Lemma str_rev_involutive s : String.rev (String.rev s) = s.
Proof.
  induction s as [|a s IH]; [done|]. by rewrite str_rev_cons, str_rev_app, IH.
Qed.

Lemma str_prefix_app p s : String.prefix p (p +:+ s) = true.
Proof.
  induction p as [|a p IH]; [by destruct s|].
  rewrite str_app_cons. simpl. by destruct (ascii_dec a a).
Qed.

Lemma str_prefix_inv p s : String.prefix p s = true → ∃ r, s = p +:+ r.
Proof.
  revert s. induction p as [|a p IH]; intros s H; [by exists s|].
  destruct s as [|b s]; [done|]. simpl in H.
  destruct (ascii_dec a b) as [->|]; [|done].
  destruct (IH _ H) as [r ->]. by exists r.
Qed.

Lemma startswith_inv s p : startswith s p = true → ∃ r, s = p +:+ r.
Proof. apply str_prefix_inv. Qed.

Lemma startswith_app p r : startswith (p +:+ r) p = true.
Proof. apply str_prefix_app. Qed.

Lemma endswith_inv s p : endswith s p = true → ∃ r, s = r +:+ p.
Proof.
  unfold endswith. intros H. apply str_prefix_inv in H as [r Hr].
  exists (String.rev r).
  by rewrite <-(str_rev_involutive s), Hr, str_rev_app, str_rev_involutive.
Qed.

Lemma endswith_app r p : endswith (r +:+ p) p = true.
Proof. unfold endswith. rewrite str_rev_app. apply str_prefix_app. Qed.

Lemma str_substring_0_app s t : String.substring 0 (String.length s) (s +:+ t) = s.
Proof. induction s as [|a s IH]; [by destruct t|]. rewrite str_app_cons. simpl. by rewrite IH. Qed.

(** [("<p>" + body + "</p>")[3:-4]] *)
Lemma slice_paragraph body : slice 3 4 ("<p>" +:+ body +:+ "</p>") = body.
Proof.
  unfold slice. rewrite !str_length_app.
  change ("<p>" +:+ body +:+ "</p>")
    with (String "<" (String "p" (String ">" (body +:+ "</p>")))).
  simpl.
  replace (String.length body + 4 - 0 - 4)%nat with (String.length body) by lia.
  apply str_substring_0_app.
Qed.

(** A string with both ends is long enough to have a middle. *)
Lemma paragraph_ends html :
  startswith html "<p>" && endswith html "</p>" = true
  ↔ ∃ body, html = "<p>" +:+ body +:+ "</p>".
Proof.
  rewrite andb_true_iff. split.
  - intros [H1 H2]. apply startswith_inv in H1 as [r Hr].
    apply endswith_inv in H2 as [x Hx]. subst html.
    destruct x as [|a [|b [|c x]]]; try discriminate.
    injection Hx as <- <- <- Hx. change (r = x +:+ "</p>") in Hx. subst r.
    by exists x.
  - intros [body ->]. split; [apply startswith_app|].
    rewrite <-str_app_assoc. apply endswith_app.
Qed.

(** ** [sorted] is a stable sort *)

Section SortedFacts.
Context {A K : Type} (ltb : K → K → bool) (key : A → K) (reverse : bool).
Hypothesis ltb_irrefl : ∀ x, ltb x x = false.
Hypothesis ltb_trans : ∀ x y z, ltb x y = true → ltb y z = true → ltb x z = true.
Hypothesis ltb_negtrans : ∀ x y z, ltb x y = false → ltb y z = false → ltb x z = false.

#[local] Abbreviation before := (before ltb key reverse).
#[local] Abbreviation insert_sorted := (insert_sorted ltb key reverse).
#[local] Abbreviation sorted := (sorted ltb key reverse).

#[local] Abbreviation in_order := (in_order ltb key reverse).

Lemma before_asym x y : before x y = true → before y x = false.
Proof.
  unfold before. destruct reverse; intros H;
    match goal with |- ltb ?a ?b = false =>
      destruct (ltb a b) eqn:E; [|done];
      by rewrite <-(ltb_irrefl (key x)), (ltb_trans _ _ _ H E) ||
         by rewrite <-(ltb_irrefl (key x)), (ltb_trans _ _ _ E H)
    end.
Qed.

Lemma in_order_trans x y z : in_order x y → in_order y z → in_order x z.
Proof. unfold in_order, before. destruct reverse; eauto. Qed.

Lemma insert_sorted_perm x l : insert_sorted x l ≡ₚ x :: l.
Proof.
  induction l as [|y l IH]; [done|]. simpl.
  destruct (before y x); [|done]. by rewrite IH, Permutation_swap.
Qed.

Lemma sorted_perm l : sorted l ≡ₚ l.
Proof.
  induction l as [|x l IH]; [done|]. unfold sorted in *. simpl.
  by rewrite insert_sorted_perm, IH.
Qed.

Lemma insert_sorted_sorted x l :
  StronglySorted in_order l → StronglySorted in_order (insert_sorted x l).
Proof.
  induction 1 as [|y l Hl IH Hy]; simpl; [by repeat constructor|].
  destruct (before y x) eqn:Hyx.
  - constructor; [done|]. rewrite insert_sorted_perm.
    constructor; [|done]. by apply before_asym.
  - constructor; [by constructor|]. constructor; [done|].
    eapply Forall_impl; [done|]. intros z Hz. by eapply in_order_trans.
Qed.

Lemma sorted_sorted l : StronglySorted in_order (sorted l).
Proof.
  induction l as [|x l IH]; [constructor|]. by apply insert_sorted_sorted.
Qed.

(** Elements that the order does not tell apart stay as they came. *)
Lemma insert_sorted_filter (P : A → Prop) `{!∀ x, Decision (P x)} x l :
  (∀ y z, P y → P z → before y z = false) →
  filter P (insert_sorted x l) = filter P (x :: l).
Proof.
  intros HP. induction l as [|y l IH]; [done|]. simpl.
  destruct (before y x) eqn:Hyx; [|done].
  rewrite filter_cons, IH, !filter_cons.
  destruct (decide (P y)) as [Hy|]; [|done].
  destruct (decide (P x)) as [Hx|]; [|done].
  by rewrite (HP _ _ Hy Hx) in Hyx.
Qed.

Lemma sorted_stable (P : A → Prop) `{!∀ x, Decision (P x)} l :
  (∀ y z, P y → P z → before y z = false) →
  filter P (sorted l) = filter P l.
Proof.
  intros HP. induction l as [|x l IH]; [done|].
  unfold sorted in *. simpl.
  by rewrite insert_sorted_filter, !filter_cons, IH.
Qed.

End SortedFacts.

(** ** Dates *)

Lemma date_ltb_spec (a b : date) :
  date_ltb a b = true ↔
  a.1.1 < b.1.1 ∨ (a.1.1 = b.1.1 ∧ (a.1.2 < b.1.2 ∨ (a.1.2 = b.1.2 ∧ a.2 < b.2))).
Proof.
  destruct a as [[y1 m1] d1], b as [[y2 m2] d2]. unfold date_ltb. simpl.
  rewrite !orb_true_iff, !andb_true_iff, !orb_true_iff, !andb_true_iff,
    !Z.ltb_lt, !Z.eqb_eq. done.
Qed.

Lemma date_ltb_irrefl a : date_ltb a a = false.
Proof. apply not_true_iff_false. rewrite date_ltb_spec. lia. Qed.

Lemma date_ltb_trans a b c :
  date_ltb a b = true → date_ltb b c = true → date_ltb a c = true.
Proof. rewrite !date_ltb_spec. lia. Qed.

Lemma date_ltb_negtrans a b c :
  date_ltb a b = false → date_ltb b c = false → date_ltb a c = false.
Proof. rewrite <-!not_true_iff_false, !date_ltb_spec. lia. Qed.

Lemma date_ltb_year a b : date_ltb a b = false → date_year b ≤ date_year a.
Proof. rewrite <-not_true_iff_false, date_ltb_spec. unfold date_year. lia. Qed.

Lemma Z_ltb_negtrans (a b c : Z) : (a <? b) = false → (b <? c) = false → (a <? c) = false.
Proof. rewrite !Z.ltb_ge. lia. Qed.

Lemma Z_ltb_trans (a b c : Z) : (a <? b) = true → (b <? c) = true → (a <? c) = true.
Proof. rewrite !Z.ltb_lt. lia. Qed.


(** ** The listing *)

Lemma group_by_year_snoc l t :
  group_by_year (l ++ [t])
  = <[date_year t.1 := default [] (group_by_year l !! date_year t.1) ++ [t.2]]>
      (group_by_year l).
Proof. unfold group_by_year. by rewrite foldl_app. Qed.

(** The list of a year holds the talks of that year, in their order. *)
Lemma group_by_year_lookup l y :
  default [] (group_by_year l !! y)
  = map snd (filter (λ t, date_year t.1 = y) l)
  ∧ (is_Some (group_by_year l !! y) ↔ ∃ t, t ∈ l ∧ date_year t.1 = y).
Proof.
  induction l as [|t l [IH1 IH2]] using rev_ind.
  - split; [done|]. unfold group_by_year. simpl. rewrite lookup_empty.
    split; [by intros [? ?]|]. intros (t&Ht&_). by apply elem_of_nil in Ht.
  - rewrite group_by_year_snoc, filter_app, map_app.
    destruct (decide (date_year t.1 = y)) as [Hy|Hy].
    + subst y. rewrite lookup_insert_eq. simpl. split.
      * rewrite IH1, filter_cons, decide_True by done. by rewrite filter_nil.
      * split; [|by eauto]. intros _. exists t. split; [|done].
        apply elem_of_app. right. by apply list_elem_of_singleton.
    + rewrite lookup_insert_ne by done. split.
      * rewrite IH1, filter_cons, decide_False by done.
        by rewrite filter_nil, app_nil_r.
      * rewrite IH2. split; intros (t'&Ht'&Hy').
        -- exists t'. split; [|done]. apply elem_of_app. by left.
        -- exists t'. split; [|done]. apply elem_of_app in Ht' as [?|Ht']; [done|].
           apply list_elem_of_singleton in Ht'. by subst t'.
Qed.

(** A list in descending order without repetitions descends strictly. *)
Lemma descending_strict (l : list Z) :
  StronglySorted (λ a b, (a <? b) = false) l → NoDup l →
  StronglySorted (λ a b, b < a) l.
Proof.
  induction 1 as [|a l Hl IH Ha]; intros Hnd; [constructor|].
  apply NoDup_cons in Hnd as [Hnotin Hnd]. constructor; [by apply IH|].
  apply Forall_forall. intros b Hb. rewrite Forall_forall in Ha.
  specialize (Ha b Hb). apply Z.ltb_ge in Ha.
  assert (a ≠ b) by (intros ->; done). lia.
Qed.

Lemma listing_unfold talks :
  listing talks
  = flat_map (λ year,
      Heading year
      :: map (λ t, Entry t.2)
           (filter (λ t, date_year t.1 = year) (sorted date_ltb fst true talks)))
      (listing_years talks).
Proof.
  unfold listing, listing_years. apply flat_map_ext. intros y. f_equal.
  destruct (group_by_year_lookup (sorted date_ltb fst true talks) y) as [-> _].
  by rewrite map_map.
Qed.

Lemma listing_years_descending talks :
  StronglySorted (λ a b, b < a) (listing_years talks).
Proof.
  apply descending_strict.
  - apply (sorted_sorted Z.ltb id true Z.ltb_irrefl Z_ltb_trans Z_ltb_negtrans).
  - unfold listing_years. rewrite sorted_perm. apply NoDup_fst_map_to_list.
Qed.

Lemma listing_years_elem talks y :
  y ∈ listing_years talks ↔ ∃ t, t ∈ talks ∧ date_year t.1 = y.
Proof.
  unfold listing_years. rewrite sorted_perm, list_elem_of_fmap.
  destruct (group_by_year_lookup (sorted date_ltb fst true talks) y) as [_ H].
  assert ((∃ t, t ∈ sorted date_ltb fst true talks ∧ date_year t.1 = y)
          ↔ ∃ t, t ∈ talks ∧ date_year t.1 = y) as <-.
  { split; intros (t&Ht&Hy); exists t; split; try done.
    - by rewrite sorted_perm in Ht.
    - by rewrite sorted_perm. }
  rewrite <-H. split.
  - intros ([y' l]&->&Hl). apply elem_of_map_to_list in Hl. by eexists.
  - intros [l Hl]. exists (y, l). split; [done|]. by apply elem_of_map_to_list.
Qed.

(** Every talk is in the listing. *)
Lemma listing_complete talks t : t ∈ talks → Entry t.2 ∈ listing talks.
Proof.
  intros Ht. rewrite listing_unfold. apply list_elem_of_In, in_flat_map.
  exists (date_year t.1). split.
  - apply list_elem_of_In, listing_years_elem. eauto.
  - right. apply list_elem_of_In, (list_elem_of_fmap_2 (λ t, Entry t.2)).
    apply list_elem_of_filter. split; [done|]. by rewrite sorted_perm.
Qed.


(** ** The listing is sorted and grouped *)

(** C3: the renderer sorts the talks by date, newest first, talks of one
    date in the order they had; the listing is, for each year in which
    there is a talk, years descending, a heading for the year followed by
    the talks of the year in sorted order. Talks dated 2023-01-01,
    2024-06-01 and 2023-12-31 are listed as 2024: second; 2023: third,
    first. *)
Theorem listing_sorted_and_grouped (talks : list (date * pyval)) :
  let sorted_talks := sorted date_ltb fst true talks in
  sorted_talks ≡ₚ talks
  ∧ StronglySorted (λ a b, date_ltb a.1 b.1 = false) sorted_talks
  ∧ (∀ d, filter (λ t, t.1 = d) sorted_talks = filter (λ t, t.1 = d) talks)
  ∧ listing talks
    = flat_map (λ year,
        Heading year
        :: map (λ t, Entry t.2) (filter (λ t, date_year t.1 = year) sorted_talks))
        (listing_years talks)
  ∧ StronglySorted (λ a b, b < a) (listing_years talks)
  ∧ (∀ y, y ∈ listing_years talks ↔ ∃ t, t ∈ talks ∧ date_year t.1 = y)
  ∧ ∀ a b c,
      listing [((2023, 1, 1), a); ((2024, 6, 1), b); ((2023, 12, 31), c)]
      = [Heading 2024; Entry b; Heading 2023; Entry c; Entry a].
Proof.
  split_and!.
  - apply sorted_perm.
  - apply (sorted_sorted date_ltb fst true date_ltb_irrefl date_ltb_trans date_ltb_negtrans).
  - intros d. apply sorted_stable. intros y z Hy Hz.
    unfold before. rewrite Hy, Hz. apply date_ltb_irrefl.
  - apply listing_unfold.
  - apply listing_years_descending.
  - apply listing_years_elem.
  - intros a b c. by vm_compute.
Qed.

(** ** The highlight image *)

Lemma format_0d_nonneg width n :
  0 ≤ n →
  format_0d width n
  = zeros (width - String.length (pretty (Z.to_N n))) +:+ pretty (Z.to_N n).
Proof.
  intros Hn. unfold format_0d. rewrite (proj2 (Z.ltb_ge n 0) Hn). simpl.
  replace (Z.abs_N n) with (Z.to_N n) by (by destruct n).
  by rewrite Nat.sub_0_r.
Qed.

Lemma zeros_length n : String.length (zeros n) = n.
Proof. induction n as [|n IH]; [done|]. simpl. by rewrite IH. Qed.



(** ** Listing a directory *)

Lemma paths_elem (fs : filesystem) q :
  q ∈ map fst (map_to_list fs) ↔ is_Some (fs !! q).
Proof.
  rewrite list_elem_of_fmap. split.
  - intros ([q' x]&->&H). apply elem_of_map_to_list in H. by eexists.
  - intros [x H]. exists (q, x). split; [done|]. by apply elem_of_map_to_list.
Qed.

Lemma children_elem fs d q :
  q ∈ children fs d ↔ q ≠ [] ∧ path_parent q = d ∧ is_Some (fs !! q).
Proof.
  unfold children. rewrite list_elem_of_filter, paths_elem.
  unfold is_child. rewrite bool_decide_eq_true. naive_solver.
Qed.

Lemma children_nodup fs d : NoDup (children fs d).
Proof. apply NoDup_filter, NoDup_fst_map_to_list. Qed.

Lemma talk_dirs_elem fs talks q :
  q ∈ talk_dirs fs talks ↔ is_talk_dir fs q ∧ q ∈ children fs talks.
Proof. unfold talk_dirs. by rewrite list_elem_of_filter. Qed.

Lemma talk_dirs_nodup fs talks : NoDup (talk_dirs fs talks).
Proof. apply NoDup_filter, children_nodup. Qed.

(** Two file systems with the same entries in a directory have the same
    talk directories there, in some order. *)
Lemma talk_dirs_perm fs fs' talks :
  (∀ q, q ≠ [] → path_parent q = talks → fs' !! q = fs !! q) →
  talk_dirs fs' talks ≡ₚ talk_dirs fs talks.
Proof.
  intros H. apply NoDup_Permutation; [apply talk_dirs_nodup..|].
  intros q. rewrite !talk_dirs_elem, !children_elem. unfold is_talk_dir, is_dir.
  split; intros (Hd&Hne&Hp&Hs); (split; [|split_and!; try done]).
  - destruct q; [done|]. by rewrite <-H.
  - by rewrite <-H.
  - destruct q; [done|]. by rewrite H.
  - by rewrite H.
Qed.

(** The slides of a directory are counted alike when the same slide files
    exist. *)
Lemma glob_slides_length fs fs' d :
  (∀ q, q ≠ [] → path_parent q = d → is_slide_png (path_name q) = true →
        (is_Some (fs' !! q) ↔ is_Some (fs !! q))) →
  length (glob_slides fs' d) = length (glob_slides fs d).
Proof.
  intros H. apply Permutation_length, NoDup_Permutation.
  - apply NoDup_filter, children_nodup.
  - apply NoDup_filter, children_nodup.
  - intros q. unfold glob_slides. rewrite !list_elem_of_filter, !children_elem.
    split; intros (Hs&Hne&Hp&Hq); split_and!; try done; by apply (H q).
Qed.

(** ** The order on paths *)

Lemma str_compare_refl a : String.compare a a = Eq.
Proof. pose proof (String.compare_antisym a a) as H. by destruct (String.compare a a). Qed.

Lemma str_compare_gt a b : String.compare a b = Gt ↔ String.compare b a = Lt.
Proof. rewrite (String.compare_antisym a b). by destruct (String.compare b a). Qed.

Lemma str_compare_lt_trans a b c :
  String.compare a b = Lt → String.compare b c = Lt → String.compare a c = Lt.
Proof.
  intros Hab Hbc.
  assert (String.le a c) as Hac.
  { trans b; unfold String.le, String.leb; [by rewrite Hab|by rewrite Hbc]. }
  unfold String.le, String.leb in Hac.
  destruct (String.compare a c) eqn:E; [|done|done].
  apply String.compare_eq_iff in E. subst c.
  apply str_compare_gt in Hbc. congruence.
Qed.

Lemma path_ltb_irrefl p : path_ltb p p = false.
Proof. induction p as [|a p IH]; [done|]. simpl. by rewrite str_compare_refl. Qed.

Lemma path_ltb_trans p q r :
  path_ltb p q = true → path_ltb q r = true → path_ltb p r = true.
Proof.
  revert q r. induction p as [|a p IH]; intros [|b q] [|c r]; simpl; try done.
  destruct (String.compare a b) eqn:Hab; [|clear IH|done];
    destruct (String.compare b c) eqn:Hbc; try done.
  - apply String.compare_eq_iff in Hab, Hbc. subst. rewrite str_compare_refl. apply IH.
  - apply String.compare_eq_iff in Hab. subst. by rewrite Hbc.
  - apply String.compare_eq_iff in Hbc. subst. by rewrite Hab.
  - by rewrite (str_compare_lt_trans _ _ _ Hab Hbc).
Qed.

(** Two paths of which neither is before the other are one path. *)
Lemma path_ltb_total p q : path_ltb p q = false → path_ltb q p = false → p = q.
Proof.
  revert q. induction p as [|a p IH]; intros [|b q]; simpl; try done.
  destruct (String.compare a b) eqn:Hab; [|done|].
  - apply String.compare_eq_iff in Hab. subst. rewrite str_compare_refl.
    intros ??. f_equal. by apply IH.
  - apply str_compare_gt in Hab. by rewrite Hab.
Qed.

Lemma path_ltb_negtrans p q r :
  path_ltb p q = false → path_ltb q r = false → path_ltb p r = false.
Proof.
  intros Hpq Hqr. destruct (path_ltb p r) eqn:Hpr; [|done].
  destruct (path_ltb r q) eqn:Hrq.
  - by rewrite (path_ltb_trans _ _ _ Hpr Hrq) in Hpq.
  - rewrite (path_ltb_total _ _ Hqr Hrq) in Hpq. congruence.
Qed.

(** Sorting settles the order of the talk directories, whatever order
    the directory is read in. *)
Lemma sorted_paths_perm (l l' : list path) :
  l ≡ₚ l' → sorted path_ltb id false l = sorted path_ltb id false l'.
Proof.
  intros Hl. eapply (StronglySorted_unique_strong (in_order path_ltb id false)).
  - intros x y _ _ H1 H2. unfold in_order, before in *. simpl in *.
    by apply path_ltb_total.
  - apply sorted_sorted; eauto using path_ltb_irrefl, path_ltb_trans, path_ltb_negtrans.
  - apply sorted_sorted; eauto using path_ltb_irrefl, path_ltb_trans, path_ltb_negtrans.
  - by rewrite !sorted_perm.
Qed.

(** ** The order in which the talks are submitted *)

Lemma ascending_strict (l : list path) :
  StronglySorted (in_order path_ltb id false) l → NoDup l →
  StronglySorted (λ p q, path_ltb p q = true) l.
Proof.
  induction 1 as [|x l Hl IH Hx]; intros Hnd; [constructor|].
  apply NoDup_cons in Hnd as [Hnotin Hnd]. constructor; [by apply IH|].
  apply Forall_forall. intros y Hy. rewrite Forall_forall in Hx.
  specialize (Hx y Hy). unfold in_order, before in Hx. simpl in Hx.
  destruct (path_ltb x y) eqn:Hxy; [done|].
  by rewrite (path_ltb_total x y Hxy Hx) in Hnotin.
Qed.

(** X2. The talks handed to the pool: the immediate entries of the input
    root that are directories and whose name does not start with a dot,
    each of them once, in strictly ascending order of their paths,
    whatever the order in which the directory was listed. *)
Theorem submitted_talks_are_the_visible_subdirectories (fs : filesystem) (talks : path) :
  let dirs := sorted path_ltb id false (talk_dirs fs talks) in
  NoDup dirs
  ∧ StronglySorted (λ p q, path_ltb p q = true) dirs
  ∧ (∀ q, q ∈ dirs ↔
          q ≠ [] ∧ path_parent q = talks ∧ fs !! q = Some Dir
          ∧ startswith (path_name q) "." = false)
  ∧ (∀ listed, listed ≡ₚ talk_dirs fs talks → sorted path_ltb id false listed = dirs).
Proof.
  assert (NoDup (sorted path_ltb id false (talk_dirs fs talks))) as Hnd
    by (rewrite sorted_perm; apply talk_dirs_nodup).
  split_and!.
  - exact Hnd.
  - apply ascending_strict; [|exact Hnd].
    apply sorted_sorted; eauto using path_ltb_irrefl, path_ltb_trans, path_ltb_negtrans.
  - intros q. rewrite sorted_perm, talk_dirs_elem, children_elem. unfold is_talk_dir, is_dir.
    rewrite andb_true_iff, negb_true_iff. split.
    + intros [[Hd Hn] (Hq&Hp&_)]. destruct q as [|c q]; [done|].
      by destruct (fs !! (c :: q)) as [[|]|] eqn:Hl.
    + intros (Hq&Hp&Hl&Hn). destruct q as [|c q]; [done|]. by rewrite Hl.
  - intros listed Hl. by apply sorted_paths_perm.
Qed.

(** ** Writing a file *)

Lemma write_text_spec fs k c fs' :
  write_text fs k c = Ok fs' →
  is_dir fs (path_parent k) = true ∧ file_written k c fs fs'.
Proof.
  unfold write_text, file_written. destruct (is_dir fs (path_parent k)); [|done]. simpl.
  destruct (fs !! k) as [[|]|] eqn:Hk; intros [= <-]; by rewrite ?Hk.
Qed.

(** Writing what is there already changes nothing. *)
Lemma write_text_again fs k c :
  is_dir fs (path_parent k) = true → fs !! k = Some (File c) →
  write_text fs k c = Ok fs.
Proof. intros Hp Hk. unfold write_text. rewrite Hp, Hk. simpl. by rewrite insert_id. Qed.

Lemma copy2_spec fs src dst fs' :
  copy2 fs src dst = Ok fs' →
  ∃ c, fs !! src = Some (File c)
       ∧ src ≠ copy2_target fs src dst
       ∧ write_text fs (copy2_target fs src dst) c = Ok fs'.
Proof.
  unfold copy2, copy2_target, read_text. destruct (fs !! src) as [[c|]|]; [|done..].
  case_bool_decide; [done|]. eauto.
Qed.

Lemma copy2_again fs src dst c :
  fs !! src = Some (File c) →
  src ≠ copy2_target fs src dst →
  is_dir fs (path_parent (copy2_target fs src dst)) = true →
  fs !! copy2_target fs src dst = Some (File c) →
  copy2 fs src dst = Ok fs.
Proof.
  intros Hsrc Hne Hp Hk. unfold copy2, read_text. fold (copy2_target fs src dst).
  rewrite Hsrc. rewrite bool_decide_eq_false_2 by done. by apply write_text_again.
Qed.

Section FileWritten.
Context (k : path) (c : string) (fs fs' : filesystem).
Hypothesis Hw : file_written k c fs fs'.

Lemma file_written_other q : q ≠ k → fs' !! q = fs !! q.
Proof. destruct Hw as [_ ->]. intros. by rewrite lookup_insert_ne. Qed.

Lemma file_written_at : fs' !! k = Some (File c).
Proof. destruct Hw as [_ ->]. by rewrite lookup_insert_eq. Qed.

Lemma file_written_is_dir q : is_dir fs' q = is_dir fs q.
Proof.
  destruct Hw as [Hk ->]. unfold is_dir. destruct q as [|a q]; [done|].
  destruct (decide (k = a :: q)) as [<-|]; [|by rewrite lookup_insert_ne].
  rewrite lookup_insert_eq. by destruct (fs !! k) as [[|]|].
Qed.

Lemma file_written_exists q : path_exists fs q = true → path_exists fs' q = true.
Proof.
  destruct Hw as [Hk ->]. unfold path_exists.
  destruct (decide (k = q)) as [<-|]; [by rewrite lookup_insert_eq|].
  by rewrite lookup_insert_ne.
Qed.

Lemma file_written_processed output h :
  talk_processed fs output h = true → talk_processed fs' output h = true.
Proof.
  unfold talk_processed. rewrite !andb_true_iff, file_written_is_dir.
  intros [??]. split; [|done]. by apply file_written_exists.
Qed.

Lemma file_written_slides d :
  is_slide_png (path_name k) = false →
  length (glob_slides fs' d) = length (glob_slides fs d).
Proof.
  intros Hk. apply glob_slides_length. intros q _ _ Hq.
  rewrite file_written_other; [done|]. intros ->. congruence.
Qed.

End FileWritten.

(** ** Files written at the top of the output directory *)

Section TopWrite.
Context (output : path) (n : string) (fs fs' : filesystem).
Hypothesis Hw : top_write output n fs fs'.

Lemma top_write_name q : path_name q ≠ n → fs' !! q = fs !! q.
Proof.
  destruct Hw as [->|(k&c&Hk&_&Hn)]; [done|]. intros Hq.
  apply (file_written_other _ _ _ _ Hk). congruence.
Qed.

Lemma top_write_outside q : ¬ below output q → fs' !! q = fs !! q.
Proof.
  destruct Hw as [->|(k&c&Hk&Hb&_)]; [done|]. intros Hq.
  apply (file_written_other _ _ _ _ Hk). congruence.
Qed.

Lemma top_write_is_dir q : is_dir fs' q = is_dir fs q.
Proof.
  destruct Hw as [->|(k&c&Hk&_&_)]; [done|]. by eapply file_written_is_dir.
Qed.

Lemma top_write_processed h :
  talk_processed fs output h = true → talk_processed fs' output h = true.
Proof.
  destruct Hw as [->|(k&c&Hk&_&_)]; [done|]. by eapply file_written_processed.
Qed.

Lemma top_write_slides d :
  is_slide_png n = false → length (glob_slides fs' d) = length (glob_slides fs d).
Proof.
  destruct Hw as [->|(k&c&Hk&_&Hn)]; [done|]. intros Hs.
  eapply file_written_slides; [done|]. by rewrite Hn.
Qed.

End TopWrite.

Lemma path_name_join (p : path) c : path_name (p // c) = c.
Proof. unfold path_name, path_join. apply last_last. Qed.

Lemma path_parent_join (p : path) c : path_parent (p // c) = p.
Proof. unfold path_parent, path_join. apply removelast_last. Qed.

Lemma below_join (output : path) c : below output (output // c).
Proof.
  split; [by apply prefix_app_r|]. unfold path_join. intros H.
  apply (f_equal length) in H. rewrite length_app in H. simpl in H. lia.
Qed.

Lemma below_join2 (output : path) c c' : below output (output // c // c').
Proof.
  split; [unfold path_join; rewrite <-app_assoc; by apply prefix_app_r|].
  unfold path_join. intros H.
  apply (f_equal length) in H. rewrite !length_app in H. simpl in H. lia.
Qed.

(** Paths in the input root are not below the output root, when the
    roots are apart. *)
Lemma input_not_below (talks output rest : path) :
  ¬ output `prefix_of` talks → ¬ talks `prefix_of` output →
  ¬ below output (talks ++ rest).
Proof.
  intros H1 H2 [Hp _].
  destruct (prefix_weak_total output talks (talks ++ rest)); try done.
  by apply prefix_app_r.
Qed.

Lemma template_not_below (output : path) name :
  output ≠ [] → ¬ ["templates"] `prefix_of` output →
  ¬ below output ["templates"; name].
Proof.
  intros Hne Ht [[k Hk] Hb]. destruct output as [|a [|b output]]; [done|..].
  - injection Hk as <- _. by apply Ht.
  - injection Hk as <- _. apply Ht. by exists (b :: output).
Qed.

Lemma write_landing fs (output : path) html fs' :
  write_text fs (output // "index.html") html = Ok fs' →
  top_write output "index.html" fs fs'.
Proof.
  intros [_ Hw]%write_text_spec. right. eexists _, _. split_and!; [done|..].
  - apply below_join.
  - apply path_name_join.
Qed.

Lemma copy2_target_name fs name (output : path) :
  path_name (copy2_target fs ["templates"; name] (output // name)) = name.
Proof. unfold copy2_target. destruct (is_dir _ _); by rewrite path_name_join. Qed.

Lemma copy2_target_below fs src (output : path) name :
  below output (copy2_target fs src (output // name)).
Proof.
  unfold copy2_target. destruct (is_dir _ _); [apply below_join2|apply below_join].
Qed.

(** ** Paths made from a string *)

Lemma path_join_plain (p : path) s :
  plain_name s → path_join_str p s = {| anchor := p; steps := [s] |}.
Proof. intros (Hroot&Hparts&_). unfold path_join_str. by rewrite Hroot, Hparts. Qed.

Lemma joined_path_plain (p : path) s :
  plain_name s → joined_path (path_join_str p s) = p // s.
Proof. intros Hs. by rewrite path_join_plain. Qed.

Lemma walk_names fs cur todo :
  ".." ∉ todo → walk fs cur todo = Some (cur ++ todo).
Proof.
  revert cur. induction todo as [|c todo IH]; intros cur Hno; simpl.
  { by rewrite app_nil_r. }
  apply not_elem_of_cons in Hno as [Hc Hno].
  destruct (String.eqb c "..") eqn:Heq; [by apply String.eqb_eq in Heq|].
  rewrite IH by done. unfold path_join. by rewrite <-app_assoc.
Qed.

Lemma locate_plain fs (p : path) s :
  plain_name s → locate fs (path_join_str p s) = Some (p // s).
Proof.
  intros Hs. rewrite path_join_plain by done. unfold locate. simpl.
  destruct Hs as (_&_&Hs). by destruct (String.eqb s "..") eqn:Heq; [apply String.eqb_eq in Heq|].
Qed.

Lemma exists_walked_plain fs (p : path) s :
  plain_name s → exists_walked fs (path_join_str p s) = path_exists fs (p // s).
Proof. intros Hs. unfold exists_walked. by rewrite locate_plain. Qed.

Lemma copy2_walked_plain fs (p q : path) s :
  plain_name s →
  copy2_walked fs (path_join_str p s) (path_join_str q s) = copy2 fs (p // s) (q // s).
Proof. intros Hs. unfold copy2_walked. by rewrite !locate_plain. Qed.

Lemma copy2_walked_spec fs src dst fs' :
  copy2_walked fs src dst = Ok fs' →
  ∃ ks kd, locate fs src = Some ks ∧ locate fs dst = Some kd ∧ copy2 fs ks kd = Ok fs'.
Proof.
  unfold copy2_walked. destruct (locate fs src) as [ks|]; [|done].
  destruct (locate fs dst) as [kd|]; [|done]. eauto.
Qed.

(** The walk looks at the directories only. *)
Lemma walk_ext fs fs' cur todo :
  (∀ q, is_dir fs' q = is_dir fs q) → walk fs' cur todo = walk fs cur todo.
Proof.
  intros Hdir. revert cur. induction todo as [|c todo IH]; intros cur; [done|].
  simpl. destruct (String.eqb c ".."); [|done].
  assert (step_up fs' cur = step_up fs cur) as ->.
  { unfold step_up. destruct (above cur); [done|]. by rewrite !Hdir. }
  by destruct (step_up fs cur).
Qed.

Lemma locate_ext fs fs' j :
  (∀ q, is_dir fs' q = is_dir fs q) → locate fs' j = locate fs j.
Proof. intros Hdir. by apply walk_ext. Qed.

Ltac monad_unfold :=
  unfold bind, ret, raise, lift, get_self, get_files, modify_self, put_files,
    append_error, fs_op, try_except, is_talk_processed in *.

Section Properties.

Variable safe_load : string → result pyval.
Variable markdown_markdown : string → string.
Variable re_sub : string → string → string → result string.
Variable script_sh : list string → filesystem → filesystem * result string.
Variable repr_container : pyval → string.
Variable now : string.
Variable completion_order : list path → list path.

#[local] Abbreviation load_talk := (load_talk safe_load).
#[local] Abbreviation parse_metadata := (parse_metadata safe_load).
#[local] Abbreviation process_talk := (process_talk safe_load script_sh).
#[local] Abbreviation convert_talk := (convert_talk script_sh).
#[local] Abbreviation run_talk := (run_talk safe_load script_sh).
#[local] Abbreviation generate_landing_page :=
  (generate_landing_page markdown_markdown re_sub repr_container now).
#[local] Abbreviation landing_html :=
  (landing_html markdown_markdown re_sub repr_container now).
#[local] Abbreviation process_all :=
  (process_all safe_load markdown_markdown re_sub script_sh repr_container now completion_order).

(** ** The metadata loader *)

Lemma check_fields_state talk fields s : (check_fields talk fields s).1 = s.
Proof.
  induction fields as [|f fields IH]; [done|].
  unfold check_fields in *. simpl. monad_unfold.
  destruct (py_contains f talk) as [[]|]; simpl; [apply IH|done|done].
Qed.

Lemma check_fields_ok talk fields s u :
  (check_fields talk fields s).2 = Ok u →
  Forall (λ f, py_contains f talk = Ok true) fields.
Proof.
  induction fields as [|f fields IH]; [constructor|].
  unfold check_fields in *. simpl. monad_unfold.
  destruct (py_contains f talk) as [[]|] eqn:Hf; simpl; [|done|done].
  intros H. constructor; [done|]. by apply IH.
Qed.

(** The first field that is missing stops the check, by name. *)
Lemma check_fields_first_missing (t : gmap string pyval) pre f post s :
  Forall (λ g, is_Some (t !! g)) pre →
  t !! f = None →
  check_fields (PDict t) (pre ++ f :: post) s
  = (s, Raise (ValueError ("Missing required field: " +:+ f))).
Proof.
  intros Hpre Hf. induction Hpre as [|g pre Hg _ IH].
  - unfold check_fields. simpl. monad_unfold. simpl.
    rewrite bool_decide_eq_false_2; [done|]. rewrite Hf. by intros [? ?].
  - unfold check_fields in *. simpl. monad_unfold. simpl.
    rewrite bool_decide_eq_true_2; [|done]. simpl. apply IH.
Qed.

Lemma load_talk_unfold metadata_file s :
  load_talk metadata_file s =
  match read_text (files s.2) metadata_file with
  | Raise e => (s, Raise e)
  | Ok text =>
      match safe_load text with
      | Raise e => (s, Raise e)
      | Ok data =>
          match (if truthy data then py_contains "talk" data else Ok false) with
          | Raise e => (s, Raise e)
          | Ok false => (s, Raise (ValueError "Missing 'talk' section in metadata"))
          | Ok true =>
              match py_getitem data "talk" with
              | Raise e => (s, Raise e)
              | Ok talk =>
                  match check_fields talk required_fields s with
                  | (s', Ok _) => (s', Ok talk)
                  | (s', Raise e) => (s', Raise e)
                  end
              end
          end
      end
  end.
Proof.
  unfold load_talk. monad_unfold. simpl.
  destruct (read_text _ _); [|done]. simpl.
  destruct (safe_load a) as [data|]; [|done]. simpl.
  destruct (truthy data); simpl.
  - by destruct (py_contains "talk" data) as [[]|].
  - done.
Qed.

Lemma load_talk_state metadata_file s : (load_talk metadata_file s).1 = s.
Proof.
  rewrite load_talk_unfold. repeat case_match; try done.
  all: match goal with H : check_fields ?t ?f ?s = _ |- _ =>
         pose proof (check_fields_state t f s) as Hs; rewrite H in Hs; exact Hs end.
Qed.

Lemma load_talk_truthy metadata_file s talk :
  (load_talk metadata_file s).2 = Ok talk → truthy talk = true.
Proof.
  rewrite load_talk_unfold. repeat case_match; try done.
  simpl. intros [= <-].
  match goal with H : check_fields ?t ?f ?s = _ |- _ =>
    pose proof (λ u, check_fields_ok t f s u) as Hs; rewrite H in Hs end.
  specialize (Hs _ eq_refl). apply Forall_cons in Hs as [Ht _].
  by apply py_contains_truthy in Ht.
Qed.

(** What [parse_metadata] does, in terms of the body of its [try]. *)
Lemma parse_metadata_unfold metadata_file s :
  parse_metadata metadata_file s =
  match (load_talk metadata_file s).2 with
  | Ok talk => (s, Ok (Some talk))
  | Raise e => ((add_error (parse_error metadata_file e) s.1, s.2), Ok None)
  end.
Proof.
  unfold parse_metadata. monad_unfold.
  pose proof (load_talk_state metadata_file s) as Hs.
  destruct (load_talk metadata_file s) as [s' [talk|e]]; simpl in *; by subst.
Qed.

Lemma parse_metadata_some metadata_file s s' talk :
  parse_metadata metadata_file s = (s', Ok (Some talk)) →
  s' = s ∧ truthy talk = true.
Proof.
  rewrite parse_metadata_unfold.
  destruct (load_talk metadata_file s).2 as [t|e] eqn:H; [|done].
  intros [= <- <-]. split; [done|]. by eapply load_talk_truthy.
Qed.


Lemma process_talk_unfold talk_dir s :
  process_talk talk_dir s =
  let talk_handle := path_name talk_dir in
  let metadata_file := talk_dir // "metadata.yml" in
  if negb (path_exists (files s.2) metadata_file) then
    ((add_error ("No metadata.yml found in " +:+ path_str talk_dir) s.1, s.2), Ok false)
  else
    match (load_talk metadata_file s).2 with
    | Raise e => ((add_error (parse_error metadata_file e) s.1, s.2), Ok false)
    | Ok metadata =>
        if negb (force s.1) && talk_processed (files s.2) (output_dir s.1) talk_handle
        then skip_talk talk_handle metadata s
        else convert_talk talk_dir metadata s
    end.
Proof.
  destruct s as [self w].
  unfold process_talk.
  unfold bind at 1. unfold get_files at 1. simpl.
  destruct (path_exists (files w) (talk_dir // "metadata.yml")); simpl; [|done].
  unfold bind at 1. rewrite parse_metadata_unfold.
  destruct (load_talk (talk_dir // "metadata.yml") (self, w)).2 as [metadata|e] eqn:Hload; [|done].
  rewrite (load_talk_truthy _ _ _ Hload). simpl.
  unfold skip_talk, convert_talk, subprocess_run.
  repeat (monad_unfold; simpl).
  destruct (force self) eqn:Hforce; simpl;
    [|destruct (talk_processed _ _ _); simpl; [by destruct (py_setitem _ _ _)|]].
  all: destruct (py_getitem metadata "pdf") as [pdf|]; [|done]; simpl.
  all: destruct (path_join_val talk_dir pdf) as [pdf_file|]; [|done]; simpl.
  all: destruct (exists_walked (files w) pdf_file); [|done]; simpl.
  all: destruct (mkdir _ _) as [fs1|]; [|done]; simpl.
  all: destruct (py_getitem metadata "title") as [title|e]; [|by destruct e]; simpl.
  all: destruct (script_cmd _ _ _ _) as [cmd|e]; [|by destruct e]; simpl.
  all: destruct (script_sh cmd fs1) as [fs2 [out|e]]; simpl; [|by destruct e].
  all: destruct (path_join_val _ pdf) as [output_pdf|]; [|done]; simpl.
  all: destruct (copy2_walked _ _ _) as [fs3|]; [|done]; simpl.
  all: by destruct (py_setitem _ _ _).
Qed.

Lemma parse_metadata_loaded metadata_file s s' talk :
  parse_metadata metadata_file s = (s', Ok (Some talk)) →
  (load_talk metadata_file s).2 = Ok talk.
Proof.
  rewrite parse_metadata_unfold.
  destruct (load_talk metadata_file s).2; [|done]. by intros [= <- <-].
Qed.

Lemma parse_metadata_none metadata_file s :
  (parse_metadata metadata_file s).2 = Ok None →
  ∃ e, (load_talk metadata_file s).2 = Raise e.
Proof.
  rewrite parse_metadata_unfold.
  destruct (load_talk metadata_file s).2; [done|]. eauto.
Qed.

(** ** The metadata loader fails closed *)

(** The outcomes of [parse_metadata], on the state. *)
Lemma parse_metadata_outcomes (metadata_file : path) (s : state) :
  ((∃ talk, parse_metadata metadata_file s = (s, Ok (Some talk))) ∨
   (∃ e, parse_metadata metadata_file s
         = ((add_error (parse_error metadata_file e) s.1, s.2), Ok None)))
  ∧ (∀ e, read_text (files s.2) metadata_file = Raise e →
       parse_metadata metadata_file s
       = ((add_error (parse_error metadata_file e) s.1, s.2), Ok None))
  ∧ (∀ text, read_text (files s.2) metadata_file = Ok text →
      (∀ e, safe_load text = Raise e →
         parse_metadata metadata_file s
         = ((add_error (parse_error metadata_file e) s.1, s.2), Ok None))
      ∧ (∀ data, safe_load text = Ok data →
           truthy data = false ∨ py_contains "talk" data = Ok false →
           parse_metadata metadata_file s
           = ((add_error (parse_error metadata_file
                 (ValueError "Missing 'talk' section in metadata")) s.1, s.2), Ok None))
      ∧ (∀ d t pre f post, safe_load text = Ok (PDict d) →
           d !! "talk" = Some (PDict t) →
           required_fields = pre ++ f :: post →
           Forall (λ g, is_Some (t !! g)) pre →
           t !! f = None →
           parse_metadata metadata_file s
           = ((add_error (parse_error metadata_file
                 (ValueError ("Missing required field: " +:+ f))) s.1, s.2), Ok None))).
Proof.
  split; [|split].
  - rewrite parse_metadata_unfold. destruct (load_talk metadata_file s).2; eauto.
  - intros e He. rewrite parse_metadata_unfold, load_talk_unfold, He. done.
  - intros text Htext. rewrite parse_metadata_unfold, load_talk_unfold, Htext.
    split; [|split].
    + by intros e ->.
    + intros data -> [Hd|Hd]; rewrite Hd; [done|]. by destruct (truthy data).
    + intros d t pre f post -> Hd Hreq Hpre Hf. simpl.
      assert (d ≠ ∅) as Hne by (intros ->; by rewrite lookup_empty in Hd).
      rewrite bool_decide_eq_false_2 by done. simpl.
      rewrite bool_decide_eq_true_2 by (rewrite Hd; eauto). rewrite Hd.
      by rewrite Hreq, check_fields_first_missing.
Qed.

(** The first field that is not found decides: the check fails with the
    message that names it, or with the exception of the test itself. *)
Lemma check_fields_first talk pre f post s :
  Forall (λ g, py_contains g talk = Ok true) pre →
  (py_contains f talk = Ok false →
   check_fields talk (pre ++ f :: post) s
   = (s, Raise (ValueError ("Missing required field: " +:+ f))))
  ∧ (∀ e, py_contains f talk = Raise e →
       check_fields talk (pre ++ f :: post) s = (s, Raise e)).
Proof.
  intros Hpre. induction Hpre as [|g pre Hg _ IH].
  - unfold check_fields. simpl. monad_unfold. simpl.
    split; [by intros ->|]. by intros e ->.
  - unfold check_fields in *. simpl. monad_unfold. simpl. by rewrite Hg.
Qed.


(** ** Metadata before the completion check *)

(** C9: a talk whose descriptor is missing or does not load is recorded
    as an error and nothing else: [process_talk] returns [False], the
    skipped and processed collections and the world are as before,
    whatever force-mode is and whether or not the output directory
    bears the completion marker. *)
Theorem broken_metadata_is_never_skipped (talk_dir : path) (s : state) :
  path_exists (files s.2) (talk_dir // "metadata.yml") = false
  ∨ (parse_metadata (talk_dir // "metadata.yml") s).2 = Ok None →
  ∃ msg, process_talk talk_dir s = ((add_error msg s.1, s.2), Ok false)
    ∧ skipped_talks (process_talk talk_dir s).1.1 = skipped_talks s.1
    ∧ processed_talks (process_talk talk_dir s).1.1 = processed_talks s.1
    ∧ errors (process_talk talk_dir s).1.1 = errors s.1 ++ [msg].
Proof.
  intros H. rewrite process_talk_unfold. simpl.
  destruct (path_exists (files s.2) (talk_dir // "metadata.yml")) eqn:Hex; simpl.
  - destruct H as [?|H]; [done|].
    apply parse_metadata_none in H as [e ->]. eauto.
  - eauto.
Qed.

(** ** Completed talks are skipped, unless forced *)

(** C1: when the metadata of a talk loads as the mapping [t], the output
    subdirectory is a directory and holds [index.html], and force-mode is
    off, [process_talk] returns [True], the skipped handles are those
    before followed by the handle of the talk, the processed talks are
    those before followed by [t] with the handle, no error is recorded
    and the world is as it was: no command is run, no file is written.
    Under force-mode the completion check is not made: for a talk whose
    presentation exists and whose output directory can be created, the
    conversion command is run, with [-f], and the talk is not recorded
    as skipped, marker or no marker. *)
Theorem completed_talk_is_skipped_unless_forced (talk_dir : path) (s : state)
    (t : gmap string pyval) :
  path_exists (files s.2) (talk_dir // "metadata.yml") = true →
  parse_metadata (talk_dir // "metadata.yml") s = (s, Ok (Some (PDict t))) →
  let talk_handle := path_name talk_dir in
  let s' := (process_talk talk_dir s).1 in
  (force s.1 = false →
   talk_processed (files s.2) (output_dir s.1) talk_handle = true →
   (process_talk talk_dir s).2 = Ok true
   ∧ skipped_talks s'.1 = skipped_talks s.1 ++ [talk_handle]
   ∧ processed_talks s'.1
     = processed_talks s.1 ++ [PDict (<["handle" := PStr talk_handle]> t)]
   ∧ errors s'.1 = errors s.1
   ∧ s'.2 = s.2)
  ∧ (force s.1 = true →
     ∀ pdf title fs1,
     t !! "pdf" = Some (PStr pdf) →
     t !! "title" = Some (PStr title) →
     exists_walked (files s.2) (path_join_str talk_dir pdf) = true →
     mkdir (files s.2) (output_dir s.1 // talk_handle) = Ok fs1 →
     calls s'.2
     = calls s.2 ++ [["./script.sh"; "-p"; path_str (joined_path (path_join_str talk_dir pdf));
                      "-o"; path_str (output_dir s.1 // talk_handle);
                      "-t"; title; "-f"]]
     ∧ skipped_talks s'.1 = skipped_talks s.1).
Proof.
  intros Hex Hparse talk_handle s'. subst talk_handle s'.
  apply parse_metadata_loaded in Hparse. split.
  - intros Hforce Hdone. rewrite process_talk_unfold. simpl.
    by rewrite Hex, Hparse, Hforce, Hdone.
  - intros Hforce pdf title fs1 Hpdf Htitle Hpdf_ex Hmk.
    rewrite process_talk_unfold. simpl. rewrite Hex, Hparse, Hforce. simpl.
    unfold convert_talk. simpl. rewrite Hpdf, Htitle. simpl.
    rewrite Hpdf_ex. simpl. rewrite Hmk, Hforce. simpl.
    destruct (script_sh _ fs1) as [fs2 [out|e]]; simpl.
    + destruct (copy2_walked _ _ _); done.
    + by destruct e.
Qed.

(** ** A missing template *)

(** C7: without [templates/landing.html], [generate_landing_page] returns
    [False], the errors are those before followed by the message that
    the template was not found, and nothing is written: the world, the
    landing page of an earlier run included, and the talks recorded are
    as they were. *)
Theorem missing_template_writes_nothing (s : state) :
  path_exists (files s.2) template_file = false →
  let s' := (generate_landing_page s).1 in
  (generate_landing_page s).2 = Ok false
  ∧ errors s'.1 = errors s.1 ++ ["Template file not found: templates/landing.html"]
  ∧ processed_talks s'.1 = processed_talks s.1
  ∧ skipped_talks s'.1 = skipped_talks s.1
  ∧ s'.2 = s.2
  ∧ files s'.2 !! (output_dir s.1 // "index.html")
    = files s.2 !! (output_dir s.1 // "index.html").
Proof.
  intros H. unfold generate_landing_page. monad_unfold. simpl.
  by rewrite H.
Qed.

(** ** Creating the output directory *)

Lemma mkdir_from_lookup fs base todo fs' q :
  mkdir_from fs base todo = Ok fs' →
  fs' !! q = fs !! q
  ∨ (fs !! q = None ∧ fs' !! q = Some Dir ∧ ∃ k, q = base ++ take (S k) todo).
Proof.
  revert fs base. induction todo as [|c todo IH]; intros fs base H; simpl in H.
  - injection H as <-. by left.
  - unfold path_join in H.
    destruct (fs !! (base ++ [c])) as [[|]|] eqn:Hp; [done| |].
    + destruct (IH _ _ H) as [?|(?&?&k&->)]; [by left|right].
      split_and!; [done..|]. exists (S k). by rewrite <-app_assoc.
    + destruct (IH _ _ H) as [Hq|(Hq&?&k&->)].
      * destruct (decide (q = base ++ [c])) as [->|Hne].
        -- right. rewrite Hq, lookup_insert_eq. split_and!; [done..|].
           exists 0%nat. simpl. by rewrite take_0.
        -- left. by rewrite Hq, lookup_insert_ne.
      * right. rewrite lookup_insert_None in Hq. destruct Hq as [Hq _].
        split_and!; [done..|]. exists (S k). by rewrite <-app_assoc.
Qed.

(** What is there stays as it is. *)
Lemma mkdir_keeps fs p fs' q x :
  mkdir fs p = Ok fs' → fs !! q = Some x → fs' !! q = Some x.
Proof.
  intros H Hq. destruct (mkdir_from_lookup _ _ _ _ q H) as [->|(Hn&_)]; congruence.
Qed.

(** Only the path and the directories above it are touched. *)
Lemma mkdir_other fs p fs' q :
  mkdir fs p = Ok fs' → ¬ q `prefix_of` p → fs' !! q = fs !! q.
Proof.
  intros H Hq. destruct (mkdir_from_lookup _ _ _ _ q H) as [->|(_&_&k&->)]; [done|].
  destruct Hq. simpl. apply prefix_take.
Qed.

Lemma mkdir_from_is_dir fs base todo fs' :
  mkdir_from fs base todo = Ok fs' → todo ≠ [] → fs' !! (base ++ todo) = Some Dir.
Proof.
  revert fs base. induction todo as [|c todo IH]; intros fs base H Hne; [done|].
  simpl in H. unfold path_join in H.
  destruct todo as [|c' todo].
  - simpl in H. destruct (fs !! (base ++ [c])) as [[|]|] eqn:Hp; [done| |];
      injection H as <-; [done|]. by rewrite lookup_insert_eq.
  - replace (base ++ c :: c' :: todo) with ((base ++ [c]) ++ c' :: todo)
      by (by rewrite <-app_assoc).
    destruct (fs !! (base ++ [c])) as [[|]|]; [done|..]; by eapply IH.
Qed.

Lemma mkdir_is_dir fs p fs' : mkdir fs p = Ok fs' → is_dir fs' p = true.
Proof.
  intros H. destruct p as [|c p]; [done|].
  pose proof (mkdir_from_is_dir fs [] (c :: p) fs' H) as Hd.
  simpl in *. by rewrite Hd.
Qed.

(** Nothing to create: the file system is as it was. *)
Lemma mkdir_from_noop fs base todo :
  (∀ k, (k < length todo)%nat → fs !! (base ++ take (S k) todo) = Some Dir) →
  mkdir_from fs base todo = Ok fs.
Proof.
  revert base. induction todo as [|c todo IH]; intros base H; [done|].
  simpl. unfold path_join.
  pose proof (H 0%nat ltac:(simpl; lia)) as H0. simpl in H0. rewrite take_0 in H0.
  rewrite H0. apply IH. intros k Hk.
  specialize (H (S k) ltac:(simpl; lia)). by rewrite <-app_assoc.
Qed.

Lemma mkdir_noop fs p :
  (∀ k, (k < length p)%nat → fs !! take (S k) p = Some Dir) → mkdir fs p = Ok fs.
Proof. intros H. by apply mkdir_from_noop. Qed.

(** ** A failed conversion leaves the talk unprocessed *)

(** C10: the completion check wants [index.html], not the directory.
    For a talk with loadable metadata and an existing presentation whose
    output subdirectory has no [index.html], with force-mode off:
    [process_talk] creates the output subdirectory, which is then a
    directory but still not a processed talk, and runs the conversion on
    that file system; when the conversion exits with an error, the error
    is recorded and [False] returned. On a later run without force-mode,
    with the inputs unchanged and still no [index.html], the
    conversion command is run again. *)
Theorem failed_conversion_is_retried (talk_dir : path) (s : state)
    (t : gmap string pyval) (pdf title stderr : string) (fs1 : filesystem) :
  let talk_handle := path_name talk_dir in
  let metadata_file := talk_dir // "metadata.yml" in
  let talk_output_dir := output_dir s.1 // talk_handle in
  let cmd := ["./script.sh"; "-p"; path_str (joined_path (path_join_str talk_dir pdf));
              "-o"; path_str talk_output_dir; "-t"; title] in
  force s.1 = false →
  path_exists (files s.2) metadata_file = true →
  parse_metadata metadata_file s = (s, Ok (Some (PDict t))) →
  t !! "pdf" = Some (PStr pdf) →
  t !! "title" = Some (PStr title) →
  exists_walked (files s.2) (path_join_str talk_dir pdf) = true →
  files s.2 !! (talk_output_dir // "index.html") = None →
  mkdir (files s.2) talk_output_dir = Ok fs1 →
  (script_sh cmd fs1).2 = Raise (CalledProcessError stderr) →
  is_dir fs1 talk_output_dir = true
  ∧ talk_processed fs1 (output_dir s.1) talk_handle = false
  ∧ process_talk talk_dir s
    = ((add_error ("Error processing " +:+ talk_handle +:+ ": " +:+ stderr) s.1,
        {| files := (script_sh cmd fs1).1; calls := calls s.2 ++ [cmd] |}), Ok false)
  ∧ errors (process_talk talk_dir s).1.1
    = errors s.1 ++ ["Error processing " +:+ talk_handle +:+ ": " +:+ stderr]
  ∧ ∀ (self2 : TalkProcessor) (fs3 : filesystem),
      let s2 := (self2, (process_talk talk_dir s).1.2) in
      force self2 = false →
      output_dir self2 = output_dir s.1 →
      path_exists (files s2.2) metadata_file = true →
      parse_metadata metadata_file s2 = (s2, Ok (Some (PDict t))) →
      exists_walked (files s2.2) (path_join_str talk_dir pdf) = true →
      files s2.2 !! (talk_output_dir // "index.html") = None →
      mkdir (files s2.2) talk_output_dir = Ok fs3 →
      calls (process_talk talk_dir s2).1.2 = calls s.2 ++ [cmd; cmd].
Proof.
  intros talk_handle metadata_file talk_output_dir cmd
    Hforce Hex Hparse Hpdf Htitle Hpdf_ex Hindex Hmk Hfail.
  apply parse_metadata_loaded in Hparse.
  assert (∀ fs, fs !! (talk_output_dir // "index.html") = None →
            talk_processed fs (output_dir s.1) talk_handle = false) as Hnot.
  { intros fs H. unfold talk_processed, path_exists.
    fold talk_output_dir. by rewrite H. }
  assert (∀ s0 : state, force s0.1 = false → output_dir s0.1 = output_dir s.1 →
            path_exists (files s0.2) metadata_file = true →
            (load_talk metadata_file s0).2 = Ok (PDict t) →
            exists_walked (files s0.2) (path_join_str talk_dir pdf) = true →
            files s0.2 !! (talk_output_dir // "index.html") = None →
            ∀ fs', mkdir (files s0.2) talk_output_dir = Ok fs' →
            calls (process_talk talk_dir s0).1.2 = calls s0.2 ++ [cmd]
            ∧ ((script_sh cmd fs').2 = Raise (CalledProcessError stderr) →
               process_talk talk_dir s0
               = ((add_error ("Error processing " +:+ talk_handle +:+ ": " +:+ stderr) s0.1,
                   {| files := (script_sh cmd fs').1; calls := calls s0.2 ++ [cmd] |}),
                  Ok false))) as Hrun.
  { intros s0 Hf0 Hout0 Hex0 Hload0 Hpdf0 Hidx0 fs' Hmk0.
    rewrite process_talk_unfold. simpl. fold metadata_file talk_handle.
    rewrite Hex0, Hload0, Hf0, Hout0, (Hnot _ Hidx0). simpl.
    unfold convert_talk. simpl. rewrite Hpdf, Htitle. simpl.
    rewrite Hpdf0. simpl. fold talk_handle. rewrite Hout0. fold talk_output_dir.
    rewrite Hmk0, Hf0. simpl. fold cmd.
    destruct (script_sh cmd fs').2 as [out|e] eqn:Hscript.
    - split; [|done]. by destruct (copy2_walked _ _ _).
    - split; [by destruct e|]. by intros [= ->]. }
  split_and!.
  - by eapply mkdir_is_dir.
  - apply Hnot. rewrite (mkdir_other _ _ _ _ Hmk); [done|].
    intros Hp%prefix_length. unfold talk_output_dir, path_join in Hp.
    rewrite !length_app in Hp. simpl in Hp. lia.
  - by apply (Hrun s Hforce eq_refl Hex Hparse Hpdf_ex Hindex _ Hmk).
  - by rewrite (proj2 (Hrun s Hforce eq_refl Hex Hparse Hpdf_ex Hindex _ Hmk) Hfail).
  - intros self2 fs3 s2 Hf2 Hout2 Hex2 Hparse2 Hpdf2 Hidx2 Hmk2.
    apply parse_metadata_loaded in Hparse2.
    destruct (Hrun s2 Hf2 Hout2 Hex2 Hparse2 Hpdf2 Hidx2 _ Hmk2) as [-> _].
    unfold s2. simpl.
    destruct (Hrun s Hforce eq_refl Hex Hparse Hpdf_ex Hindex _ Hmk) as [-> _].
    by rewrite <-app_assoc.
Qed.

(** ** The paragraph wrapper *)

(** C8, as the code has it: the description is rendered and, when the
    rendering starts with [<p>] and ends with [</p>], these two tags are
    cut off, whatever lies between them; any other rendering is returned
    as it is. *)
Theorem paragraph_ends_are_stripped (text : string) :
  (∀ body, markdown_markdown text = "<p>" +:+ body +:+ "</p>" →
     markdown_to_html markdown_markdown text = body)
  ∧ ((∀ body, markdown_markdown text ≠ "<p>" +:+ body +:+ "</p>") →
     markdown_to_html markdown_markdown text = markdown_markdown text).
Proof.
  unfold markdown_to_html, strip_wrapping_p. split.
  - intros body Hb. rewrite (proj2 (paragraph_ends _)) by eauto.
    rewrite Hb. apply slice_paragraph.
  - intros Hn.
    destruct (startswith _ "<p>" && endswith _ "</p>") eqn:E; [|done].
    apply paragraph_ends in E as [body Hb]. by destruct (Hn body).
Qed.

(** ** What [process_talk] leaves behind *)

Lemma conversion_failed_outcome h self w e :
  (conversion_failed h self w e).1.2 = w
  ∧ match (conversion_failed h self w e).2 with
    | Ok true => False
    | Ok false => ∃ msg, (conversion_failed h self w e).1.1 = add_error msg self
    | Raise _ => (conversion_failed h self w e).1.1 = self
    end.
Proof. destruct e; simpl; eauto. Qed.

(** The batch state after a talk: a talk that returns [True] has appended
    its descriptor, with the handle, and no error; a talk that returns
    [False] has appended one error; a talk that raises has appended
    neither descriptor nor error. *)
Lemma process_talk_outcome talk_dir s :
  let s' := (process_talk talk_dir s).1 in
  talks_dir s'.1 = talks_dir s.1 ∧ output_dir s'.1 = output_dir s.1
  ∧ force s'.1 = force s.1
  ∧ match (process_talk talk_dir s).2 with
    | Ok true =>
        (∃ t, (load_talk (talk_dir // "metadata.yml") s).2 = Ok (PDict t)
              ∧ processed_talks s'.1
                = processed_talks s.1 ++ [PDict (<["handle" := PStr (path_name talk_dir)]> t)])
        ∧ errors s'.1 = errors s.1
    | Ok false =>
        processed_talks s'.1 = processed_talks s.1
        ∧ skipped_talks s'.1 = skipped_talks s.1
        ∧ ∃ msg, errors s'.1 = errors s.1 ++ [msg]
    | Raise _ =>
        processed_talks s'.1 = processed_talks s.1 ∧ errors s'.1 = errors s.1
    end.
Proof.
  rewrite process_talk_unfold. simpl.
  destruct (path_exists _ _); simpl; [|by eauto 10].
  destruct (load_talk _ s).2 as [metadata|e] eqn:Hload; simpl; [|by eauto 10].
  destruct (negb (force s.1) && talk_processed _ _ _).
  - unfold skip_talk. destruct metadata; simpl; eauto 10.
  - unfold convert_talk.
    destruct (py_getitem metadata "pdf") as [pdf|]; [|done].
    destruct (path_join_val talk_dir pdf) as [pdf_file|]; [|done].
    destruct (exists_walked (files s.2) pdf_file); simpl; [|by eauto 10].
    destruct (mkdir _ _) as [fs1|]; [|done].
    destruct (py_getitem metadata "title") as [title|e];
      [|by destruct e; simpl; eauto 10].
    destruct (script_cmd _ _ _ _) as [cmd|e]; [|by destruct e; simpl; eauto 10].
    destruct (script_sh cmd fs1).2 as [out|e]; [|by destruct e; simpl; eauto 10].
    destruct (path_join_val _ pdf) as [output_pdf|]; [|done].
    destruct (copy2_walked _ _ _) as [fs3|]; [|done].
    destruct metadata; simpl; eauto 10.
Qed.


(** ** The batch loop *)

Lemma run_talk_unfold talk_dir s :
  run_talk talk_dir s
  = match (process_talk talk_dir s).2 with
    | Ok _ => ((process_talk talk_dir s).1, Ok tt)
    | Raise e =>
        ((add_error (unexpected_error talk_dir e) (process_talk talk_dir s).1.1,
          (process_talk talk_dir s).1.2), Ok tt)
    end.
Proof.
  unfold run_talk. monad_unfold.
  by destruct (process_talk talk_dir s) as [s' [b|e]].
Qed.

Lemma run_talk_ok talk_dir s : (run_talk talk_dir s).2 = Ok tt.
Proof. rewrite run_talk_unfold. by destruct (process_talk talk_dir s).2. Qed.

(** After a talk, caught exception included: one descriptor more and the
    errors as they were, or one error more and the descriptors as they
    were. *)
Lemma run_talk_outcome talk_dir s :
  let s' := (run_talk talk_dir s).1 in
  talks_dir s'.1 = talks_dir s.1 ∧ output_dir s'.1 = output_dir s.1
  ∧ force s'.1 = force s.1
  ∧ if succeeded (process_talk talk_dir s).2 then
      (∃ t, (load_talk (talk_dir // "metadata.yml") s).2 = Ok (PDict t)
            ∧ processed_talks s'.1
              = processed_talks s.1 ++ [PDict (<["handle" := PStr (path_name talk_dir)]> t)])
      ∧ errors s'.1 = errors s.1
    else
      processed_talks s'.1 = processed_talks s.1
      ∧ ∃ msg, errors s'.1 = errors s.1 ++ [msg].
Proof.
  pose proof (process_talk_outcome talk_dir s) as H. simpl in H.
  rewrite run_talk_unfold.
  destruct (process_talk talk_dir s).2 as [[]|e]; simpl;
    destruct H as (?&?&?&H); split_and!; try done.
  - by destruct H.
  - by destruct H.
  - by destruct H.
  - by destruct H as (?&_&?).
  - by destruct H.
  - destruct H as [_ ->]. eauto.
Qed.

Lemma run_talks_ok dirs s : (for_each dirs run_talk s).2 = Ok tt.
Proof.
  revert s. induction dirs as [|d dirs IH]; intros s; [done|].
  simpl. unfold bind. pose proof (run_talk_ok d s) as Hd.
  destruct (run_talk d s) as [s' r]. simpl in Hd. subst r. apply IH.
Qed.

Lemma run_talks_cons d dirs s :
  for_each (d :: dirs) run_talk s = for_each dirs run_talk (run_talk d s).1.
Proof.
  simpl. unfold bind. pose proof (run_talk_ok d s) as Hd.
  destruct (run_talk d s) as [s' r]. simpl in Hd. by subst r.
Qed.

Lemma run_talks_app l1 l2 s :
  for_each (l1 ++ l2) run_talk s = for_each l2 run_talk (for_each l1 run_talk s).1.
Proof.
  revert s. induction l1 as [|d l1 IH]; intros s; [done|].
  by rewrite <-app_comm_cons, !run_talks_cons, IH.
Qed.

(** Descriptors and errors are only ever appended. *)
Lemma run_talks_grow dirs s :
  let s' := (for_each dirs run_talk s).1 in
  output_dir s'.1 = output_dir s.1 ∧ force s'.1 = force s.1
  ∧ processed_talks s.1 `prefix_of` processed_talks s'.1
  ∧ errors s.1 `prefix_of` errors s'.1.
Proof.
  revert s. induction dirs as [|d dirs IH]; intros s; [done|].
  rewrite run_talks_cons. simpl.
  destruct (IH (run_talk d s).1) as (->&->&Hp&He).
  destruct (run_talk_outcome d s) as (_&?&?&H). split_and!; try done.
  - etrans; [|exact Hp].
    destruct (succeeded _); [destruct H as [(t&_&->) _]|destruct H as [-> _]];
      [by apply prefix_app_r|done].
  - etrans; [|exact He].
    destruct (succeeded _); [destruct H as [_ ->]|destruct H as [_ [msg ->]]];
      [done|by apply prefix_app_r].
Qed.

Lemma map_result_elem {A B} (f : A → result B) l l' x :
  map_result f l = Ok l' → x ∈ l → ∃ y, f x = Ok y ∧ y ∈ l'.
Proof.
  revert l'. induction l as [|a l IH]; intros l' H Hx; [by apply elem_of_nil in Hx|].
  simpl in H. unfold result_bind in H.
  destruct (f a) as [b|] eqn:Hb; [|done].
  destruct (map_result f l) as [bs|]; [|done]. injection H as <-.
  apply elem_of_cons in Hx as [->|Hx].
  - exists b. split; [done|]. by left.
  - destruct (IH _ eq_refl Hx) as (y&?&?). exists y. split; [done|]. by right.
Qed.

(** A talk that fails does not stop the loop over the talks: the loop
    never raises, goes on after a talk that raised, and keeps the
    descriptor of each talk that returned [True]. *)
Lemma batch_loop_survives (earlier later : list path)
    (talk_dir : path) (s : state) :
  let run := for_each (earlier ++ talk_dir :: later) run_talk s in
  let s1 := (for_each earlier run_talk s).1 in
  let s2 := (run_talk talk_dir s1).1 in
  run.2 = Ok tt
  ∧ run.1 = (for_each later run_talk s2).1
  ∧ (∀ e, (process_talk talk_dir s1).2 = Raise e →
       s2 = (add_error (unexpected_error talk_dir e) (process_talk talk_dir s1).1.1,
             (process_talk talk_dir s1).1.2))
  ∧ ((process_talk talk_dir s1).2 ≠ Ok true →
       ∃ msg, errors s2.1 = errors s1.1 ++ [msg] ∧ msg ∈ errors run.1.1
              ∧ processed_talks s2.1 = processed_talks s1.1)
  ∧ (∀ l1 d l2, earlier ++ talk_dir :: later = l1 ++ d :: l2 →
       let sd := (for_each l1 run_talk s).1 in
       (process_talk d sd).2 = Ok true →
       ∃ t, (load_talk (d // "metadata.yml") sd).2 = Ok (PDict t)
            ∧ let talk := PDict (<["handle" := PStr (path_name d)]> t) in
              talk ∈ processed_talks run.1.1
              ∧ ∀ dated,
                  map_result (λ t, try d := talk_date t in Ok (d, t))
                    (processed_talks run.1.1) = Ok dated →
                  Entry talk ∈ listing dated).
Proof.
  intros run s1 s2.
  assert (run.1 = (for_each later run_talk s2).1) as Hrun.
  { unfold run. by rewrite run_talks_app, run_talks_cons. }
  split_and!.
  - apply run_talks_ok.
  - done.
  - intros e He. unfold s2. by rewrite run_talk_unfold, He.
  - intros Hne. destruct (run_talk_outcome talk_dir s1) as (_&_&_&H).
    destruct (process_talk talk_dir s1).2 as [[]|]; [done|..];
      simpl in H; destruct H as [Hp [msg He]].
    all: exists msg; split_and!; [done| |done].
    all: destruct (run_talks_grow later s2) as (_&_&_&Hpre); rewrite Hrun.
    all: eapply elem_of_prefix; [|exact Hpre]; fold s2 in He; rewrite He.
    all: apply elem_of_app; right; by apply list_elem_of_singleton.
  - intros l1 d l2 Hsplit sd Hd.
    destruct (run_talk_outcome d sd) as (_&_&_&H).
    rewrite Hd in H. destruct H as [(t&Hload&Hp) _].
    exists t. split; [done|]. simpl.
    assert (PDict (<["handle" := PStr (path_name d)]> t) ∈ processed_talks run.1.1) as Hin.
    { unfold run. rewrite Hsplit, run_talks_app, run_talks_cons.
      destruct (run_talks_grow l2 (run_talk d sd).1) as (_&_&Hpre&_).
      eapply elem_of_prefix; [|exact Hpre]. fold sd. rewrite Hp.
      apply elem_of_app. right. by apply list_elem_of_singleton. }
    split; [done|]. intros dated Hdated.
    destruct (map_result_elem _ _ _ _ Hdated Hin) as ([dt talk]&Hy&Hdt).
    unfold result_bind in Hy. destruct (talk_date _); [|done].
    injection Hy as <- <-. by apply (listing_complete _ _ Hdt).
Qed.


(** ** What a talk touches *)

Lemma prefix_of_take {A} (l : list A) k : take k l `prefix_of` l.
Proof. apply prefix_take. Qed.

Lemma not_under_prefix (output : path) h k :
  (k < length output)%nat → ¬ (output // h) `prefix_of` take (S k) output.
Proof.
  intros Hk Hp%prefix_length. unfold path_join in Hp.
  rewrite length_app, length_take in Hp. change (length [h]) with 1%nat in Hp. lia.
Qed.

Lemma mkdir_talk_dir fs output h fs1 q :
  output_ready fs output →
  mkdir fs (output // h) = Ok fs1 →
  ¬ (output // h) `prefix_of` q →
  fs1 !! q = fs !! q.
Proof.
  intros Hready Hmk Hq.
  destruct (mkdir_from_lookup _ _ _ _ q Hmk) as [?|(Hnone&_&k&->)]; [done|].
  simpl in *. unfold path_join in *.
  destruct (decide (S k ≤ length output)%nat) as [Hk|Hk].
  - rewrite take_app_le in Hnone by done. rewrite Hready in Hnone by lia. done.
  - destruct Hq. rewrite take_ge; [done|]. rewrite length_app. simpl. lia.
Qed.

Lemma script_cmd_output pdf_file talk_output_dir title f cmd :
  script_cmd pdf_file talk_output_dir title f = Ok cmd →
  cmd !! 4%nat = Some (path_str talk_output_dir).
Proof. destruct title; simpl; try done. by intros [= <-]. Qed.

Lemma copy2_target_under fs src dst : dst `prefix_of` copy2_target fs src dst.
Proof.
  unfold copy2_target. destruct (is_dir fs dst); [|done].
  by apply prefix_app_r.
Qed.

(** A talk writes below its own output directory only, when the
    converter does. *)
Lemma load_talk_mapping metadata_file s (t : gmap string pyval) :
  (load_talk metadata_file s).2 = Ok (PDict t) →
  ∃ text d, safe_load text = Ok (PDict d) ∧ d !! "talk" = Some (PDict t).
Proof.
  rewrite load_talk_unfold.
  destruct (read_text _ _) as [text|]; [|done].
  destruct (safe_load text) as [data|] eqn:Hdata; [|done].
  destruct (if truthy data then _ else _) as [[]|]; [|done..].
  destruct (py_getitem data "talk") as [talk|] eqn:Htalk; [|done].
  destruct (check_fields talk required_fields s) as [s' [u|]]; [|done].
  simpl. intros [= ->]. exists text.
  destruct data; simpl in Htalk; try done.
  exists d. split; [done|]. by destruct (d !! "talk"); simplify_eq.
Qed.

Lemma process_talk_frame talk_dir s q :
  output_ready (files s.2) (output_dir s.1) →
  converter_confined script_sh (output_dir s.1) talk_dir →
  (succeeded (process_talk talk_dir s).2 = true →
   ∀ t pdf, (load_talk (talk_dir // "metadata.yml") s).2 = Ok (PDict t) →
            t !! "pdf" = Some (PStr pdf) → plain_name pdf) →
  ¬ (output_dir s.1 // path_name talk_dir) `prefix_of` q →
  files (process_talk talk_dir s).1.2 !! q = files s.2 !! q.
Proof.
  intros Hready Hconf Hplain Hq. rewrite process_talk_unfold in Hplain |- *.
  simpl in Hplain |- *.
  destruct (path_exists _ _); simpl; [|done].
  destruct (load_talk _ s).2 as [metadata|e]; simpl; [|done].
  destruct (negb (force s.1) && talk_processed _ _ _).
  { unfold skip_talk. by destruct (py_setitem _ _ _). }
  unfold convert_talk in Hplain |- *.
  destruct (py_getitem metadata "pdf") as [pdf|] eqn:Hpdf; [|done].
  destruct (path_join_val talk_dir pdf) as [pdf_file|] eqn:Hin; [|done].
  destruct (exists_walked (files s.2) pdf_file); simpl in Hplain |- *; [|done].
  destruct (mkdir _ _) as [fs1|] eqn:Hmk; [|done].
  pose proof (mkdir_talk_dir _ _ _ _ q Hready Hmk Hq) as H1.
  destruct (py_getitem metadata "title") as [title|e]; [|by destruct e].
  destruct (script_cmd _ _ _ _) as [cmd|e] eqn:Hcmd; [|by destruct e].
  pose proof (Hconf cmd fs1 q (script_cmd_output _ _ _ _ _ Hcmd) Hq) as H2.
  destruct (script_sh cmd fs1).2 as [out|e]; [|by destruct e; simpl; rewrite ?H2].
  destruct (path_join_val (output_dir s.1 // path_name talk_dir) pdf)
    as [output_pdf|] eqn:Hout; [|by simpl; rewrite H2].
  destruct (copy2_walked _ _ _) as [fs3|] eqn:Hcp; [|by simpl; rewrite H2].
  destruct metadata as [| | | | | |t]; simpl in Hpdf; try done.
  destruct pdf as [| | |x| | |]; simpl in Hin, Hout; try done.
  simpl in Hplain. specialize (Hplain eq_refl t x eq_refl).
  destruct (t !! "pdf") as [v|] eqn:Hv; [|done]. injection Hpdf as ->.
  specialize (Hplain eq_refl). injection Hout as <-. simpl.
  apply copy2_walked_spec in Hcp as (ks&kd&_&Hkd&Hcp).
  rewrite locate_plain in Hkd by done. injection Hkd as <-.
  apply copy2_spec in Hcp as (c&_&_&Hw). apply write_text_spec in Hw as [_ Hw].
  rewrite (file_written_other _ _ _ _ Hw), H2; [done|].
  intros ->. destruct Hq. etrans; [|apply copy2_target_under]. by apply prefix_app_r.
Qed.

(** A talk that returns [True] bears the marker, when the converter
    leaves it on success. *)
Lemma process_talk_marker talk_dir s :
  converter_marks script_sh (output_dir s.1) talk_dir →
  succeeded (process_talk talk_dir s).2 = true →
  talk_processed (files (process_talk talk_dir s).1.2) (output_dir s.1)
    (path_name talk_dir) = true.
Proof.
  intros Hmarks. rewrite process_talk_unfold. simpl.
  destruct (path_exists _ _); simpl; [|done].
  destruct (load_talk _ s).2 as [metadata|e]; simpl; [|done].
  destruct (negb (force s.1) && talk_processed _ _ _) eqn:Hdone.
  { apply andb_true_iff in Hdone as [_ Hdone].
    unfold skip_talk. by destruct (py_setitem _ _ _). }
  unfold convert_talk.
  destruct (py_getitem metadata "pdf") as [pdf|]; [|done].
  destruct (path_join_val talk_dir pdf) as [pdf_file|]; [|done].
  destruct (exists_walked (files s.2) pdf_file); simpl; [|done].
  destruct (mkdir _ _) as [fs1|] eqn:Hmk; [|done].
  destruct (py_getitem metadata "title") as [title|e]; [|by destruct e].
  destruct (script_cmd _ _ _ _) as [cmd|e] eqn:Hcmd; [|by destruct e].
  pose proof (Hmarks cmd fs1) as H2.
  destruct (script_sh cmd fs1).2 as [out|e]; [|by destruct e].
  specialize (H2 out (script_cmd_output _ _ _ _ _ Hcmd) (mkdir_is_dir _ _ _ Hmk) eq_refl).
  destruct (path_join_val _ pdf) as [output_pdf|]; [|done].
  destruct (copy2_walked _ _ _) as [fs3|] eqn:Hcp; [|done].
  destruct (py_setitem _ _ _); [|done]. simpl. intros _.
  apply copy2_walked_spec in Hcp as (ks&kd&_&_&Hcp).
  apply copy2_spec in Hcp as (c&_&_&Hw). apply write_text_spec in Hw as [_ Hw].
  by eapply file_written_processed.
Qed.

(** ** What a run of the talks touches *)

Lemma not_below_talk_dir (output : path) h q :
  ¬ below output q → ¬ (output // h) `prefix_of` q.
Proof.
  intros Hq Hp. apply Hq. split.
  - etrans; [|exact Hp]. by apply prefix_app_r.
  - intros ->. apply prefix_length in Hp. unfold path_join in Hp.
    rewrite length_app in Hp. simpl in Hp. lia.
Qed.

Lemma ready_not_below (output : path) k : ¬ below output (take (S k) output).
Proof.
  intros [Hp Hne]. apply Hne. apply prefix_length_eq; [apply prefix_take|].
  by apply prefix_length.
Qed.

Lemma output_ready_frame fs fs' output :
  (∀ q, ¬ below output q → fs' !! q = fs !! q) →
  output_ready fs output → output_ready fs' output.
Proof. intros H Hr k Hk. rewrite H; [by apply Hr|]. apply ready_not_below. Qed.

Lemma run_talk_world talk_dir s : (run_talk talk_dir s).1.2 = (process_talk talk_dir s).1.2.
Proof. rewrite run_talk_unfold. by destruct (process_talk talk_dir s).2. Qed.

Lemma plain_pdfs_talk talk_dir s :
  plain_pdfs safe_load →
  succeeded (process_talk talk_dir s).2 = true →
  ∀ t pdf, (load_talk (talk_dir // "metadata.yml") s).2 = Ok (PDict t) →
           t !! "pdf" = Some (PStr pdf) → plain_name pdf.
Proof.
  intros Hplain _ t pdf Hload Hpdf.
  destruct (load_talk_mapping _ _ _ Hload) as (text&d&Hd&Ht). by eapply Hplain.
Qed.

(** From here to the two runs, every descriptor names its presentation
    with one plain name, so that the copy of a presentation lies in the
    output directory of its talk. *)
Section PlainNames.
Hypothesis Hplain : plain_pdfs safe_load.

Lemma run_talks_frame dirs s q :
  output_ready (files s.2) (output_dir s.1) →
  (∀ d, d ∈ dirs → converter_confined script_sh (output_dir s.1) d) →
  ¬ below (output_dir s.1) q →
  files (for_each dirs run_talk s).1.2 !! q = files s.2 !! q.
Proof.
  revert s. induction dirs as [|d dirs IH]; intros s Hready Hconf Hq; [done|].
  rewrite run_talks_cons.
  destruct (run_talk_outcome d s) as (_&Hout&_&_).
  assert (∀ q, ¬ below (output_dir s.1) q →
            files (run_talk d s).1.2 !! q = files s.2 !! q) as Hstep.
  { intros q' Hq'. rewrite run_talk_world.
    apply process_talk_frame; [done| |by apply plain_pdfs_talk|].
    - apply Hconf. by left.
    - by apply not_below_talk_dir. }
  rewrite IH, Hstep; rewrite ?Hout; try done.
  - by eapply output_ready_frame.
  - intros d' Hd'. apply Hconf. by right.
Qed.

(** ** Loading again *)

Lemma check_fields_result talk fields s s' :
  (check_fields talk fields s).2 = (check_fields talk fields s').2.
Proof.
  induction fields as [|f fields IH]; [done|].
  unfold check_fields in *. simpl. monad_unfold.
  by destruct (py_contains f talk) as [[]|].
Qed.

(** The descriptor depends on the descriptor file alone. *)
Lemma load_talk_ext metadata_file s s' :
  files s'.2 !! metadata_file = files s.2 !! metadata_file →
  (load_talk metadata_file s').2 = (load_talk metadata_file s).2.
Proof.
  intros H. rewrite !load_talk_unfold. unfold read_text. rewrite H.
  destruct (files s.2 !! metadata_file) as [[text|]|]; [|done..].
  destruct (safe_load text) as [data|]; [|done].
  destruct (if truthy data then _ else _) as [[]|]; [|done..].
  destruct (py_getitem data "talk") as [talk|]; [|done].
  pose proof (check_fields_result talk required_fields s' s) as Hc.
  destruct (check_fields talk required_fields s') as [? [|]],
    (check_fields talk required_fields s) as [? [|]]; simpl in *; congruence.
Qed.

Lemma process_talk_loaded talk_dir s :
  succeeded (process_talk talk_dir s).2 = true →
  path_exists (files s.2) (talk_dir // "metadata.yml") = true.
Proof.
  rewrite process_talk_unfold. simpl. by destruct (path_exists _ _).
Qed.

(** ** The talks of a second run *)

Lemma skip_again talk_dir (p2 : TalkProcessor) (W : world) (t : gmap string pyval) :
  force p2 = false →
  path_exists (files W) (talk_dir // "metadata.yml") = true →
  (load_talk (talk_dir // "metadata.yml") (p2, W)).2 = Ok (PDict t) →
  talk_processed (files W) (output_dir p2) (path_name talk_dir) = true →
  run_talk talk_dir (p2, W)
  = ((add_processed (PDict (<["handle" := PStr (path_name talk_dir)]> t))
        (add_skipped (path_name talk_dir) p2), W), Ok tt).
Proof.
  intros Hf Hex Hload Hdone. rewrite run_talk_unfold, process_talk_unfold. simpl.
  by rewrite Hex, Hload, Hf, Hdone.
Qed.

(** A run of the talks that has recorded no error is followed, on a
    world with the same inputs in which every talk bears the marker, by
    a run that skips every talk: the same descriptors, the handles as
    skipped, and the world as it was. *)
Lemma second_run_skips order s (W : world) (p2 : TalkProcessor) :
  force s.1 = false →
  output_ready (files s.2) (output_dir s.1) →
  (∀ d, d ∈ order → converter_confined script_sh (output_dir s.1) d) →
  (∀ d, d ∈ order → ¬ below (output_dir s.1) (d // "metadata.yml")) →
  errors (for_each order run_talk s).1.1 = errors s.1 →
  force p2 = false →
  output_dir p2 = output_dir s.1 →
  (∀ q, ¬ below (output_dir s.1) q →
        files W !! q = files (for_each order run_talk s).1.2 !! q) →
  (∀ d, d ∈ order → talk_processed (files W) (output_dir s.1) (path_name d) = true) →
  ∃ p2', for_each order run_talk (p2, W) = ((p2', W), Ok tt)
    ∧ talks_dir p2' = talks_dir p2 ∧ output_dir p2' = output_dir p2
    ∧ force p2' = force p2 ∧ errors p2' = errors p2
    ∧ skipped_talks p2' = skipped_talks p2 ++ map path_name order
    ∧ ∃ news, processed_talks p2' = processed_talks p2 ++ news
              ∧ processed_talks (for_each order run_talk s).1.1
                = processed_talks s.1 ++ news.
Proof.
  revert s p2. induction order as [|d ds IH];
    intros s p2 Hforce Hready Hconf Hmeta Herr Hf2 Hout2 HW Hdone.
  { exists p2. simpl. rewrite !app_nil_r. split_and!; try done.
    exists []. by rewrite !app_nil_r. }
  rewrite !run_talks_cons. rewrite run_talks_cons in Herr, HW.
  destruct (run_talk_outcome d s) as (_&Hout&Hfs&Hd). simpl in Hd.
  destruct (run_talks_grow ds (run_talk d s).1) as (_&_&_&Hgrow).
  assert (succeeded (process_talk d s).2 = true
          ∧ errors (run_talk d s).1.1 = errors s.1) as [Hok Herr1].
  { destruct (succeeded _); [by destruct Hd|].
    destruct Hd as [_ [msg Hmsg]]. rewrite Herr, Hmsg in Hgrow.
    apply prefix_length in Hgrow. rewrite length_app in Hgrow. simpl in Hgrow. lia. }
  rewrite Hok in Hd. destruct Hd as [(t&Hload&Hproc) _].
  assert (∀ q, ¬ below (output_dir s.1) q →
            files (run_talk d s).1.2 !! q = files s.2 !! q) as Hstep.
  { intros q Hq. pose proof (run_talks_frame [d] s q Hready) as H.
    rewrite run_talks_cons in H. apply H; [|done].
    intros d' ->%list_elem_of_singleton. apply Hconf. by left. }
  assert (files W !! (d // "metadata.yml") = files s.2 !! (d // "metadata.yml")) as HWd.
  { rewrite HW by (apply Hmeta; by left). rewrite run_talks_frame; rewrite ?Hout.
    - apply Hstep, Hmeta. by left.
    - by eapply output_ready_frame.
    - intros d' Hd'. apply Hconf. by right.
    - apply Hmeta. by left. }
  rewrite (skip_again d p2 W t); [|done| | |].
  2:{ pose proof (process_talk_loaded d s Hok) as Hex. unfold path_exists in *.
      by rewrite HWd. }
  2:{ rewrite <-Hload. by apply load_talk_ext. }
  2:{ rewrite Hout2. apply Hdone. by left. }
  destruct (IH (run_talk d s).1
              (add_processed (PDict (<["handle" := PStr (path_name d)]> t))
                 (add_skipped (path_name d) p2)))
    as (p2'&Hrun&?&?&?&?&Hskip&news&Hp2&Hp1); rewrite ?Hout, ?Hfs; try done.
  - by eapply output_ready_frame.
  - intros d' Hd'. apply Hconf. by right.
  - intros d' Hd'. apply Hmeta. by right.
  - by rewrite Herr.
  - intros d' Hd'. apply Hdone. by right.
  - exists p2'. split_and!; try done.
    + rewrite Hskip. simpl. by rewrite <-app_assoc.
    + exists (PDict (<["handle" := PStr (path_name d)]> t) :: news). split.
      * rewrite Hp2. simpl. by rewrite <-app_assoc.
      * rewrite Hp1, Hproc. by rewrite <-app_assoc.
Qed.

(** ** The markers after a first run *)

Lemma talk_dir_prefix (output : path) h h' (rest : list string) :
  (output // h') `prefix_of` (output // h) ++ rest → h' = h.
Proof.
  unfold path_join. rewrite <-app_assoc. intros Hp%prefix_app_inv.
  destruct Hp as [k Hk]. simpl in Hk. by injection Hk.
Qed.

Lemma talk_processed_ext fs fs' (output : path) h :
  fs' !! (output // h // "index.html") = fs !! (output // h // "index.html") →
  fs' !! (output // h) = fs !! (output // h) →
  talk_processed fs' output h = talk_processed fs output h.
Proof.
  intros H1 H2. unfold talk_processed, path_exists, is_dir. rewrite H1.
  destruct (output // h) eqn:E; [by destruct output|]. by rewrite H2.
Qed.

(** The talks of a run leave alone what is not below their output
    directories. *)
Lemma run_talks_frame_units dirs s q :
  output_ready (files s.2) (output_dir s.1) →
  (∀ d, d ∈ dirs → converter_confined script_sh (output_dir s.1) d) →
  (∀ d, d ∈ dirs → ¬ (output_dir s.1 // path_name d) `prefix_of` q) →
  files (for_each dirs run_talk s).1.2 !! q = files s.2 !! q.
Proof.
  revert s. induction dirs as [|d dirs IH]; intros s Hready Hconf Hq; [done|].
  rewrite run_talks_cons.
  destruct (run_talk_outcome d s) as (_&Hout&_&_).
  rewrite IH; rewrite ?Hout.
  - rewrite run_talk_world.
    apply process_talk_frame;
      [done|apply Hconf; by left|by apply plain_pdfs_talk|apply Hq; by left].
  - intros k Hk. rewrite run_talk_world, process_talk_frame;
      [by apply Hready|done| |by apply plain_pdfs_talk|].
    + apply Hconf. by left.
    + by apply not_under_prefix.
  - intros d' Hd'. apply Hconf. by right.
  - intros d' Hd'. apply Hq. by right.
Qed.

Lemma run_talks_keep_marker dirs s h :
  output_ready (files s.2) (output_dir s.1) →
  (∀ d, d ∈ dirs → converter_confined script_sh (output_dir s.1) d) →
  h ∉ map path_name dirs →
  talk_processed (files (for_each dirs run_talk s).1.2) (output_dir s.1) h
  = talk_processed (files s.2) (output_dir s.1) h.
Proof.
  intros Hready Hconf Hh.
  apply talk_processed_ext; apply run_talks_frame_units; try done.
  - intros d Hd Hp. apply Hh. apply list_elem_of_fmap. exists d. split; [|done].
    symmetry. by apply (talk_dir_prefix (output_dir s.1) _ _ ["index.html"]).
  - intros d Hd Hp. apply Hh. apply list_elem_of_fmap. exists d. split; [|done].
    symmetry. apply (talk_dir_prefix (output_dir s.1) _ _ []). by rewrite app_nil_r.
Qed.

(** After a run without error, every talk bears the marker. *)
Lemma first_run_marks order s :
  output_ready (files s.2) (output_dir s.1) →
  NoDup (map path_name order) →
  (∀ d, d ∈ order → converter_confined script_sh (output_dir s.1) d) →
  (∀ d, d ∈ order → converter_marks script_sh (output_dir s.1) d) →
  errors (for_each order run_talk s).1.1 = errors s.1 →
  ∀ d, d ∈ order →
    talk_processed (files (for_each order run_talk s).1.2) (output_dir s.1)
      (path_name d) = true.
Proof.
  revert s. induction order as [|d ds IH];
    intros s Hready Hnd Hconf Hmarks Herr d' Hd'; [by apply elem_of_nil in Hd'|].
  rewrite run_talks_cons in *. simpl in Hnd. apply NoDup_cons in Hnd as [Hd Hnd].
  destruct (run_talk_outcome d s) as (_&Hout&_&Hres). simpl in Hres.
  destruct (run_talks_grow ds (run_talk d s).1) as (_&_&_&Hgrow).
  assert (succeeded (process_talk d s).2 = true
          ∧ errors (run_talk d s).1.1 = errors s.1) as [Hok Herr1].
  { destruct (succeeded _); [by destruct Hres|].
    destruct Hres as [_ [msg Hmsg]]. rewrite Herr, Hmsg in Hgrow.
    apply prefix_length in Hgrow. rewrite length_app in Hgrow. simpl in Hgrow. lia. }
  assert (output_ready (files (run_talk d s).1.2) (output_dir s.1)) as Hready1.
  { intros k Hk. rewrite run_talk_world, process_talk_frame;
      [by apply Hready|done| |by apply plain_pdfs_talk|].
    - apply Hconf. by left.
    - by apply not_under_prefix. }
  apply elem_of_cons in Hd' as [->|Hd'].
  - rewrite <-Hout, run_talks_keep_marker; rewrite ?Hout; try done.
    + rewrite run_talk_world. apply process_talk_marker; [|done]. apply Hmarks. by left.
    + intros d' Hd'. apply Hconf. by right.
  - rewrite <-Hout. apply IH; rewrite ?Hout; try done.
    + intros d0 Hd0. apply Hconf. by right.
    + intros d0 Hd0. apply Hmarks. by right.
    + by rewrite Herr.
Qed.

(** ** The landing page and the assets *)

Lemma map_result_ext {A B} (f g : A → result B) l :
  (∀ x, f x = g x) → map_result f l = map_result g l.
Proof. intros H. induction l as [|x l IH]; [done|]. simpl. by rewrite H, IH. Qed.

(** The page depends on the file system through the number of slides of
    each talk alone. *)
Lemma landing_html_ext fs fs' output talks template :
  (∀ d, length (glob_slides fs' d) = length (glob_slides fs d)) →
  (∀ q, is_dir fs' q = is_dir fs q) →
  landing_html fs' output talks template = landing_html fs output talks template.
Proof.
  intros H Hdir. unfold landing_html.
  destruct (map_result _ talks) as [dated|]; [|done]. simpl.
  rewrite (map_result_ext (render_item markdown_markdown repr_container fs' output)
             (render_item markdown_markdown repr_container fs output)); [done|].
  intros [year|talk]; [done|]. simpl. unfold talk_entry.
  destruct (py_getitem talk "handle") as [handle|]; [|done]; simpl.
  destruct (py_getitem talk "title") as [title|]; [|done]; simpl.
  destruct (py_getitem talk "pdf") as [pdf|]; [|done]; simpl.
  destruct (py_getitem talk "description") as [description|]; [|done]; simpl.
  destruct (py_getitem talk "highlight") as [highlight|]; [|done]; simpl.
  destruct (py_get talk "video") as [video|]; [|done]; simpl.
  destruct (markdown_of_val _ description) as [description_html|]; [|done]; simpl.
  destruct (path_join_val output handle) as [talk_dir|]; [|done]; simpl.
  unfold highlight_img_walked, glob_slides_walked. rewrite (locate_ext _ _ _ Hdir).
  destruct (locate fs talk_dir); [|done]. by rewrite H.
Qed.

Lemma generate_landing_page_unfold s :
  generate_landing_page s =
  if negb (path_exists (files s.2) template_file) then
    ((add_error ("Template file not found: " +:+ path_str template_file) s.1, s.2), Ok false)
  else
    match read_text (files s.2) template_file with
    | Raise e => (s, Raise e)
    | Ok template =>
        match landing_html (files s.2) (output_dir s.1) (processed_talks s.1) template with
        | Raise e => (s, Raise e)
        | Ok html =>
            match write_text (files s.2) (output_dir s.1 // "index.html") html with
            | Raise e => (s, Raise e)
            | Ok fs' => ((s.1, set_files fs' s.2), Ok true)
            end
        end
    end.
Proof.
  destruct s as [self w]. unfold generate_landing_page.
  repeat (monad_unfold; simpl).
  destruct (path_exists _ _); simpl; [|done].
  destruct (read_text _ _); simpl; [|done].
  destruct (landing_html _ _ _ _); simpl; [|done].
  by destruct (write_text _ _ _).
Qed.

Lemma copy_asset_unfold name s :
  copy_asset name s =
  if path_exists (files s.2) ["templates"; name] then
    match copy2 (files s.2) ["templates"; name] (output_dir s.1 // name) with
    | Raise e => (s, Raise e)
    | Ok fs' => ((s.1, set_files fs' s.2), Ok tt)
    end
  else (s, Ok tt).
Proof.
  destruct s as [self w]. unfold copy_asset. repeat (monad_unfold; simpl).
  destruct (path_exists _ _); [|done]. by destruct (copy2 _ _ _).
Qed.

(** ** The stages of a run *)

Lemma mkdir_from_ready fs base todo fs' k :
  mkdir_from fs base todo = Ok fs' → (k < length todo)%nat →
  fs' !! (base ++ take (S k) todo) = Some Dir.
Proof.
  revert fs base k. induction todo as [|c todo IH]; intros fs base k H Hk;
    [simpl in Hk; lia|].
  simpl in H. unfold path_join in H.
  assert (∃ fs1, mkdir_from fs1 (base ++ [c]) todo = Ok fs'
                 ∧ fs1 !! (base ++ [c]) = Some Dir) as (fs1&H1&Hc).
  { destruct (fs !! (base ++ [c])) as [[|]|] eqn:E; [done|eauto|].
    eexists. split; [done|]. by rewrite lookup_insert_eq. }
  destruct k as [|k].
  - simpl. rewrite take_0.
    destruct (mkdir_from_lookup _ _ _ _ (base ++ [c]) H1) as [->|[? _]]; congruence.
  - simpl. replace (base ++ c :: take (S k) todo) with ((base ++ [c]) ++ take (S k) todo)
      by (by rewrite <-app_assoc).
    eapply IH; [done|]. simpl in Hk. lia.
Qed.

Lemma mkdir_ready fs p fs' : mkdir fs p = Ok fs' → output_ready fs' p.
Proof. intros H k Hk. by apply (mkdir_from_ready fs [] p fs' k). Qed.

(** The landing page of a run without error, and the same step later. *)
Lemma generate_landing_page_again s s' b :
  generate_landing_page s = (s', Ok b) →
  errors s'.1 = errors s.1 →
  output_dir s.1 ≠ [] →
  s'.1 = s.1 ∧ calls s'.2 = calls s.2
  ∧ top_write (output_dir s.1) "index.html" (files s.2) (files s'.2)
  ∧ ∀ (p : TalkProcessor) (W : world),
      output_dir p = output_dir s.1 →
      processed_talks p = processed_talks s.1 →
      files W !! template_file = files s.2 !! template_file →
      (∀ d, length (glob_slides (files W) d) = length (glob_slides (files s.2) d)) →
      (∀ q, is_dir (files W) q = is_dir (files s.2) q) →
      files W !! (output_dir s.1 // "index.html")
      = files s'.2 !! (output_dir s.1 // "index.html") →
      generate_landing_page (p, W) = ((p, W), Ok true).
Proof.
  rewrite generate_landing_page_unfold. intros H Herr Hout.
  destruct (path_exists (files s.2) template_file) eqn:Hex; simpl in H.
  2:{ injection H as <- _. simpl in Herr. apply (f_equal length) in Herr.
      rewrite length_app in Herr. simpl in Herr. lia. }
  unfold read_text in H.
  destruct (files s.2 !! template_file) as [[template|]|] eqn:Htpl; [|done..].
  destruct (landing_html _ _ _ _) as [html|] eqn:Hhtml; [|done].
  destruct (write_text _ _ _) as [fs'|] eqn:Hwrite; [|done].
  injection H as <- <-. simpl. split_and!; [done..|by eapply write_landing|].
  intros p W Hp Hproc HWt Hslides Hdir HWk.
  rewrite generate_landing_page_unfold. cbn [fst snd]. unfold path_exists, read_text.
  rewrite HWt. cbn [negb].
  rewrite Hp, Hproc, (landing_html_ext (files s.2)), Hhtml by done.
  apply write_text_spec in Hwrite as [Hparent Hw].
  rewrite write_text_again.
  - by destruct W.
  - by rewrite Hdir.
  - rewrite HWk. simpl. by apply (file_written_at _ _ _ _ Hw).
Qed.

(** An asset of a run, and the same step later. *)
Lemma copy_asset_again name s s' :
  copy_asset name s = (s', Ok tt) →
  ¬ below (output_dir s.1) ["templates"; name] →
  s'.1 = s.1 ∧ calls s'.2 = calls s.2
  ∧ top_write (output_dir s.1) name (files s.2) (files s'.2)
  ∧ ∀ (p : TalkProcessor) (W : world),
      output_dir p = output_dir s.1 →
      (∀ q, ¬ below (output_dir s.1) q → files W !! q = files s'.2 !! q) →
      (∀ q, is_dir (files W) q = is_dir (files s'.2) q) →
      (∀ q, path_name q = name → files W !! q = files s'.2 !! q) →
      copy_asset name (p, W) = ((p, W), Ok tt).
Proof.
  rewrite copy_asset_unfold. intros H Hsrc.
  destruct (path_exists (files s.2) ["templates"; name]) eqn:Hex.
  2:{ injection H as <-. split_and!; [done..|by left|].
      intros p W Hp Hout Hdir Hname. rewrite copy_asset_unfold. simpl.
      unfold path_exists in *. rewrite Hout by done. by rewrite Hex. }
  destruct (copy2 _ _ _) as [fs'|] eqn:Hcopy; [|done]. injection H as <-. simpl.
  apply copy2_spec in Hcopy as (c&Hc&Hne&Hwrite).
  apply write_text_spec in Hwrite as [Hparent Hw].
  assert (top_write (output_dir s.1) name (files s.2) fs') as Htop.
  { right. eexists _, _. split_and!; [done|..].
    - apply copy2_target_below.
    - apply copy2_target_name. }
  split_and!; [done..|].
  intros p W Hp Hout Hdir Hname. rewrite copy_asset_unfold. simpl.
  assert (files W !! ["templates"; name] = Some (File c)) as HWsrc.
  { rewrite Hout by done. rewrite (file_written_other _ _ _ _ Hw); done. }
  assert (copy2_target (files W) ["templates"; name] (output_dir s.1 // name)
          = copy2_target (files s.2) ["templates"; name] (output_dir s.1 // name)) as Hk.
  { unfold copy2_target. by rewrite Hdir, (file_written_is_dir _ _ _ _ Hw). }
  unfold path_exists. rewrite HWsrc, Hp. rewrite (copy2_again _ _ _ c); try done.
  - by destruct W.
  - by rewrite Hk.
  - by rewrite Hk, Hdir, (file_written_is_dir _ _ _ _ Hw).
  - rewrite Hk, Hname by apply copy2_target_name.
    by apply (file_written_at _ _ _ _ Hw).
Qed.

(** The run, stage by stage. *)
Lemma process_all_unfold s :
  process_all s =
  match mkdir (files s.2) (output_dir s.1) with
  | Raise e => (s, Raise e)
  | Ok fs =>
      let s0 := (s.1, set_files fs s.2) in
      match iterdir fs (talks_dir s.1) with
      | Raise e => (s0, Raise e)
      | Ok _ =>
          match talk_dirs fs (talks_dir s.1) with
          | [] => (s0, Ok tt)
          | _ =>
              let s1 :=
                (for_each
                   (completion_order (sorted path_ltb id false (talk_dirs fs (talks_dir s.1))))
                   run_talk s0).1 in
              match processed_talks s1.1 with
              | [] => (s1, Ok tt)
              | _ => (generate_landing_page ;; copy_assets) s1
              end
          end
      end
  end.
Proof.
  destruct s as [self w]. unfold process_all. repeat (monad_unfold; simpl).
  destruct (mkdir _ _) as [fs|]; [|done]. simpl.
  unfold iterdir. destruct (is_dir fs (talks_dir self)); [|done]. simpl.
  fold (talk_dirs fs (talks_dir self)).
  destruct (talk_dirs fs (talks_dir self)) as [|d ds] eqn:Hdirs; [done|].
  pose proof (run_talks_ok (completion_order (sorted path_ltb id false (d :: ds)))
                (self, set_files fs w)) as Hok.
  destruct (for_each _ _ _) as [s1 r]. simpl in Hok. subst r. simpl.
  by destruct (processed_talks s1.1).
Qed.

Lemma path_split (d : path) : d ≠ [] → d = path_parent d // path_name d.
Proof. intros H. unfold path_parent, path_name, path_join. by apply app_removelast_last. Qed.

Lemma child_of (talks d : path) : d ≠ [] → path_parent d = talks → d = talks // path_name d.
Proof. intros Hne <-. by apply path_split. Qed.

(** The talks of a second run, on a world that has the inputs and the
    markers that the first run left. *)
Lemma second_run_talks (talks output : path) (w0 : world) (fs0 : filesystem) (W : world) :
  let p0 := init talks output false in
  let s0 := (p0, set_files fs0 w0) in
  let order := completion_order (sorted path_ltb id false (talk_dirs fs0 talks)) in
  let s1 := (for_each order run_talk s0).1 in
  (∀ l, completion_order l ≡ₚ l) →
  ¬ output `prefix_of` talks →
  ¬ talks `prefix_of` output →
  (∀ d, d ∈ talk_dirs (files w0) talks →
        converter_confined script_sh output d ∧ converter_marks script_sh output d) →
  mkdir (files w0) output = Ok fs0 →
  is_dir fs0 talks = true →
  errors s1.1 = [] →
  (∀ q, ¬ below output q → files W !! q = files s1.2 !! q) →
  (∀ h, talk_processed (files s1.2) output h = true →
        talk_processed (files W) output h = true) →
  mkdir (files W) output = Ok (files W)
  ∧ is_dir (files W) talks = true
  ∧ sorted path_ltb id false (talk_dirs (files W) talks)
    = sorted path_ltb id false (talk_dirs fs0 talks)
  ∧ ∃ p2, for_each order run_talk (p0, W) = ((p2, W), Ok tt)
      ∧ talks_dir p2 = talks ∧ output_dir p2 = output ∧ force p2 = false
      ∧ processed_talks p2 = processed_talks s1.1
      ∧ errors p2 = []
      ∧ skipped_talks p2 = map path_name order.
Proof.
  intros p0 s0 order s1 Hperm Hdis1 Hdis2 Hconv Hmk Hdir Herr HW Hmarked.
  pose proof (mkdir_ready _ _ _ Hmk) as Hready.
  assert (talks ≠ []) as Htalks by (intros ->; apply Hdis2, prefix_nil).
  assert (∀ q, q ≠ [] → path_parent q = talks → ¬ below output q) as Hchild.
  { intros q Hne Hp. rewrite (child_of talks q Hne Hp). by apply input_not_below. }
  assert (∀ d, d ∈ order → d ∈ talk_dirs (files w0) talks ∧ d = talks // path_name d)
    as Horder.
  { intros d Hd. unfold order in Hd. rewrite Hperm, sorted_perm in Hd.
    assert (d ≠ [] ∧ path_parent d = talks) as [Hne Hp].
    { apply talk_dirs_elem in Hd as [_ Hd]. by apply children_elem in Hd as (?&?&_). }
    split; [|by apply child_of].
    rewrite <-(talk_dirs_perm (files w0) fs0); [done|].
    intros q Hq Hpq. apply (mkdir_other _ _ _ _ Hmk). intros Hpre. apply Hdis2.
    etrans; [|exact Hpre]. rewrite (child_of talks q Hq Hpq). by apply prefix_app_r. }
  assert (∀ d, d ∈ order → converter_confined script_sh output d) as Hconf
    by (intros d Hd; by apply Hconv, Horder).
  assert (∀ q, ¬ below output q → files s1.2 !! q = fs0 !! q) as Hframe.
  { intros q Hq. by apply (run_talks_frame order s0 q). }
  assert (∀ q, ¬ below output q → files W !! q = fs0 !! q) as HW0.
  { intros q Hq. by rewrite HW, Hframe. }
  split_and!.
  - apply mkdir_noop. intros k Hk. rewrite HW0 by apply ready_not_below. by apply Hready.
  - unfold is_dir in *. destruct talks as [|a talks]; [done|].
    rewrite HW0; [done|]. rewrite <-(app_nil_r (a :: talks)). by apply input_not_below.
  - apply sorted_paths_perm, talk_dirs_perm. intros q Hq Hp. by apply HW0, Hchild.
  - destruct (second_run_skips order s0 W p0) as (p2&Hrun&?&?&?&?&Hskip&news&Hp2&Hp1);
      try done.
    + intros d Hd. destruct (Horder d Hd) as [_ ->]. unfold path_join.
      rewrite <-app_assoc. by apply input_not_below.
    + intros d Hd. apply Hmarked. apply (first_run_marks order s0); try done.
      * apply NoDup_fmap_2_strong.
        -- intros x y Hx Hy Hxy. destruct (Horder x Hx) as [_ Ex].
           destruct (Horder y Hy) as [_ Ey]. rewrite Ex, Ey. by rewrite Hxy.
        -- unfold order. rewrite Hperm, sorted_perm. apply talk_dirs_nodup.
      * intros d' Hd'. by apply Hconv, Horder.
    + exists p2. split_and!; try done. simpl in Hp1, Hp2. unfold s1. by rewrite Hp1, Hp2.
Qed.

Lemma generate_landing_page_again_config s s' b :
  generate_landing_page s = (s', Ok b) →
  output_dir s'.1 = output_dir s.1 ∧ processed_talks s'.1 = processed_talks s.1.
Proof.
  rewrite generate_landing_page_unfold.
  destruct (path_exists _ _); simpl; [|by intros [= <- _]].
  destruct (read_text _ _); [|done]. destruct (landing_html _ _ _ _); [|done].
  destruct (write_text _ _ _); [|done]. by intros [= <- _].
Qed.

Lemma generate_landing_page_errors s :
  errors s.1 `prefix_of` errors (generate_landing_page s).1.1.
Proof.
  rewrite generate_landing_page_unfold.
  destruct (path_exists _ _); simpl; [|by apply prefix_app_r].
  destruct (read_text _ _); [|done]. destruct (landing_html _ _ _ _); [|done].
  by destruct (write_text _ _ _).
Qed.

(** The last stage of a run without error, and the same stage on the
    world it has left. *)
Lemma finish_again s s' (p : TalkProcessor) :
  (generate_landing_page ;; copy_assets) s = (s', Ok tt) →
  errors s'.1 = [] →
  output_dir s.1 ≠ [] →
  ¬ ["templates"] `prefix_of` output_dir s.1 →
  output_dir p = output_dir s.1 →
  processed_talks p = processed_talks s.1 →
  s'.1 = s.1 ∧ calls s'.2 = calls s.2
  ∧ (∀ q, ¬ below (output_dir s.1) q → files s'.2 !! q = files s.2 !! q)
  ∧ (∀ h, talk_processed (files s.2) (output_dir s.1) h = true →
          talk_processed (files s'.2) (output_dir s.1) h = true)
  ∧ (generate_landing_page ;; copy_assets) (p, s'.2) = ((p, s'.2), Ok tt).
Proof.
  intros Hrun Herr Hne Htpl Hp Hproc. unfold copy_assets, bind in Hrun.
  pose proof (generate_landing_page_errors s) as Hgrow.
  destruct (generate_landing_page s) as [s1 [b|]] eqn:Hgen; [|done].
  destruct (copy_asset "style.css" s1) as [s2 [[]|]] eqn:Hcss; [|done].
  simpl in Hgrow.
  assert (∀ name, ¬ below (output_dir s.1) ["templates"; name]) as Hsrc
    by (intros name; by apply template_not_below).
  destruct (generate_landing_page_again s s1 b Hgen)
    as (Hs1&Hc1&Htw0&Hgen2); [|done|].
  { destruct (copy_asset_again _ _ _ Hcss) as (E2&_); [|].
    - intros Hb. destruct (generate_landing_page_again_config s s1 b Hgen) as [E _].
      rewrite E in Hb. by apply (Hsrc "style.css").
    - destruct (copy_asset_again _ _ _ Hrun) as (E3&_).
      + intros Hb. rewrite E2 in Hb.
        destruct (generate_landing_page_again_config s s1 b Hgen) as [E _].
        rewrite E in Hb. by apply (Hsrc "zurich_goes_networking.jpg").
      + rewrite E3, E2 in Herr. rewrite Herr in Hgrow. apply prefix_nil_inv in Hgrow.
        by rewrite Herr, Hgrow. }
  assert (∀ name, ¬ below (output_dir s1.1) ["templates"; name]) as Hsrc1
    by (by rewrite Hs1).
  destruct (copy_asset_again _ _ _ Hcss (Hsrc1 _)) as (Hs2&Hc2&Htw1&Hcss2).
  assert (∀ name, ¬ below (output_dir s2.1) ["templates"; name]) as Hsrc2
    by (by rewrite Hs2).
  destruct (copy_asset_again _ _ _ Hrun (Hsrc2 _)) as (Hs3&Hc3&Htw2&Hjpg2).
  rewrite Hs2, Hs1 in Htw2. rewrite Hs1 in Htw1.
  split_and!.
  - by rewrite Hs3, Hs2.
  - by rewrite Hc3, Hc2.
  - intros q Hq. by rewrite (top_write_outside _ _ _ _ Htw2), (top_write_outside _ _ _ _ Htw1),
      (top_write_outside _ _ _ _ Htw0).
  - intros h Hh. eapply top_write_processed; [exact Htw2|].
    eapply top_write_processed; [exact Htw1|]. by eapply top_write_processed.
  - unfold copy_assets, bind.
    rewrite (Hgen2 p s'.2); try done.
    + rewrite (Hcss2 p s'.2).
      * rewrite (Hjpg2 p s'.2); try done. by rewrite Hs2, Hs1.
      * by rewrite Hs1.
      * intros q Hq. apply (top_write_outside _ _ _ _ Htw2). by rewrite Hs1 in Hq.
      * intros q. apply (top_write_is_dir _ _ _ _ Htw2).
      * intros q Hq. apply (top_write_name _ _ _ _ Htw2). by rewrite Hq.
    + rewrite (top_write_outside _ _ _ _ Htw2), (top_write_outside _ _ _ _ Htw1),
        (top_write_outside _ _ _ _ Htw0); try done; apply (Hsrc "landing.html").
    + intros d. by rewrite (top_write_slides _ _ _ _ Htw2), (top_write_slides _ _ _ _ Htw1),
        (top_write_slides _ _ _ _ Htw0).
    + intros q. by rewrite (top_write_is_dir _ _ _ _ Htw2), (top_write_is_dir _ _ _ _ Htw1),
        (top_write_is_dir _ _ _ _ Htw0).
    + rewrite (top_write_name _ _ _ _ Htw2), (top_write_name _ _ _ _ Htw1); try done;
        by rewrite path_name_join.
Qed.

(** Two runs with the same completion order and on the same day: when
    the first run ended without recording an error, a second run on the
    world it has left skips every talk, lists the same talks, records
    no error, runs no conversion and leaves every file as it is. *)
Lemma second_run_same_order (talks output : path) (w0 : world) (s1 : state) :
  (∀ l, completion_order l ≡ₚ l) →
  ¬ output `prefix_of` talks →
  ¬ talks `prefix_of` output →
  ¬ ["templates"] `prefix_of` output →
  (∀ d, d ∈ talk_dirs (files w0) talks →
        converter_confined script_sh output d ∧ converter_marks script_sh output d) →
  process_all (init talks output false, w0) = (s1, Ok tt) →
  errors s1.1 = [] →
  ∃ p2, process_all (init talks output false, s1.2) = ((p2, s1.2), Ok tt)
    ∧ processed_talks p2 = processed_talks s1.1
    ∧ errors p2 = []
    ∧ skipped_talks p2
      = map path_name
          (completion_order (sorted path_ltb id false (talk_dirs (files s1.2) talks))).
Proof.
  intros Hperm Hot Hto Htpl Hconv Hrun Herr.
  assert (output ≠ []) as Hne by (intros ->; apply Hot, prefix_nil).
  rewrite process_all_unfold in Hrun. simpl in Hrun.
  destruct (mkdir (files w0) output) as [fs0|] eqn:Hmk; [|done].
  destruct (iterdir fs0 talks) as [entries|] eqn:Hit; [|done].
  assert (is_dir fs0 talks = true) as Hdir
    by (unfold iterdir in Hit; by destruct (is_dir fs0 talks)).
  destruct (talk_dirs fs0 talks) as [|d0 ds] eqn:Hunits.
  { injection Hrun as <-. exists (init talks output false).
    rewrite process_all_unfold. simpl.
    rewrite (mkdir_noop fs0 output (mkdir_ready _ _ _ Hmk)). simpl.
    rewrite Hit, Hunits. split_and!; try done.
    simpl. by rewrite (proj1 (Permutation_nil_r _) (Hperm [])). }
  rewrite <-Hunits in Hrun.
  pose proof (second_run_talks talks output w0 fs0) as Htalks. simpl in Htalks.
  set (order := completion_order (sorted path_ltb id false (talk_dirs fs0 talks))) in *.
  set (sB := (for_each order run_talk (init talks output false, set_files fs0 w0)).1) in *.
  assert (output_dir sB.1 = output) as Hout.
  { pose proof (run_talks_grow order (init talks output false, set_files fs0 w0)) as Hg.
    simpl in Hg. by destruct Hg as [Hg _]. }
  assert (∀ W : world,
    (∀ q, ¬ below output q → files W !! q = files sB.2 !! q) →
    (∀ h, talk_processed (files sB.2) output h = true →
          talk_processed (files W) output h = true) →
    errors sB.1 = [] →
    ∃ p2, process_all (init talks output false, W)
          = match processed_talks sB.1 with
            | [] => ((p2, W), Ok tt)
            | _ => (generate_landing_page ;; copy_assets) (p2, W)
            end
      ∧ output_dir p2 = output
      ∧ processed_talks p2 = processed_talks sB.1
      ∧ errors p2 = []
      ∧ skipped_talks p2
        = map path_name
            (completion_order (sorted path_ltb id false (talk_dirs (files W) talks))))
    as Hagain.
  { intros W HW Hmarked HerrB.
    destruct (Htalks W Hperm Hot Hto Hconv Hmk Hdir HerrB HW Hmarked)
      as (Hmk2&Hdir2&Hsorted&p2&Hfold&_&Hp2o&_&Hp2p&Hp2e&Hp2s).
    exists p2. rewrite process_all_unfold. simpl. rewrite Hmk2.
    replace (set_files (files W) W) with W by (by destruct W).
    unfold iterdir. rewrite Hdir2.
    destruct (talk_dirs (files W) talks) as [|d1 ds1] eqn:Hunits2.
    { exfalso. simpl in Hsorted. pose proof (sorted_perm path_ltb id false (talk_dirs fs0 talks)) as Hp.
      rewrite <-Hsorted, Hunits in Hp. by apply Permutation_nil_cons in Hp. }
    rewrite !Hsorted. fold order. rewrite Hfold. simpl. rewrite Hp2p.
    split_and!; done. }
  destruct (processed_talks sB.1) as [|t ts] eqn:Hproc.
  - injection Hrun as <-.
    destruct (Hagain sB.2) as (p2&Hrun2&_&Hp2p&Hp2e&Hp2s); try done.
    exists p2. by rewrite Hp2p.
  - destruct (finish_again sB s1 sB.1 Hrun Herr) as (Hself&_&Hframe&Hmark&_);
      try done; try by rewrite Hout.
    rewrite Hout in Hframe, Hmark.
    destruct (Hagain s1.2) as (p2&Hrun2&Hp2o&Hp2p&Hp2e&Hp2s); try done.
    { by rewrite <-Hself. }
    exists p2. rewrite Hrun2.
    destruct (finish_again sB s1 p2 Hrun Herr) as (_&_&_&_&Hfin);
      try done; try by rewrite Hout.
    { by rewrite Hp2p. }
    rewrite Hfin. rewrite Hself, Hproc. by rewrite Hp2p.
Qed.

End PlainNames.

(** ** What a run records *)

Lemma process_talk_skipped talk_dir s :
  skipped_talks (process_talk talk_dir s).1.1 = skipped_talks s.1
  ∨ (force s.1 = false
     ∧ skipped_talks (process_talk talk_dir s).1.1 = skipped_talks s.1 ++ [path_name talk_dir]).
Proof.
  rewrite process_talk_unfold. simpl.
  destruct (path_exists _ _); simpl; [|by left].
  destruct (load_talk _ s).2 as [metadata|e]; simpl; [|by left].
  destruct (negb (force s.1) && talk_processed _ _ _) eqn:Hdone.
  - apply andb_true_iff in Hdone as [Hf _]. apply negb_true_iff in Hf.
    right. split; [done|]. unfold skip_talk. by destruct (py_setitem _ _ _).
  - left. unfold convert_talk.
    destruct (py_getitem metadata "pdf") as [pdf|]; [|done].
    destruct (path_join_val talk_dir pdf) as [pdf_file|]; [|done].
    destruct (exists_walked (files s.2) pdf_file); simpl; [|done].
    destruct (mkdir _ _) as [fs1|]; [|done].
    destruct (py_getitem metadata "title") as [title|e]; [|by destruct e].
    destruct (script_cmd _ _ _ _) as [cmd|e]; [|by destruct e].
    destruct (script_sh cmd fs1).2 as [out|e]; [|by destruct e].
    destruct (path_join_val _ pdf) as [output_pdf|]; [|done].
    destruct (copy2_walked _ _ _) as [fs3|]; [|done].
    by destruct (py_setitem _ _ _).
Qed.

Lemma run_talk_skipped talk_dir s :
  skipped_talks (run_talk talk_dir s).1.1 = skipped_talks s.1
  ∨ (force s.1 = false
     ∧ skipped_talks (run_talk talk_dir s).1.1 = skipped_talks s.1 ++ [path_name talk_dir]).
Proof.
  rewrite run_talk_unfold.
  destruct (process_talk_skipped talk_dir s) as [H|H];
    destruct (process_talk talk_dir s).2; simpl; auto.
Qed.

(** X3. Every talk of a batch is accounted for once: it adds one
    descriptor to the talks to list or one message to the errors, so
    the two lists together grow by the number of talks. *)
Theorem every_talk_is_listed_or_reported (dirs : list path) (s : state) :
  let s' := (for_each dirs run_talk s).1 in
  (length (processed_talks s'.1) + length (errors s'.1)
   = length (processed_talks s.1) + length (errors s.1) + length dirs)%nat.
Proof.
  revert s. induction dirs as [|d dirs IH]; intros s; simpl; [lia|].
  pose proof (run_talks_cons d dirs s) as Hc. simpl in Hc. rewrite Hc.
  specialize (IH (run_talk d s).1). simpl in IH. rewrite IH.
  destruct (run_talk_outcome d s) as (_&_&_&H).
  destruct (succeeded _).
  - destruct H as [(t&_&->) ->]. rewrite length_app. simpl. lia.
  - destruct H as [-> [msg ->]]. rewrite length_app. simpl. lia.
Qed.

Lemma load_talk_fields metadata_file s (t : gmap string pyval) :
  (load_talk metadata_file s).2 = Ok (PDict t) →
  Forall (λ f, is_Some (t !! f)) required_fields.
Proof.
  rewrite load_talk_unfold.
  destruct (read_text _ _); [|done]. destruct (safe_load _) as [data|]; [|done].
  destruct (if truthy data then _ else _) as [[]|]; [|done..].
  destruct (py_getitem data "talk") as [talk|]; [|done].
  destruct (check_fields talk required_fields s) as [s' [u|]] eqn:Hc; [|done].
  simpl. intros [= ->].
  pose proof (check_fields_ok (PDict t) required_fields s u) as Hok.
  rewrite Hc in Hok. specialize (Hok eq_refl).
  eapply Forall_impl; [exact Hok|]. simpl. intros f [= Hf].
  by apply bool_decide_eq_true in Hf.
Qed.

(** X4. Every descriptor that a batch adds to the talks to list is a
    mapping that carries the name of its directory as handle and the
    five required fields: the renderer finds every key it reads. *)
Theorem listed_talks_carry_handle_and_fields (dirs : list path) (s : state) :
  let s' := (for_each dirs run_talk s).1 in
  ∃ news, processed_talks s'.1 = processed_talks s.1 ++ news
    ∧ Forall (λ talk, ∃ d t, d ∈ dirs
                ∧ talk = PDict (<["handle" := PStr (path_name d)]> t)
                ∧ Forall (λ f, is_Some (t !! f)) required_fields
                ∧ py_getitem talk "handle" = Ok (PStr (path_name d))) news.
Proof.
  revert s. induction dirs as [|d dirs IH]; intros s; simpl.
  { exists []. by rewrite app_nil_r. }
  pose proof (run_talks_cons d dirs s) as Hc. simpl in Hc. rewrite Hc.
  destruct (IH (run_talk d s).1) as (news&Hnews&Hall). simpl in Hnews. rewrite Hnews.
  assert (Forall (λ talk, ∃ d0 t, d0 ∈ d :: dirs
                ∧ talk = PDict (<["handle" := PStr (path_name d0)]> t)
                ∧ Forall (λ f, is_Some (t !! f)) required_fields
                ∧ py_getitem talk "handle" = Ok (PStr (path_name d0))) news) as Hall'.
  { eapply Forall_impl; [exact Hall|]. simpl. intros talk (d0&t&Hd0&H).
    exists d0, t. split; [by apply list_elem_of_further|done]. }
  destruct (run_talk_outcome d s) as (_&_&_&H).
  destruct (succeeded _).
  - destruct H as [(t&Hload&->) _]. rewrite <-app_assoc. eexists. split; [done|].
    simpl. constructor; [|exact Hall'].
    exists d, t. split_and!; [apply list_elem_of_here|done| |].
    + by eapply load_talk_fields.
    + simpl. by rewrite lookup_insert_eq.
  - destruct H as [-> _]. by exists news.
Qed.

Lemma skipped_handles_of_batch dirs s :
  ∃ l, skipped_talks (for_each dirs run_talk s).1.1 = skipped_talks s.1 ++ l
    ∧ l `sublist_of` map path_name dirs
    ∧ (force s.1 = true → l = []).
Proof.
  revert s. induction dirs as [|d dirs IH]; intros s; simpl.
  { exists []. by rewrite app_nil_r. }
  pose proof (run_talks_cons d dirs s) as Hc. simpl in Hc. rewrite Hc.
  destruct (IH (run_talk d s).1) as (l&Hl&Hsub&Hforce). simpl in Hl. rewrite Hl.
  destruct (run_talk_outcome d s) as (_&_&Hf&_). simpl in Hf. rewrite Hf in Hforce.
  destruct (run_talk_skipped d s) as [->|[Hoff ->]].
  - exists l. split_and!; [done|by apply sublist_cons|done].
  - exists (path_name d :: l). split_and!.
    + by rewrite <-app_assoc.
    + by apply sublist_skip.
    + by rewrite Hoff.
Qed.

(** X5. The handles recorded as skipped by a batch are names of talks of
    that batch, in the order in which the talks completed, and under
    force-mode there is none. *)
Theorem skipped_handles_name_talks_of_the_batch (dirs : list path) (s : state) :
  let s' := (for_each dirs run_talk s).1 in
  ∃ l, skipped_talks s'.1 = skipped_talks s.1 ++ l
    ∧ l `sublist_of` map path_name dirs
    ∧ (force s.1 = true → l = []).
Proof. apply skipped_handles_of_batch. Qed.

Lemma run_talks_config dirs s :
  let s' := (for_each dirs run_talk s).1 in
  talks_dir s'.1 = talks_dir s.1 ∧ output_dir s'.1 = output_dir s.1 ∧ force s'.1 = force s.1.
Proof.
  revert s. induction dirs as [|d dirs IH]; intros s; [done|].
  rewrite run_talks_cons. simpl.
  destruct (IH (run_talk d s).1) as (->&->&->).
  by destruct (run_talk_outcome d s) as (?&?&?&_).
Qed.

Lemma generate_landing_page_self s :
  (generate_landing_page s).1.1 = s.1
  ∨ ∃ msg, (generate_landing_page s).1.1 = add_error msg s.1.
Proof.
  rewrite generate_landing_page_unfold.
  destruct (path_exists _ _); simpl; [|by eauto].
  destruct (read_text _ _); [|by left]. destruct (landing_html _ _ _ _); [|by left].
  destruct (write_text _ _ _); by left.
Qed.

Lemma copy_asset_self name s : (copy_asset name s).1.1 = s.1.
Proof.
  rewrite copy_asset_unfold. destruct (path_exists _ _); [|done].
  by destruct (copy2 _ _ _).
Qed.

Lemma copy_assets_self s : (copy_assets s).1.1 = s.1.
Proof.
  unfold copy_assets, bind.
  pose proof (copy_asset_self "style.css" s) as H1.
  destruct (copy_asset "style.css" s) as [s1 [[]|]]; [|done].
  pose proof (copy_asset_self "zurich_goes_networking.jpg" s1) as H2.
  simpl in *. by rewrite H2.
Qed.

(** X6. The batch state only grows over a whole run: the roots and the
    force flag stay as they are, and each of the three lists at the end
    of [process_all] starts with the list it was at the beginning,
    whether the run returns or raises. *)
Theorem batch_state_only_grows (s : state) :
  let s' := (process_all s).1 in
  talks_dir s'.1 = talks_dir s.1
  ∧ output_dir s'.1 = output_dir s.1
  ∧ force s'.1 = force s.1
  ∧ processed_talks s.1 `prefix_of` processed_talks s'.1
  ∧ skipped_talks s.1 `prefix_of` skipped_talks s'.1
  ∧ errors s.1 `prefix_of` errors s'.1.
Proof.
  rewrite process_all_unfold.
  destruct (mkdir _ _) as [fs|]; [|done].
  destruct (iterdir _ _); [|done].
  destruct (talk_dirs fs (talks_dir s.1)) as [|d0 ds] eqn:Hunits; [done|].
  rewrite <-Hunits. clear Hunits.
  set (order := completion_order _).
  set (s0 := (s.1, set_files fs s.2)).
  destruct (run_talks_config order s0) as (Ht&Ho&Hf).
  destruct (run_talks_grow order s0) as (_&_&Hp&He).
  destruct (skipped_handles_of_batch order s0) as (l&Hl&_).
  simpl in *.
  set (s1 := (for_each order run_talk s0).1) in *.
  assert (skipped_talks s.1 `prefix_of` skipped_talks s1.1) as Hs
    by (rewrite Hl; by apply prefix_app_r).
  destruct (processed_talks s1.1) as [|t ts] eqn:Hproc.
  { simpl. by rewrite Hproc. }
  rewrite <-Hproc in Hp. clear Hproc.
  unfold bind.
  pose proof (generate_landing_page_self s1) as Hg.
  destruct (generate_landing_page s1) as [s2 [b|e]]; simpl in Hg.
  - pose proof (copy_assets_self s2) as Hc.
    destruct (copy_assets s2) as [s3 r]. simpl in Hc |- *. rewrite Hc.
    destruct Hg as [->|[msg ->]]; simpl; split_and!; try done.
    etrans; [exact He|by apply prefix_app_r].
  - simpl. destruct Hg as [->|[msg ->]]; simpl; split_and!; try done.
    etrans; [exact He|by apply prefix_app_r].
Qed.

(** ** One talk, from descriptor to published directory *)

(** X7. A talk that has to be converted and whose presentation is not
    there: the string of the descriptor is joined to the talk directory
    as pathlib joins it and walked as the operating system walks it, and
    when that leads to no entry the talk returns [False], the errors are
    those before followed by the message with the path looked for, and
    nothing else happens: the talks recorded and the world are as they
    were, so no output directory is created and the converter is not
    run. *)
Theorem missing_presentation_is_reported (talk_dir : path) (s : state)
    (t : gmap string pyval) (pdf : string) :
  path_exists (files s.2) (talk_dir // "metadata.yml") = true →
  (load_talk (talk_dir // "metadata.yml") s).2 = Ok (PDict t) →
  t !! "pdf" = Some (PStr pdf) →
  negb (force s.1) && talk_processed (files s.2) (output_dir s.1) (path_name talk_dir) = false →
  exists_walked (files s.2) (path_join_str talk_dir pdf) = false →
  let s' := (process_talk talk_dir s).1 in
  (process_talk talk_dir s).2 = Ok false
  ∧ errors s'.1
    = errors s.1
      ++ ["PDF file not found: " +:+ path_str (joined_path (path_join_str talk_dir pdf))]
  ∧ processed_talks s'.1 = processed_talks s.1
  ∧ skipped_talks s'.1 = skipped_talks s.1
  ∧ s'.2 = s.2.
Proof.
  intros Hmeta Hload Hpdf Hdone Hmissing.
  rewrite process_talk_unfold. simpl. rewrite Hmeta. simpl. rewrite Hload, Hdone.
  unfold convert_talk. simpl. rewrite Hpdf. simpl. by rewrite Hmissing.
Qed.


(** ** The landing page, written or not *)

(** X9. [generate_landing_page] touches one path, [index.html] in the
    output root: every other path, the commands run and the talks
    recorded stay as they are; nothing at all is written unless it
    returns [True], and then the file holds the template with the
    listing of the recorded talks, with no error recorded. *)
Theorem landing_page_is_the_only_file_written (s : state) :
  let s' := (generate_landing_page s).1 in
  calls s'.2 = calls s.2
  ∧ processed_talks s'.1 = processed_talks s.1
  ∧ skipped_talks s'.1 = skipped_talks s.1
  ∧ (∀ q, q ≠ output_dir s.1 // "index.html" → files s'.2 !! q = files s.2 !! q)
  ∧ ((generate_landing_page s).2 ≠ Ok true → s'.2 = s.2)
  ∧ ((generate_landing_page s).2 = Ok true →
     s'.1 = s.1
     ∧ ∃ template html,
         read_text (files s.2) template_file = Ok template
         ∧ landing_html (files s.2) (output_dir s.1) (processed_talks s.1) template = Ok html
         ∧ files s'.2 !! (output_dir s.1 // "index.html") = Some (File html)).
Proof.
  rewrite generate_landing_page_unfold.
  destruct (path_exists _ _); simpl; [|by split_and!].
  destruct (read_text _ _) as [template|] eqn:Hread; [|by split_and!].
  destruct (landing_html _ _ _ _) as [html|] eqn:Hhtml; [|by split_and!].
  destruct (write_text _ _ _) as [fs'|] eqn:Hw; [|by split_and!].
  apply write_text_spec in Hw as [_ [_ ->]]. simpl. split_and!; try done.
  - intros q Hq. by rewrite lookup_insert_ne.
  - intros _. split; [by destruct s|]. exists template, html.
    by rewrite lookup_insert_eq.
Qed.

Lemma map_result_raise {A B} (f : A → result B) l x e :
  x ∈ l → f x = Raise e → ∃ e', map_result f l = Raise e'.
Proof.
  induction l as [|a l IH]; intros Hx Hf; [by apply elem_of_nil in Hx|].
  apply elem_of_cons in Hx as [<-|Hx]; simpl.
  - rewrite Hf. simpl. eauto.
  - destruct (f a); simpl; [|by eauto].
    destruct (IH Hx Hf) as [e' ->]. simpl. eauto.
Qed.

Lemma talk_entry_highlight fs output (t : gmap string pyval) x :
  t !! "highlight" = Some (PStr x) →
  ∃ e, talk_entry markdown_markdown repr_container fs output (PDict t) = Raise e.
Proof.
  intros Hh. unfold talk_entry. simpl. rewrite Hh.
  destruct (t !! "handle") as [handle|]; simpl; [|by eauto].
  destruct (t !! "title"); simpl; [|by eauto].
  destruct (t !! "pdf"); simpl; [|by eauto].
  destruct (t !! "description") as [description|]; simpl; [|by eauto].
  destruct (markdown_of_val _ description); simpl; [|by eauto].
  destruct (path_join_val output handle); simpl; by eauto.
Qed.

(** X10. Only the presence of the keys is checked when a descriptor is
    loaded, and the page needs more: a recorded talk whose date is not
    a calendar date, or whose highlight is a string, makes
    [generate_landing_page] raise, with the batch state and the file
    system as they were and no page written. *)
Theorem ill_typed_field_breaks_the_page (s : state) (t : gmap string pyval) :
  path_exists (files s.2) template_file = true →
  PDict t ∈ processed_talks s.1 →
  (∀ y m d, t !! "date" ≠ Some (PDate y m d)) ∨ (∃ x, t !! "highlight" = Some (PStr x)) →
  ∃ e, generate_landing_page s = (s, Raise e).
Proof.
  intros Htpl Hin Hbad. rewrite generate_landing_page_unfold. rewrite Htpl. simpl.
  destruct (read_text _ _) as [template|]; [|by eauto].
  assert (∃ e, landing_html (files s.2) (output_dir s.1) (processed_talks s.1) template
               = Raise e) as [e ->]; [|by eauto].
  unfold landing_html.
  destruct (map_result _ (processed_talks s.1)) as [dated|e] eqn:Hdated; simpl; [|by eauto].
  destruct (map_result_elem _ _ _ _ Hdated Hin) as ([d t']&Hd&Hdt).
  unfold talk_date in Hd. simpl in Hd.
  destruct Hbad as [Hdate|[x Hx]].
  - destruct (t !! "date") as [[]|] eqn:Hv; simpl in Hd; try done. by destruct (Hdate year month day).
  - assert (t' = PDict t) as ->.
    { destruct (t !! "date") as [[]|]; simpl in Hd; try done. by injection Hd. }
    pose proof (listing_complete dated (d, PDict t) Hdt) as Hentry. simpl in Hentry.
    destruct (talk_entry_highlight (files s.2) (output_dir s.1) t x Hx) as [e He].
    destruct (map_result_raise
                (render_item markdown_markdown repr_container (files s.2) (output_dir s.1))
                _ _ e Hentry He)
      as [e' ->].
    simpl. eauto.
Qed.

(** ** The assets *)

Lemma copy_asset_effect name s :
  calls (copy_asset name s).1.2 = calls s.2
  ∧ (∀ q, path_name q ≠ name → files (copy_asset name s).1.2 !! q = files s.2 !! q)
  ∧ (∀ q, is_dir (files (copy_asset name s).1.2) q = is_dir (files s.2) q)
  ∧ (path_exists (files s.2) ["templates"; name] = false → copy_asset name s = (s, Ok tt))
  ∧ (∀ c, files s.2 !! ["templates"; name] = Some (File c) →
          (copy_asset name s).2 = Ok tt →
          is_dir (files s.2) (output_dir s.1 // name) = false →
          files (copy_asset name s).1.2 !! (output_dir s.1 // name) = Some (File c)).
Proof.
  rewrite copy_asset_unfold.
  destruct (path_exists _ _) eqn:Hthere.
  2: { split_and!; try done. intros c Hc. unfold path_exists in Hthere.
       by rewrite Hc in Hthere. }
  destruct (copy2 _ _ _) as [fs'|] eqn:Hcp; [|by split_and!].
  apply copy2_spec in Hcp as (c'&Hsrc&Hne&Hw). apply write_text_spec in Hw as [_ Hw].
  simpl. split_and!; try done.
  - intros q Hq. apply (file_written_other _ _ _ _ Hw). intros ->.
    by rewrite copy2_target_name in Hq.
  - intros q. apply (file_written_is_dir _ _ _ _ Hw).
  - intros c Hc _ Hdir. rewrite Hc in Hsrc. injection Hsrc as <-.
    unfold copy2_target in Hw. rewrite Hdir in Hw. apply (file_written_at _ _ _ _ Hw).
Qed.

(** X11. [copy_assets] copies the stylesheet and the picture that exist
    under [templates] to the output root under their own names and
    passes over what is missing without a word: it never touches the
    batch state or runs a command, with neither asset it does nothing,
    and when it returns each asset that exists is in the output root
    with the content it has under [templates]. *)
Theorem assets_are_copied_when_present (s : state) :
  (copy_assets s).1.1 = s.1
  ∧ calls (copy_assets s).1.2 = calls s.2
  ∧ (path_exists (files s.2) ["templates"; "style.css"] = false →
     path_exists (files s.2) ["templates"; "zurich_goes_networking.jpg"] = false →
     copy_assets s = (s, Ok tt))
  ∧ (∀ name c,
       name = "style.css" ∨ name = "zurich_goes_networking.jpg" →
       files s.2 !! ["templates"; name] = Some (File c) →
       (copy_assets s).2 = Ok tt →
       is_dir (files s.2) (output_dir s.1 // name) = false →
       files (copy_assets s).1.2 !! (output_dir s.1 // name) = Some (File c)).
Proof.
  split; [apply copy_assets_self|].
  unfold copy_assets, bind.
  destruct (copy_asset_effect "style.css" s) as (Hc1&Ho1&Hd1&Hn1&Hcp1).
  pose proof (copy_asset_self "style.css" s) as Hs1.
  destruct (copy_asset "style.css" s) as [s1 [[]|e]] eqn:H1; simpl in *.
  - destruct (copy_asset_effect "zurich_goes_networking.jpg" s1) as (Hc2&Ho2&Hd2&Hn2&Hcp2).
    split_and!.
    + by rewrite Hc2.
    + intros Hno1 Hno2. injection (Hn1 Hno1) as ->. by apply Hn2.
    + intros name c [->| ->] Hc Hok Hdir.
      * rewrite Ho2; [|by rewrite path_name_join]. by apply Hcp1.
      * rewrite Hs1 in Hcp2. apply Hcp2; [by rewrite Ho1|done|by rewrite Hd1].
  - split_and!; try done. intros Hno1. by specialize (Hn1 Hno1).
Qed.

(** ** The summary of a batch *)

Lemma batch_handles dirs s :
  ∃ news names,
    processed_talks (for_each dirs run_talk s).1.1 = processed_talks s.1 ++ news
    ∧ Forall2 (λ talk h, py_getitem talk "handle" = Ok (PStr h)) news names
    ∧ names `sublist_of` map path_name dirs.
Proof.
  revert s. induction dirs as [|d dirs IH]; intros s; simpl.
  { exists [], []. by rewrite app_nil_r. }
  pose proof (run_talks_cons d dirs s) as Hc. simpl in Hc. rewrite Hc.
  destruct (IH (run_talk d s).1) as (news&names&Hnews&Hall&Hsub). rewrite Hnews.
  destruct (run_talk_outcome d s) as (_&_&_&H).
  destruct (succeeded _).
  - destruct H as [(t&_&->) _]. rewrite <-app_assoc. eexists _, (path_name d :: names).
    split_and!; [done| |by apply sublist_skip].
    constructor; [|done]. simpl. by rewrite lookup_insert_eq.
  - destruct H as [-> _]. exists news, names. split_and!; [done..|by apply sublist_cons].
Qed.

Lemma handles_not_in_names skipped news names :
  Forall2 (λ talk h, py_getitem talk "handle" = Ok (PStr h)) news names →
  handles_not_in skipped news
  = Ok (map PStr (filter (λ h, py_in (PStr h) skipped = false) names)).
Proof.
  induction 1 as [|talk h news names Hh _ IH]; [done|].
  simpl. rewrite Hh. simpl. rewrite filter_cons.
  destruct (py_in (PStr h) skipped) eqn:Hin.
  - by rewrite decide_False.
  - rewrite decide_True by done. by rewrite IH.
Qed.

Lemma py_in_elem h skipped : py_in (PStr h) skipped = true ↔ h ∈ skipped.
Proof.
  unfold py_in. rewrite existsb_exists. split.
  - intros (k&Hk&Heq). simpl in Heq. apply String.eqb_eq in Heq as ->.
    by apply list_elem_of_In.
  - intros Hin. exists h. split; [by apply list_elem_of_In|]. simpl. apply String.eqb_refl.
Qed.

(** X12. The summary after a batch that started from a fresh processor:
    [print_summary] returns, the handles it reports as newly processed
    are names of talk directories of the batch, in the order of the
    batch, none of them is among the skipped ones, and under force-mode
    nothing is skipped and every listed talk is reported as newly
    processed. *)
Theorem summary_of_a_batch (dirs : list path) (talks output : path) (f : bool) (w : world) :
  let self := (for_each dirs run_talk (init talks output f, w)).1.1 in
  ∃ newly,
    newly_processed self = Ok (map PStr newly)
    ∧ (print_summary repr_container self).2 = Ok tt
    ∧ newly `sublist_of` map path_name dirs
    ∧ Forall (λ h, h ∉ skipped_talks self) newly
    ∧ (f = true → skipped_talks self = [] ∧ length newly = length (processed_talks self)).
Proof.
  simpl.
  destruct (batch_handles dirs (init talks output f, w)) as (news&names&Hnews&Hall&Hsub).
  destruct (skipped_handles_of_batch dirs (init talks output f, w)) as (l&Hl&_&Hforce).
  simpl in *.
  set (self := (for_each dirs run_talk (init talks output f, w)).1.1) in *.
  exists (filter (λ h, py_in (PStr h) (skipped_talks self) = false) names).
  assert (newly_processed self
          = Ok (map PStr (filter (λ h, py_in (PStr h) (skipped_talks self) = false) names)))
    as Hnewly.
  { unfold newly_processed. rewrite Hnews. by apply handles_not_in_names. }
  split_and!.
  - exact Hnewly.
  - unfold print_summary. by rewrite Hnewly.
  - etrans; [apply sublist_filter|exact Hsub].
  - apply Forall_forall. intros h Hh. apply list_elem_of_filter in Hh as [Hh _].
    intros Hin. apply py_in_elem in Hin. by rewrite Hin in Hh.
  - intros Hf. rewrite Hl, (Hforce Hf). split; [done|].
    rewrite Hnews. apply Forall2_length in Hall. rewrite Hall. f_equal.
    clear. induction names as [|h names IH]; [done|].
    rewrite filter_cons. rewrite decide_True by done. by rewrite IH.
Qed.

(** ** Descriptors that pass the check and are no mapping *)

(** X13. The required fields are looked for with [in], whatever the talk
    section is: a section that is a sequence or a string passes when it
    contains the five names.  Such a talk is never listed: the talk
    raises, when it is skipped as well as when it is converted, and the
    batch records one unexpected error for it. *)
Theorem talk_section_that_is_no_mapping_is_never_listed (talk_dir : path) (s : state)
    (talk : pyval) :
  path_exists (files s.2) (talk_dir // "metadata.yml") = true →
  (load_talk (talk_dir // "metadata.yml") s).2 = Ok talk →
  (∀ t, talk ≠ PDict t) →
  ∃ e, (process_talk talk_dir s).2 = Raise e
    ∧ processed_talks (run_talk talk_dir s).1.1 = processed_talks s.1
    ∧ errors (run_talk talk_dir s).1.1 = errors s.1 ++ [unexpected_error talk_dir e]
    ∧ files (run_talk talk_dir s).1.2 = files s.2.
Proof.
  intros Hmeta Hload Hno. rewrite run_talk_unfold, process_talk_unfold. simpl.
  rewrite Hmeta. simpl. rewrite Hload.
  destruct (negb (force s.1) && talk_processed _ _ _).
  - unfold skip_talk. destruct talk; simpl; try (by eexists); by destruct (Hno d).
  - unfold convert_talk. destruct talk; simpl; try (by eexists); by destruct (Hno d).
Qed.


(** ** A batch with nothing to list *)

(** A talk that is not listed has not copied its presentation: outside
    its output directory nothing has changed, whatever the descriptor
    says. *)
Lemma run_talks_frame_unlisted dirs s q :
  output_ready (files s.2) (output_dir s.1) →
  processed_talks (for_each dirs run_talk s).1.1 = processed_talks s.1 →
  (∀ d, d ∈ dirs → converter_confined script_sh (output_dir s.1) d) →
  (∀ d, d ∈ dirs → ¬ (output_dir s.1 // path_name d) `prefix_of` q) →
  files (for_each dirs run_talk s).1.2 !! q = files s.2 !! q.
Proof.
  revert s. induction dirs as [|d dirs IH]; intros s Hready Hsame Hconf Hq; [done|].
  rewrite run_talks_cons in Hsame |- *.
  destruct (run_talk_outcome d s) as (_&Hout&_&Hd).
  assert (succeeded (process_talk d s).2 = false
          ∧ processed_talks (run_talk d s).1.1 = processed_talks s.1) as [Hfail Hs1].
  { destruct (run_talks_grow dirs (run_talk d s).1) as (_&_&Hp&_). simpl in Hp.
    rewrite Hsame in Hp. destruct (succeeded _); [|by destruct Hd].
    destruct Hd as [(t&_&Hgrow) _]. rewrite Hgrow in Hp.
    apply prefix_length in Hp. rewrite length_app in Hp. simpl in Hp. lia. }
  assert (∀ q', ¬ (output_dir s.1 // path_name d) `prefix_of` q' →
            files (run_talk d s).1.2 !! q' = files s.2 !! q') as Hstep.
  { intros q' Hq'. rewrite run_talk_world.
    apply process_talk_frame; [done|apply Hconf; by left| |done].
    by rewrite Hfail. }
  rewrite IH; rewrite ?Hout.
  - apply Hstep, Hq. by left.
  - intros k Hk. rewrite Hstep; [by apply Hready|by apply not_under_prefix].
  - by rewrite Hsame, Hs1.
  - intros d' Hd'. apply Hconf. by right.
  - intros d' Hd'. apply Hq. by right.
Qed.

(** X15. A run that ends with no talk to list renders nothing: the
    landing page in the output root is after [process_all] what it was
    before, whatever the talks did in their own output directories (the
    converter keeps to the directory it is given, and no talk is called
    [index.html]). *)
Theorem no_listed_talk_no_page (s s' : state) :
  (∀ l, completion_order l ≡ₚ l) →
  (∀ fs d, mkdir (files s.2) (output_dir s.1) = Ok fs →
           d ∈ talk_dirs fs (talks_dir s.1) →
           converter_confined script_sh (output_dir s.1) d ∧ path_name d ≠ "index.html") →
  process_all s = (s', Ok tt) →
  processed_talks s'.1 = [] →
  files s'.2 !! (output_dir s.1 // "index.html")
  = files s.2 !! (output_dir s.1 // "index.html").
Proof.
  intros Hperm Hconv Hrun Hnone.
  rewrite process_all_unfold in Hrun.
  destruct (mkdir _ _) as [fs|] eqn:Hmk; [|done].
  assert (fs !! (output_dir s.1 // "index.html")
          = files s.2 !! (output_dir s.1 // "index.html")) as Hroot.
  { apply (mkdir_other _ _ _ _ Hmk). intros [k Hk].
    apply (f_equal length) in Hk. unfold path_join in Hk.
    rewrite !length_app in Hk. simpl in Hk. lia. }
  destruct (iterdir _ _); [|done].
  destruct (talk_dirs fs (talks_dir s.1)) as [|d0 ds] eqn:Hunits.
  { by injection Hrun as <-. }
  rewrite <-Hunits in Hrun.
  set (order := completion_order _) in Hrun.
  set (s0 := (s.1, set_files fs s.2)) in Hrun.
  assert (∀ d, d ∈ order → d ∈ talk_dirs fs (talks_dir s.1)) as Horder.
  { intros d. unfold order. by rewrite Hperm, sorted_perm. }
  assert (processed_talks (for_each order run_talk s0).1.1 = [] →
          files (for_each order run_talk s0).1.2 !! (output_dir s.1 // "index.html")
          = fs !! (output_dir s.1 // "index.html")) as Hloop.
  { intros Hnil. apply (run_talks_frame_unlisted order s0).
    - apply (mkdir_ready _ _ _ Hmk).
    - destruct (run_talks_grow order s0) as (_&_&Hp&_). simpl in Hp.
      rewrite Hnil in Hp |- *. by apply prefix_nil_inv in Hp.
    - intros d Hd. by apply (Hconv fs d eq_refl), Horder.
    - intros d Hd Hpre. destruct (Hconv fs d eq_refl (Horder d Hd)) as [_ Hname].
      apply Hname. simpl in Hpre.
      rewrite <-(app_nil_r (output_dir s.1 // "index.html")) in Hpre.
      by apply talk_dir_prefix in Hpre. }
  simpl in Hrun.
  destruct (processed_talks (for_each order run_talk s0).1.1) as [|t ts] eqn:Hproc.
  { injection Hrun as <-. by rewrite Hloop by done. }
  exfalso. unfold bind in Hrun.
  pose proof (generate_landing_page_self (for_each order run_talk s0).1) as Hg.
  destruct (generate_landing_page (for_each order run_talk s0).1) as [s2 [b|e]];
    [|done]. simpl in Hg.
  pose proof (copy_assets_self s2) as Hc. rewrite Hrun in Hc. simpl in Hc.
  rewrite Hc in Hnone. destruct Hg as [Hg|[msg Hg]]; rewrite Hg in Hnone; simpl in Hnone;
    by rewrite Hproc in Hnone.
Qed.

(** ** The batch and the page *)

(** What the page is made of: the entries of the listing, every talk
    among them, put into the section of the template. *)
Lemma landing_html_entries fs output talks template html :
  landing_html fs output talks template = Ok html →
  ∃ entries updated,
    re_sub section_pattern
      ("\1" +:+ nl
       +:+ ("        <ol type=" +:+ dq +:+ "1" +:+ dq +:+ ">" +:+ nl
            +:+ String.concat nl entries +:+ nl +:+ "        </ol>")
       +:+ nl +:+ "    \3") template = Ok updated
    ∧ re_sub "Last updated:.*?</div>" ("Last updated: " +:+ now +:+ nl +:+ "</div>") updated
      = Ok html
    ∧ ∀ talk, talk ∈ talks →
        ∃ text, talk_entry markdown_markdown repr_container fs output talk = Ok text
                ∧ text ∈ entries.
Proof.
  unfold landing_html.
  destruct (map_result _ talks) as [dated|] eqn:Hdated; [|done]. simpl.
  destruct (map_result _ (listing dated)) as [entries|] eqn:Hentries; [|done]. simpl.
  destruct (re_sub section_pattern _ template) as [updated|] eqn:Hsection; [|done]. simpl.
  intros Hhtml. exists entries, updated. split_and!; [done..|].
  intros talk Hin.
  destruct (map_result_elem _ _ _ _ Hdated Hin) as ([d talk']&Hy&Hd).
  unfold result_bind in Hy. destruct (talk_date talk); [|done]. injection Hy as <- <-.
  pose proof (listing_complete dated (_, talk) Hd) as Hentry. simpl in Hentry.
  destruct (map_result_elem _ _ _ _ Hentries Hentry) as (text&Htext&Hin').
  by exists text.
Qed.


End Properties.

(** ** Two runs *)

(** The order of completion enters a run through the list the pool is
    given. *)
Lemma process_all_order safe_load markdown_markdown re_sub script_sh repr_container now
    (order1 order2 : list path → list path) (s : state) :
  (∀ l, order2 l = order1 l) →
  process_all safe_load markdown_markdown re_sub script_sh repr_container now order2 s
  = process_all safe_load markdown_markdown re_sub script_sh repr_container now order1 s.
Proof.
  intros Horder.
  rewrite (process_all_unfold _ _ _ _ _ _ order2), (process_all_unfold _ _ _ _ _ _ order1).
  destruct (mkdir _ _) as [fs|]; [|done].
  destruct (iterdir _ _); [|done].
  destruct (talk_dirs fs (talks_dir s.1)); [done|].
  by rewrite Horder.
Qed.

(** * The properties on the small site *)


(** C4 as the spec has it fails on a descriptor whose talk section is
    there and empty: the loader returns [None] and records the text of
    the type error of the membership test, which names no field. *)
Lemma empty_talk_section_names_no_field :
  (∃ d, Site.safe_load Site.yaml_null = Ok (PDict d)
        ∧ py_contains "talk" (PDict d) = Ok true
        ∧ d !! "talk" = Some PNone)
  ∧ (parse_metadata Site.safe_load ["talks"; "n"; "metadata.yml"]
       (Site.start Site.null_talk false)).2 = Ok None
  ∧ errors (parse_metadata Site.safe_load ["talks"; "n"; "metadata.yml"]
              (Site.start Site.null_talk false)).1.1
    = ["Error parsing talks/n/metadata.yml: argument of type 'NoneType' is not iterable"]
  ∧ Forall (λ f, "Error parsing talks/n/metadata.yml: Missing required field: " +:+ f
                 ∉ errors (parse_metadata Site.safe_load ["talks"; "n"; "metadata.yml"]
                             (Site.start Site.null_talk false)).1.1)
      required_fields.
Proof.
  split_and!.
  - eexists. split_and!; vm_compute; reflexivity.
  - vm_compute. reflexivity.
  - vm_compute. reflexivity.
  - assert (errors (parse_metadata Site.safe_load ["talks"; "n"; "metadata.yml"]
              (Site.start Site.null_talk false)).1.1
    = ["Error parsing talks/n/metadata.yml: argument of type 'NoneType' is not iterable"]) as ->
      by (vm_compute; reflexivity).
    repeat constructor; intros Hin; apply list_elem_of_singleton in Hin; discriminate Hin.
Qed.

(** C9 on a talk without date that bears the marker, force-mode off. *)
Lemma broken_metadata_is_never_skipped_witness :
  talk_processed Site.with_failures ["out"] "d" = true
  ∧ ∃ msg,
      process_talk Site.safe_load Site.script_sh ["talks"; "d"]
        (Site.start Site.with_failures false)
      = ((add_error msg (init ["talks"] ["out"] false),
          {| files := Site.with_failures; calls := [] |}), Ok false)
      ∧ skipped_talks (process_talk Site.safe_load Site.script_sh ["talks"; "d"]
                         (Site.start Site.with_failures false)).1.1 = []
      ∧ processed_talks (process_talk Site.safe_load Site.script_sh ["talks"; "d"]
                           (Site.start Site.with_failures false)).1.1 = []
      ∧ errors (process_talk Site.safe_load Site.script_sh ["talks"; "d"]
                  (Site.start Site.with_failures false)).1.1 = [] ++ [msg].
Proof.
  split; [by vm_compute|].
  apply (broken_metadata_is_never_skipped Site.safe_load Site.script_sh ["talks"; "d"]
           (Site.start Site.with_failures false)).
  right. by vm_compute.
Defined.

(** C1 on talk [a], converted by an earlier run: skipped without
    force-mode, and the converter not called; converted again with it. *)
Lemma completed_talk_is_skipped_unless_forced_witness :
  ((process_talk Site.safe_load Site.script_sh ["talks"; "a"]
      (Site.start (Site.a_converted Site.three_talks) false)).2 = Ok true
   ∧ skipped_talks (process_talk Site.safe_load Site.script_sh ["talks"; "a"]
                      (Site.start (Site.a_converted Site.three_talks) false)).1.1 = ["a"]
   ∧ calls (process_talk Site.safe_load Site.script_sh ["talks"; "a"]
              (Site.start (Site.a_converted Site.three_talks) false)).1.2 = [])
  ∧ calls (process_talk Site.safe_load Site.script_sh ["talks"; "a"]
             (Site.start (Site.a_converted Site.three_talks) true)).1.2
    = [["./script.sh"; "-p"; "talks/a/a.pdf"; "-o"; "out/a"; "-t"; "Talk A"; "-f"]]
  ∧ skipped_talks (process_talk Site.safe_load Site.script_sh ["talks"; "a"]
                     (Site.start (Site.a_converted Site.three_talks) true)).1.1 = [].
Proof.
  split.
  - pose proof (completed_talk_is_skipped_unless_forced Site.safe_load Site.script_sh
      ["talks"; "a"] (Site.start (Site.a_converted Site.three_talks) false) Site.talk_a) as H.
    assert (path_exists (files (Site.start (Site.a_converted Site.three_talks) false).2)
              (["talks"; "a"] // "metadata.yml") = true) as H1 by (vm_compute; reflexivity).
    assert (parse_metadata Site.safe_load (["talks"; "a"] // "metadata.yml")
              (Site.start (Site.a_converted Site.three_talks) false)
            = (Site.start (Site.a_converted Site.three_talks) false,
               Ok (Some (PDict Site.talk_a)))) as H2 by (vm_compute; reflexivity).
    destruct (H H1 H2) as [Hskip _].
    assert (talk_processed (files (Site.start (Site.a_converted Site.three_talks) false).2)
              (output_dir (Site.start (Site.a_converted Site.three_talks) false).1)
              (path_name ["talks"; "a"]) = true) as H3 by (vm_compute; reflexivity).
    destruct (Hskip eq_refl H3) as (Hr & Hs & _ & _ & Hw).
    split; [exact Hr|]. split; [exact Hs|]. by rewrite Hw.
  - pose proof (completed_talk_is_skipped_unless_forced Site.safe_load Site.script_sh
      ["talks"; "a"] (Site.start (Site.a_converted Site.three_talks) true) Site.talk_a) as H.
    assert (path_exists (files (Site.start (Site.a_converted Site.three_talks) true).2)
              (["talks"; "a"] // "metadata.yml") = true) as H1 by (vm_compute; reflexivity).
    assert (parse_metadata Site.safe_load (["talks"; "a"] // "metadata.yml")
              (Site.start (Site.a_converted Site.three_talks) true)
            = (Site.start (Site.a_converted Site.three_talks) true,
               Ok (Some (PDict Site.talk_a)))) as H2 by (vm_compute; reflexivity).
    destruct (H H1 H2) as [_ Hforce].
    assert (Site.talk_a !! "pdf" = Some (PStr "a.pdf")) as H3 by (vm_compute; reflexivity).
    assert (Site.talk_a !! "title" = Some (PStr "Talk A")) as H4 by (vm_compute; reflexivity).
    assert (exists_walked (files (Site.start (Site.a_converted Site.three_talks) true).2)
              (path_join_str ["talks"; "a"] "a.pdf") = true) as H5 by (vm_compute; reflexivity).
    assert (mkdir (files (Site.start (Site.a_converted Site.three_talks) true).2)
              (output_dir (Site.start (Site.a_converted Site.three_talks) true).1
               // path_name ["talks"; "a"])
            = Ok (Site.a_converted Site.three_talks)) as H6.
    { apply mkdir_noop. intros [|[|k]] Hk; [vm_compute; reflexivity..|simpl in Hk; lia]. }
    exact (Hforce eq_refl "a.pdf" "Talk A" _ H3 H4 H5 H6).
Defined.

(** C7 on the site without its template. *)
Lemma missing_template_writes_nothing_witness :
  (generate_landing_page Site.markdown_markdown Site.re_sub Site.repr_container Site.today
     (Site.start Site.no_template false)).2 = Ok false
  ∧ errors (generate_landing_page Site.markdown_markdown Site.re_sub Site.repr_container
              Site.today (Site.start Site.no_template false)).1.1
    = ["Template file not found: templates/landing.html"]
  ∧ files (generate_landing_page Site.markdown_markdown Site.re_sub Site.repr_container
             Site.today (Site.start Site.no_template false)).1.2 !! ["out"; "index.html"]
    = None.
Proof.
  destruct (missing_template_writes_nothing Site.markdown_markdown Site.re_sub
              Site.repr_container Site.today (Site.start Site.no_template false))
    as (Hr & He & _ & _ & _ & Hf); [by vm_compute|].
  split; [exact Hr|]. split; [exact He|].
  change ["out"; "index.html"] with (output_dir (Site.start Site.no_template false).1 // "index.html").
  rewrite Hf. vm_compute. reflexivity.
Defined.

(** C10 on the talk whose presentation does not convert: two runs, two
    conversions. *)
Lemma failed_conversion_is_retried_witness :
  (process_talk Site.safe_load Site.script_sh ["talks"; "x"]
     (Site.start Site.with_failures false)).2 = Ok false
  ∧ errors (process_talk Site.safe_load Site.script_sh ["talks"; "x"]
              (Site.start Site.with_failures false)).1.1
    = ["Error processing x: cannot read presentation"]
  ∧ calls (process_talk Site.safe_load Site.script_sh ["talks"; "x"]
             (init ["talks"] ["out"] false,
              (process_talk Site.safe_load Site.script_sh ["talks"; "x"]
                 (Site.start Site.with_failures false)).1.2)).1.2
    = [["./script.sh"; "-p"; "talks/x/broken.pdf"; "-o"; "out/x"; "-t"; "Talk X"];
       ["./script.sh"; "-p"; "talks/x/broken.pdf"; "-o"; "out/x"; "-t"; "Talk X"]].
Proof.
  pose proof (failed_conversion_is_retried Site.safe_load Site.script_sh ["talks"; "x"]
    (Site.start Site.with_failures false) Site.talk_x "broken.pdf" "Talk X"
    "cannot read presentation" Site.with_failures) as H.
  cbv zeta in H.
  assert (path_exists Site.with_failures (["talks"; "x"] // "metadata.yml") = true) as H1
    by (vm_compute; reflexivity).
  assert (parse_metadata Site.safe_load (["talks"; "x"] // "metadata.yml")
            (Site.start Site.with_failures false)
          = (Site.start Site.with_failures false, Ok (Some (PDict Site.talk_x)))) as H2
    by (vm_compute; reflexivity).
  assert (Site.talk_x !! "pdf" = Some (PStr "broken.pdf")) as H3 by (vm_compute; reflexivity).
  assert (Site.talk_x !! "title" = Some (PStr "Talk X")) as H4 by (vm_compute; reflexivity).
  assert (exists_walked Site.with_failures (path_join_str ["talks"; "x"] "broken.pdf") = true)
    as H5 by (vm_compute; reflexivity).
  assert (Site.with_failures !! (["out"] // path_name ["talks"; "x"] // "index.html") = None) as H6
    by (vm_compute; reflexivity).
  assert (mkdir Site.with_failures (["out"] // path_name ["talks"; "x"])
          = Ok Site.with_failures) as H7.
  { apply mkdir_noop. intros [|[|k]] Hk; [vm_compute; reflexivity..|simpl in Hk; lia]. }
  assert ((Site.script_sh
             ["./script.sh"; "-p"; path_str (joined_path (path_join_str ["talks"; "x"] "broken.pdf"));
              "-o"; path_str (["out"] // path_name ["talks"; "x"]); "-t"; "Talk X"]
             Site.with_failures)
          = (Site.with_failures, Raise (CalledProcessError "cannot read presentation"))) as H8
    by (vm_compute; reflexivity).
  destruct (H eq_refl H1 H2 H3 H4 H5 H6 H7 (f_equal snd H8)) as (_ & _ & Hfirst & Herr & Hagain).
  split_and!.
  - by rewrite Hfirst.
  - rewrite Herr. vm_compute. reflexivity.
  - rewrite (Hagain (init ["talks"] ["out"] false) Site.with_failures eq_refl eq_refl).
    + vm_compute. reflexivity.
    + rewrite Hfirst. exact H1.
    + rewrite Hfirst. vm_compute. reflexivity.
    + rewrite Hfirst. exact H5.
    + rewrite Hfirst. exact H6.
    + rewrite Hfirst. exact H7.
Defined.


(** C8 as the spec has it fails on two paragraphs: the rendering has two
    top-level elements and is not returned as it is. *)
Lemma two_paragraphs_are_cut :
  Site.markdown_markdown Site.two_paragraphs = "<p>a</p>" +:+ nl +:+ "<p>b</p>"
  ∧ markdown_to_html Site.markdown_markdown Site.two_paragraphs = "a</p>" +:+ nl +:+ "<p>b"
  ∧ markdown_to_html Site.markdown_markdown Site.two_paragraphs
    ≠ Site.markdown_markdown Site.two_paragraphs.
Proof. split_and!; by vm_compute. Qed.

(** C8 as the code has it, on the two paragraphs. *)
Lemma paragraph_ends_are_stripped_witness :
  markdown_to_html Site.markdown_markdown Site.two_paragraphs = "a</p>" +:+ nl +:+ "<p>b".
Proof.
  destruct (paragraph_ends_are_stripped Site.markdown_markdown Site.two_paragraphs) as [H _].
  apply H. by vm_compute.
Defined.

(** ** A batch with talks that fail *)

Lemma with_failures_ready : mkdir Site.with_failures ["out"] = Ok Site.with_failures.
Proof. apply mkdir_noop. intros [|k] Hk; [vm_compute; reflexivity|simpl in Hk; lia]. Qed.

Lemma mixed_run_listed :
  processed_talks Site.mixed_run.1
  = [PDict (<["handle" := PStr "a"]> Site.talk_a); PDict (<["handle" := PStr "b"]> Site.talk_b)].
Proof. vm_compute. reflexivity. Qed.

Lemma mixed_run_errors :
  errors Site.mixed_run.1
  = ["Error parsing talks/d/metadata.yml: Missing required field: date";
     "Error parsing talks/e/metadata.yml: Missing required field: description";
     "Error processing x: cannot read presentation"].
Proof. vm_compute. reflexivity. Qed.

Lemma mixed_run_page :
  generate_landing_page Site.markdown_markdown Site.re_sub Site.repr_container Site.today
    Site.mixed_run
  = ((generate_landing_page Site.markdown_markdown Site.re_sub Site.repr_container Site.today
        Site.mixed_run).1, Ok true).
Proof.
  assert ((generate_landing_page Site.markdown_markdown Site.re_sub Site.repr_container
             Site.today Site.mixed_run).2 = Ok true) as Hok by (vm_compute; reflexivity).
  rewrite <-Hok. apply surjective_pairing.
Qed.


Lemma quoted_run_listed :
  processed_talks Site.quoted_run.1
  = [PDict (<["handle" := PStr "a"]> Site.talk_a); PDict (<["handle" := PStr "q"]> Site.talk_q)].
Proof. vm_compute. reflexivity. Qed.

(** C2 as the spec has it fails on a batch with a talk whose highlight
    is a string: the talk converts and is recorded, the rendering of
    the page raises, the run raises with it, and talk [a], processed
    without fault, is in no listing, for no page is written. *)
Lemma ill_typed_talk_aborts_the_batch :
  (∃ e, Site.run Site.today Site.as_submitted (Site.start Site.quoted_batch false)
        = (Site.quoted_run, Raise e))
  ∧ processed_talks Site.quoted_run.1
    = [PDict (<["handle" := PStr "a"]> Site.talk_a); PDict (<["handle" := PStr "q"]> Site.talk_q)]
  ∧ errors Site.quoted_run.1 = ["Error processing x: cannot read presentation"]
  ∧ files Site.quoted_run.2 !! ["out"; "index.html"] = None.
Proof.
  split_and!.
  - eexists. vm_compute. reflexivity.
  - exact quoted_run_listed.
  - vm_compute. reflexivity.
  - vm_compute. reflexivity.
Qed.

(** ** Two runs over the three talks *)

(** The toy converter keeps to the directory it is given and leaves the
    viewer page there. *)
Lemma site_converter_confined (h : string) :
  Site.split_at "/" (path_str (["out"] // h)) = ["out"; h] →
  converter_confined Site.script_sh ["out"] ["talks"; h].
Proof.
  intros Hsplit cmd fs q Hcmd Hq.
  change (path_name ["talks"; h]) with h in *.
  destruct cmd as [|c0 [|c1 [|c2 [|c3 [|c4 rest]]]]]; try done.
  injection Hcmd as ->. unfold Site.script_sh.
  change (Site.split_at "/" ("out" +:+ "/" +:+ h))
    with (Site.split_at "/" (path_str (["out"] // h))).
  rewrite Hsplit.
  destruct (endswith c2 "broken.pdf"); [done|].
  cbn [fst]. rewrite !lookup_insert_ne; [done|..];
    intros <-; apply Hq; by eexists.
Qed.

Lemma site_converter_marks (h : string) :
  Site.split_at "/" (path_str (["out"] // h)) = ["out"; h] →
  converter_marks Site.script_sh ["out"] ["talks"; h].
Proof.
  intros Hsplit cmd fs stdout Hcmd Hdir.
  change (path_name ["talks"; h]) with h in *.
  destruct cmd as [|c0 [|c1 [|c2 [|c3 [|c4 rest]]]]]; try done.
  injection Hcmd as ->. unfold Site.script_sh.
  change (Site.split_at "/" ("out" +:+ "/" +:+ h))
    with (Site.split_at "/" (path_str (["out"] // h))).
  rewrite Hsplit.
  destruct (endswith c2 "broken.pdf"); [done|].
  cbn [fst snd]. intros _. unfold talk_processed, path_exists.
  rewrite lookup_insert_eq. cbn [andb].
  unfold is_dir in *. change (["out"] // h) with ["out"; h] in *.
  by rewrite !lookup_insert_ne.
Qed.

Lemma first_run_ok :
  Site.run Site.today Site.as_submitted (Site.start Site.three_talks false) = (Site.first_run, Ok tt).
Proof.
  assert ((Site.run Site.today Site.as_submitted (Site.start Site.three_talks false)).2 = Ok tt)
    as Hok by (vm_compute; reflexivity).
  unfold Site.first_run. rewrite <-Hok. apply surjective_pairing.
Qed.

Lemma first_run_errors : errors Site.first_run.1 = [].
Proof. vm_compute. reflexivity. Qed.

Lemma three_talks_dirs :
  talk_dirs Site.three_talks ["talks"] = [["talks"; "c"]; ["talks"; "b"]; ["talks"; "a"]].
Proof. vm_compute. reflexivity. Qed.

Lemma three_talks_converter d :
  d ∈ talk_dirs Site.three_talks ["talks"] →
  converter_confined Site.script_sh ["out"] d ∧ converter_marks Site.script_sh ["out"] d.
Proof.
  rewrite three_talks_dirs. intros Hd.
  repeat (apply elem_of_cons in Hd as [->|Hd]);
    [| | |by apply elem_of_nil in Hd];
    (split; [apply site_converter_confined|apply site_converter_marks]);
    vm_compute; reflexivity.
Qed.

Lemma first_run_names :
  map path_name
    (Site.as_submitted (sorted path_ltb id false (talk_dirs (files Site.first_run.2) ["talks"])))
  = ["a"; "b"; "c"].
Proof. vm_compute. reflexivity. Qed.

Lemma apart (a b : string) : a ≠ b → ¬ [a] `prefix_of` [b].
Proof. intros Hab [k Hk]. by injection Hk. Qed.

(** Every descriptor of the small site names its presentation plainly. *)
Lemma site_plain_pdfs : plain_pdfs Site.safe_load.
Proof.
  intros text d t pdf Hload Hd Ht. unfold Site.safe_load, Site.documents in Hload.
  cbn [List.find fst snd] in Hload.
  repeat (match type of Hload with
          | (match (if ?b then _ else _) with _ => _ end) = _ => destruct b
          end;
          [injection Hload as <-; vm_compute in Hd; try discriminate Hd;
           injection Hd as <-; vm_compute in Ht; try discriminate Ht;
           injection Ht as <-;
           (split_and!; [vm_compute; reflexivity..|discriminate])|]).
  discriminate Hload.
Qed.


(** ** Single talks and the page on the small site *)

(** X7 on talk [a] without its presentation. *)
Lemma missing_presentation_is_reported_witness :
  (process_talk Site.safe_load Site.script_sh ["talks"; "a"]
     (Site.start Site.pdf_missing false)).2 = Ok false
  ∧ errors (process_talk Site.safe_load Site.script_sh ["talks"; "a"]
              (Site.start Site.pdf_missing false)).1.1
    = ["PDF file not found: talks/a/a.pdf"].
Proof.
  destruct (missing_presentation_is_reported Site.safe_load Site.script_sh
              ["talks"; "a"] (Site.start Site.pdf_missing false) Site.talk_a "a.pdf")
    as (Hr & He & _).
  - vm_compute. reflexivity.
  - vm_compute. reflexivity.
  - vm_compute. reflexivity.
  - vm_compute. reflexivity.
  - vm_compute. reflexivity.
  - split; [exact Hr|]. rewrite He. vm_compute. reflexivity.
Defined.

(** X10 on a batch that has recorded talk [a] with a quoted highlight. *)
Lemma ill_typed_field_breaks_the_page_witness :
  ∃ e, generate_landing_page Site.markdown_markdown Site.re_sub Site.repr_container Site.today
         (add_processed (PDict Site.talk_quoted) (init ["talks"] ["out"] false),
          {| files := Site.three_talks; calls := [] |})
       = ((add_processed (PDict Site.talk_quoted) (init ["talks"] ["out"] false),
           {| files := Site.three_talks; calls := [] |}), Raise e).
Proof.
  apply (ill_typed_field_breaks_the_page Site.markdown_markdown Site.re_sub
           Site.repr_container Site.today
           (add_processed (PDict Site.talk_quoted) (init ["talks"] ["out"] false),
            {| files := Site.three_talks; calls := [] |}) Site.talk_quoted).
  - vm_compute. reflexivity.
  - apply list_elem_of_here.
  - right. exists "3". vm_compute. reflexivity.
Defined.

(** X13 on a talk whose section is the sequence of the field names. *)
Lemma talk_section_that_is_no_mapping_is_never_listed_witness :
  ∃ e, (process_talk Site.load_sequence Site.script_sh ["talks"; "s"]
          (Site.start Site.sequence_talk false)).2 = Raise e
    ∧ processed_talks
        (run_talk Site.load_sequence Site.script_sh ["talks"; "s"]
           (Site.start Site.sequence_talk false)).1.1
      = processed_talks (Site.start Site.sequence_talk false).1
    ∧ errors
        (run_talk Site.load_sequence Site.script_sh ["talks"; "s"]
           (Site.start Site.sequence_talk false)).1.1
      = errors (Site.start Site.sequence_talk false).1
        ++ [unexpected_error ["talks"; "s"] e]
    ∧ files
        (run_talk Site.load_sequence Site.script_sh ["talks"; "s"]
           (Site.start Site.sequence_talk false)).1.2
      = files (Site.start Site.sequence_talk false).2.
Proof.
  apply (talk_section_that_is_no_mapping_is_never_listed Site.load_sequence Site.script_sh
           ["talks"; "s"] (Site.start Site.sequence_talk false) Site.field_names).
  - vm_compute. reflexivity.
  - vm_compute. reflexivity.
  - intros t. discriminate.
Defined.

Lemma a_started_ready : mkdir Site.a_started ["out"; "a"] = Ok Site.a_started.
Proof.
  apply mkdir_noop. intros [|[|k]] Hk; [vm_compute; reflexivity..|simpl in Hk; lia].
Qed.

Lemma out_ready : output_ready Site.a_started ["out"].
Proof. intros [|k] Hk; [vm_compute; reflexivity|simpl in Hk; lia]. Qed.



(** X9 on a batch that has recorded talk [a]: the page is written and
    the presentation of the talk is as it was. *)
Lemma landing_page_is_the_only_file_written_witness :
  (∃ template html,
     read_text (files Site.a_listed.2) template_file = Ok template
     ∧ landing_html Site.markdown_markdown Site.re_sub Site.repr_container Site.today
         (files Site.a_listed.2) (output_dir Site.a_listed.1)
         (processed_talks Site.a_listed.1) template = Ok html
     ∧ files (generate_landing_page Site.markdown_markdown Site.re_sub Site.repr_container
                Site.today Site.a_listed).1.2 !! (output_dir Site.a_listed.1 // "index.html")
       = Some (File html))
  ∧ files (generate_landing_page Site.markdown_markdown Site.re_sub Site.repr_container
             Site.today Site.a_listed).1.2 !! ["talks"; "a"; "a.pdf"]
    = files Site.a_listed.2 !! ["talks"; "a"; "a.pdf"].
Proof.
  destruct (landing_page_is_the_only_file_written Site.markdown_markdown Site.re_sub
              Site.repr_container Site.today Site.a_listed) as (_&_&_&Hframe&_&Hpage).
  split.
  - apply Hpage. vm_compute. reflexivity.
  - apply Hframe. discriminate.
Defined.

(** X11 on templates with a stylesheet and no picture. *)
Lemma assets_are_copied_when_present_witness :
  files (copy_assets (init ["talks"] ["out"] false,
                      {| files := Site.with_style; calls := [] |})).1.2
    !! (output_dir (init ["talks"] ["out"] false,
                    {| files := Site.with_style; calls := [] |}).1 // "style.css")
  = Some (File "body {}").
Proof.
  destruct (assets_are_copied_when_present
              (init ["talks"] ["out"] false, {| files := Site.with_style; calls := [] |}))
    as (_&_&_&Hcopied).
  apply Hcopied.
  - by left.
  - vm_compute. reflexivity.
  - vm_compute. reflexivity.
  - vm_compute. reflexivity.
Defined.

(** ** A run that lists nothing *)

Lemma failed_run_ok :
  Site.run Site.today Site.as_submitted (Site.start Site.only_failures false)
  = (Site.failed_run, Ok tt).
Proof.
  assert ((Site.run Site.today Site.as_submitted (Site.start Site.only_failures false)).2
          = Ok tt) as Hok by (vm_compute; reflexivity).
  unfold Site.failed_run. rewrite <-Hok. apply surjective_pairing.
Qed.

Lemma failed_run_lists_nothing :
  processed_talks Site.failed_run.1 = [] ∧ length (errors Site.failed_run.1) = 2%nat.
Proof. split; vm_compute; reflexivity. Qed.

Lemma only_failures_dirs :
  talk_dirs Site.only_failures ["talks"] = [["talks"; "x"]; ["talks"; "d"]].
Proof. vm_compute. reflexivity. Qed.

Lemma only_failures_converter fs d :
  mkdir Site.only_failures ["out"] = Ok fs →
  d ∈ talk_dirs fs ["talks"] →
  converter_confined Site.script_sh ["out"] d ∧ path_name d ≠ "index.html".
Proof.
  rewrite mkdir_noop
    by (intros [|k] Hk; [vm_compute; reflexivity|simpl in Hk; lia]).
  intros [= <-]. rewrite only_failures_dirs. intros Hd.
  repeat (apply elem_of_cons in Hd as [->|Hd]); [| |by apply elem_of_nil in Hd];
    (split; [apply site_converter_confined; vm_compute; reflexivity|discriminate]).
Qed.

(** X15 on the two talks that cannot be listed: the old page stays. *)
Lemma no_listed_talk_no_page_witness :
  length (errors Site.failed_run.1) = 2%nat
  ∧ files Site.failed_run.2 !! (output_dir (Site.start Site.only_failures false).1 // "index.html")
    = files (Site.start Site.only_failures false).2
        !! (output_dir (Site.start Site.only_failures false).1 // "index.html").
Proof.
  split; [exact (proj2 failed_run_lists_nothing)|].
  exact (no_listed_talk_no_page Site.safe_load Site.markdown_markdown Site.re_sub
           Site.script_sh Site.repr_container Site.today Site.as_submitted
           (Site.start Site.only_failures false) Site.failed_run
           (λ l, reflexivity l) only_failures_converter failed_run_ok
           (proj1 failed_run_lists_nothing)).
Defined.
